(** * Python_Assignment_IU: best-fit selection, test validation and plotting

    A shallow embedding of the two scripts of the repository:

    - [Task01] embeds [DataHandler] of [Task01/Python_task01.py]: loading the
      ideal and training tables, the least-squares choice of an ideal column
      for every training column, and the validation of test points.
    - [Task02] embeds [Task02/Task_02_seg_def.py]: loading a table, keeping
      its numeric columns, the unit-test fixture and the battery of plots.
    - [Dtyped] embeds [DataHandler] once more, over the arithmetic of the
      dtype of the columns: [Int64] (differences, squares and sums wrap
      around on 64 bits) and [Binary64] (binary64 floats with rounding,
      infinities and NaN; the threshold factor [2**0.5] is a double).

    Numbers.  pandas computes in the dtype of the columns.  What is proved of
    the sums of squared differences and of the threshold test of
    [validate_test_data] is proved in [Dtyped].  [Task01] computes on exact
    rationals ([Q]): it serves for what does not depend on the arithmetic
    (which entries the mapping has, which columns are indexed, what is read,
    raised, printed and plotted) and as the exact sums and the exact
    square root of 2 with which the computed ones are compared.  The two
    places where pandas itself produces NaN are modelled in both: rows
    present in only one of two subtracted columns are skipped by [sum] and
    [max], and [max] of no value at all is NaN, which compares false with
    everything.

    Effects.  Python statements run in a state-and-exception monad.  The state
    holds the object [self] and the trace of observable events (files read,
    exceptions raised by library calls, text printed, figures shown). *)

From Stdlib Require Import PrimFloat FloatOps SpecFloat FloatAxioms Uint63.
From Stdlib Require Import List String Bool Arith Lia.
From Stdlib Require Import QArith Qabs Reals Lra Qreals.
From Stdlib Require Import DecimalString.
Import ListNotations.

Local Open Scope nat_scope.
Local Open Scope string_scope.
Local Open Scope list_scope.

(* ===================================================================== *)
(** * Exceptions and the state-and-exception monad                        *)
(* ===================================================================== *)

(** The exceptions library calls raise in the two scripts. *)
Inductive exn : Type :=
| KeyError (key : string)       (* df[key], row[key] on a missing label *)
| ValueError (msg : string)     (* min() of an empty iterable *)
| OSError (msg : string)        (* pd.read_csv on a missing or unreadable file *)
| AssertionError (msg : string). (* a failed unittest assertion *)

Inductive result (A : Type) : Type :=
| Ok (a : A)
| Raise (e : exn).
Arguments Ok {A} a.
Arguments Raise {A} e.

Definition M (S A : Type) : Type := S -> S * result A.

Definition ret {S A} (a : A) : M S A := fun s => (s, Ok a).

Definition bind {S A B} (m : M S A) (k : A -> M S B) : M S B :=
  fun s => match m s with
           | (s', Ok a) => k a s'
           | (s', Raise e) => (s', Raise e)
           end.

Notation "x <- c ;; k" := (bind c (fun x => k))
  (at level 61, c at next level, right associativity).
Notation "c ;;; k" := (bind c (fun _ => k))
  (at level 61, right associativity).

(** [for a in l: acc = body(acc, a)]: a Python [for] loop whose body updates
    the local variables [acc]; an exception leaves the loop. *)
Fixpoint for_each {S A B} (l : list A) (acc : B) (body : B -> A -> M S B)
  : M S B :=
  match l with
  | [] => ret acc
  | a :: l' => acc' <- body acc a ;; for_each l' acc' body
  end.

(* ===================================================================== *)
(** * Numeric columns                                                     *)
(* ===================================================================== *)

Definition Series : Type := list Q.

Definition Qlt_bool (a b : Q) : bool := negb (Qle_bool b a).

(** [a - b] on two columns with the default index [0..n-1]: positions present
    in only one operand become NaN and are skipped by [sum] and [max] below,
    so only the common positions are kept. *)
Definition series_sub (a b : Series) : Series :=
  map (fun p => (fst p - snd p)%Q) (combine a b).

(** [s ** 2] *)
Definition series_sq (s : Series) : Series := map (fun v => (v ^ 2)%Q) s.

(** [abs(s)] *)
Definition series_abs (s : Series) : Series := map Qabs s.

(** [s.sum()]: 0 on no value. *)
Definition series_sum (s : Series) : Q := fold_left Qplus s 0%Q.

Definition Qmax_bool (a b : Q) : Q := if Qle_bool a b then b else a.

(** [s.max()]: NaN ([None]) on no value. *)
Definition series_max (s : Series) : option Q :=
  match s with
  | [] => None
  | v :: r => Some (fold_left Qmax_bool r v)
  end.

(** [((a - b)**2).sum()] over exact numbers: the sum of squared differences
    itself.  What [int64] and [float64] columns compute in its place is
    [Dtyped.sum_sq_diff]. *)
Definition sum_sq_diff (a b : Series) : Q :=
  series_sum (series_sq (series_sub a b)).

(** [abs(a - b).max()] *)
Definition max_abs_diff (a b : Series) : option Q :=
  series_max (series_abs (series_sub a b)).

(** [deviation <= max_dev * (2**0.5)] over exact numbers, with the square
    root of 2 itself: as both [deviation] and [max_dev] are absolute values
    at the call site, the test is decided on the squares; [le_sqrt2_spec]
    below relates it to the inequality over the reals.  A NaN [max_dev]
    compares false.  The test as [int64] and [float64] columns evaluate it,
    with the double [2**0.5], is [Dtyped.within]. *)
Definition le_sqrt2 (deviation max_dev : Q) : bool :=
  Qle_bool (deviation * deviation) (2 * (max_dev * max_dev)).

Definition le_sqrt2_times (deviation : Q) (max_dev : option Q) : bool :=
  match max_dev with
  | None => false
  | Some m => le_sqrt2 deviation m
  end.

(* ===================================================================== *)
(** * Tables and dictionaries                                             *)
(* ===================================================================== *)

(** A numeric [DataFrame] as [pd.read_csv] builds it: the columns in file
    order, each a label and its values, over the default index. *)
Definition DataFrame : Type := list (string * Series).

(** [df.columns] *)
Definition columns (df : DataFrame) : list string := map fst df.

(** [df.columns[1:]] *)
Definition columns_from_1 (df : DataFrame) : list string := tl (columns df).

Fixpoint lookup {V} (d : list (string * V)) (k : string) : option V :=
  match d with
  | [] => None
  | (k', v) :: d' => if String.eqb k' k then Some v else lookup d' k
  end.

(** [df[key]] *)
Definition getitem (df : DataFrame) (key : string) : result Series :=
  match lookup df key with
  | Some s => Ok s
  | None => Raise (KeyError key)
  end.

(** Number of rows: the length of the index. *)
Definition nrows (df : DataFrame) : nat :=
  match df with
  | [] => 0
  | (_, s) :: _ => List.length s
  end.

(** What [pd.read_csv] guarantees: distinct labels, columns of one length. *)
Fixpoint unique_labels (l : list string) : bool :=
  match l with
  | [] => true
  | k :: l' => negb (existsb (String.eqb k) l') && unique_labels l'
  end.

Definition wf_frame (df : DataFrame) : bool :=
  unique_labels (columns df)
  && forallb (fun c => Nat.eqb (List.length (snd c)) (nrows df)) df.


(** A Python [dict] with string keys: the items in insertion order. *)
Definition dict (V : Type) : Type := list (string * V).

(** [d[k] = v]: an existing key keeps its place, a new key goes last. *)
Fixpoint dict_set {V} (d : dict V) (k : string) (v : V) : dict V :=
  match d with
  | [] => [(k, v)]
  | (k', v') :: d' =>
      if String.eqb k' k then (k', v) :: d' else (k', v') :: dict_set d' k v
  end.

(** [min(d, key=d.get)]: the keys are visited in insertion order and the
    current best is replaced only by a key with a strictly smaller value. *)
Fixpoint min_from (best : string * Q) (rest : dict Q) : string :=
  match rest with
  | [] => fst best
  | kv :: r =>
      if Qlt_bool (snd kv) (snd best) then min_from kv r else min_from best r
  end.

Definition min_by_value (d : dict Q) : result string :=
  match d with
  | [] => Raise (ValueError "min() arg is an empty sequence")
  | kv :: r => Ok (min_from kv r)
  end.

(** A row as [df.iterrows()] yields it: label and value of every column. *)
Definition Row : Type := list (string * Q).

Definition row_at (df : DataFrame) (i : nat) : Row :=
  map (fun c => (fst c, nth i (snd c) 0%Q)) df.

(** [df.iterrows()] *)
Definition iterrows (df : DataFrame) : list Row :=
  map (row_at df) (seq 0 (nrows df)).

(** [row[key]] *)
Definition row_getitem (row : Row) (key : string) : result Q :=
  match lookup row key with
  | Some v => Ok v
  | None => Raise (KeyError key)
  end.

(** [v in s.values] *)
Definition contains (s : Series) (v : Q) : bool := existsb (Qeq_bool v) s.

(** [df.loc[xs == v, col]] given the two columns: the values of [col] in the
    rows whose [xs] equals [v], in row order. *)
Definition loc_eq (xs : Series) (v : Q) (col : Series) : Series :=
  map snd (filter (fun p => Qeq_bool (fst p) v) (combine xs col)).

(* ===================================================================== *)
(** * Task01/Python_task01.py                                             *)
(* ===================================================================== *)

Module Task01.

(** The attributes of a [DataHandler] object. *)
Record DataHandler : Type := {
  ideal_df : DataFrame;
  train_df : DataFrame
}.

(** An element of [results]: [(x_val, y_val, ideal_col, deviation)]. *)
Definition Hit : Type := (Q * Q * string * Q)%type.

Inductive Printed : Type :=
| PrintBestFit (best_fit : dict string)
| PrintValidated (first10 : list Hit).

Inductive Event : Type :=
| EvReadCsv (path : string)     (* pd.read_csv(path) was called *)
| EvRaise (e : exn)             (* a library call raised e *)
| EvPrint (p : Printed).        (* print(...) *)

(** The world a statement runs in: the object bound to [self], the files
    on disk as [pd.read_csv] sees them, and the events so far. *)
Record State (Obj : Type) : Type := {
  self : Obj;
  files : string -> result DataFrame;
  trace : list Event
}.
Arguments self {Obj} s.
Arguments files {Obj} s.
Arguments trace {Obj} s.

Definition log {Obj} (ev : Event) : M (State Obj) unit :=
  fun s => ({| self := self s; files := files s; trace := trace s ++ [ev] |},
            Ok tt).

(** The outcome [r] of a library call: a raised exception is an event. *)
Definition lib {Obj A} (r : result A) : M (State Obj) A :=
  match r with
  | Ok a => ret a
  | Raise e => log (EvRaise e) ;;; (fun s => (s, Raise e))
  end.

(** [pd.read_csv(path)] *)
Definition read_csv {Obj} (path : string) : M (State Obj) DataFrame :=
  log (EvReadCsv path) ;;; (fun s => lib (files s path) s).

(** [self.field] *)
Definition attr {Obj A} (field : Obj -> A) : M (State Obj) A :=
  fun s => (s, Ok (field (self s))).

(** [self.field[key]] *)
Definition self_getitem {Obj} (field : Obj -> DataFrame) (key : string)
  : M (State Obj) Series :=
  df <- attr field ;; lib (getitem df key).

(** [print(...)] *)
Definition print {Obj} (p : Printed) : M (State Obj) unit := log (EvPrint p).

(** [DataHandler.__init__(self, ideal_file, train_file)]; the new object is
    the result. *)
Definition init (ideal_file train_file : string)
  : M (State unit) DataHandler :=
  i <- read_csv ideal_file ;;
  t <- read_csv train_file ;;
  ret {| ideal_df := i; train_df := t |}.

(** The dict comprehension of [get_best_fit_functions] for one [col]. *)
Definition deviations_for (col : string) : M (State DataHandler) (dict Q) :=
  ideal_cols <- attr (fun h => columns_from_1 (ideal_df h)) ;;
  for_each ideal_cols [] (fun deviations ideal_col =>
    t <- self_getitem train_df col ;;
    i <- self_getitem ideal_df ideal_col ;;
    ret (dict_set deviations ideal_col (sum_sq_diff t i))).

(** [DataHandler.get_best_fit_functions(self)] *)
Definition get_best_fit_functions : M (State DataHandler) (dict string) :=
  train_cols <- attr (fun h => columns_from_1 (train_df h)) ;;
  best_fit <- for_each train_cols [] (fun best_fit col =>
    deviations <- deviations_for col ;;
    best <- lib (min_by_value deviations) ;;
    ret (dict_set best_fit col best)) ;;
  print (PrintBestFit best_fit) ;;;
  ret best_fit.

(** The body of the inner loop of [validate_test_data]. *)
Definition validate_pair (x_val y_val : Q) (results : list Hit)
    (item : string * string) : M (State DataHandler) (list Hit) :=
  let train_col := fst item in
  let ideal_col := snd item in
  t <- self_getitem train_df train_col ;;
  i <- self_getitem ideal_df ideal_col ;;
  let max_dev := max_abs_diff t i in
  xs <- self_getitem ideal_df "x" ;;
  ys <- self_getitem ideal_df ideal_col ;;
  let ideal_y_values := loc_eq xs x_val ys in
  match ideal_y_values with
  | [] => ret results
  | ideal_y :: _ =>
      let deviation := Qabs (y_val - ideal_y) in
      if le_sqrt2_times deviation max_dev
      then ret (results ++ [(x_val, y_val, ideal_col, deviation)])
      else ret results
  end.

(** The body of the outer loop of [validate_test_data]. *)
Definition validate_row (best_fit : dict string) (results : list Hit)
    (row : Row) : M (State DataHandler) (list Hit) :=
  x_val <- lib (row_getitem row "x") ;;
  y_val <- lib (row_getitem row "y") ;;
  xs <- self_getitem ideal_df "x" ;;
  if negb (contains xs x_val)
  then ret results
  else for_each best_fit results (validate_pair x_val y_val).

(** [DataHandler.validate_test_data(self, test_file, best_fit)] *)
Definition validate_test_data (test_file : string) (best_fit : dict string)
  : M (State DataHandler) (list Hit) :=
  test_df <- read_csv test_file ;;
  results <- for_each (iterrows test_df) [] (validate_row best_fit) ;;
  print (PrintValidated (firstn 10 results)) ;;;
  ret results.

(** ** Reading a trace *)

(** The paths [pd.read_csv] was called on, in order. *)
Fixpoint reads (tr : list Event) : list string :=
  match tr with
  | [] => []
  | EvReadCsv p :: tr' => p :: reads tr'
  | _ :: tr' => reads tr'
  end.

(** The exceptions library calls raised, in order. *)
Fixpoint raised (tr : list Event) : list exn :=
  match tr with
  | [] => []
  | EvRaise e :: tr' => e :: raised tr'
  | _ :: tr' => raised tr'
  end.

(** How the outcome [r] of a run shows in the events [evs] it added when no
    exception is handled or made up on the way: the run ends with exception
    [e] exactly when its last event is a library call raising [e], and no
    library call raised before. *)
Definition unhandled {A} (r : result A) (evs : list Event) : Prop :=
  match r with
  | Ok _ => raised evs = []
  | Raise e => exists pre, evs = pre ++ [EvRaise e] /\ raised pre = []
  end.

(** A run of [m] from [s] only adds events, and its outcome is [unhandled]. *)
Definition propagates_at {Obj A} (m : M (State Obj) A) (s : State Obj)
  : Prop :=
  exists evs,
    trace (fst (m s)) = trace s ++ evs /\ unhandled (snd (m s)) evs.

(** [m] leaves the object and the files as they are, reads no file, and
    handles no exception. *)
Definition quiet {Obj A} (m : M (State Obj) A) : Prop :=
  forall s,
    self (fst (m s)) = self s /\
    files (fst (m s)) = files s /\
    exists evs,
      trace (fst (m s)) = trace s ++ evs /\
      reads evs = [] /\
      unhandled (snd (m s)) evs.

(** ** Vocabulary of the specification *)

(** The columns after the first one, the [x] column. *)
Definition candidates (df : DataFrame) : list (string * Series) := tl df.

(** The value of [deviations] for a training column of values [tv]: the sum
    of squared differences with every candidate, in column order. *)
Definition deviations_value (h : DataHandler) (tv : Series) : dict Q :=
  map (fun c => (fst c, sum_sq_diff tv (snd c))) (candidates (ideal_df h)).

(** [k] is what [min(deviations, key=deviations.get)] returns for the
    training column [c]. *)
Definition chosen_by (h : DataHandler) (c : string * Series) (k : string)
  : Prop :=
  min_by_value (deviations_value h (snd c)) = Ok k.

(** [m] is the largest [|t[k] - i[k]|] over the rows [k] of both columns. *)
Definition max_abs_dev_is (t i : Series) (m : Q) : Prop :=
  (exists k a b, nth_error t k = Some a /\ nth_error i k = Some b /\
                 m = Qabs (a - b)) /\
  (forall k a b, nth_error t k = Some a -> nth_error i k = Some b ->
                 (Qabs (a - b) <= m)%Q).

(** Row [k] is the first row whose [xs] equals [x]. *)
Definition first_row_with (xs : Series) (x : Q) (k : nat) : Prop :=
  (exists x', nth_error xs k = Some x' /\ (x' == x)%Q) /\
  (forall j xj, j < k -> nth_error xs j = Some xj -> ~ (xj == x)%Q).

(** The value of column [label] in row [r]. *)
Definition cell (df : DataFrame) (label : string) (r : nat) : option Q :=
  match lookup df label with
  | Some s => nth_error s r
  | None => None
  end.

(** What the specification says of a tuple contributed by the test point
    [(x, y)] for the pair [(train_col, ideal_col)] of [best_fit]: [x] occurs
    in the [x] column of the ideal table, [ideal_y] is the value of
    [ideal_col] in the first row with that [x], the deviation is
    [|y - ideal_y|], and it is at most [sqrt 2] times the largest training
    deviation of the pair. *)
Definition pair_spec (h : DataHandler) (x y : Q) (item : string * string)
    (hit : Hit) : Prop :=
  exists xs t i k ideal_y m,
    lookup (ideal_df h) "x" = Some xs /\
    first_row_with xs x k /\
    lookup (train_df h) (fst item) = Some t /\
    lookup (ideal_df h) (snd item) = Some i /\
    nth_error i k = Some ideal_y /\
    hit = (x, y, snd item, Qabs (y - ideal_y)) /\
    max_abs_dev_is t i m /\
    (Q2R (Qabs (y - ideal_y)) <= sqrt 2 * Q2R m)%R.

(** The tuples contributed by row [r] of the test table. *)
Definition row_spec (h : DataHandler) (test_df : DataFrame)
    (best_fit : dict string) (r : nat) (hit : Hit) : Prop :=
  exists x y item,
    cell test_df "x" r = Some x /\
    cell test_df "y" r = Some y /\
    In item best_fit /\
    pair_spec h x y item hit.

(** What the specification says of an element of the result of
    [validate_test_data]. *)
Definition hit_spec (h : DataHandler) (test_df : DataFrame)
    (best_fit : dict string) (hit : Hit) : Prop :=
  exists r, row_spec h test_df best_fit r hit.

End Task01.

(* ===================================================================== *)
(** * Task02/Task_02_seg_def.py                                           *)
(* ===================================================================== *)

Module Task02.

(** A column of the dataset: numeric dtype or [object] (text).  A cell the
    file leaves empty is missing ([None]: NaN). *)
Inductive Column : Type :=
| NumCol (values : list (option Q))
| ObjCol (values : list (option string)).

Definition Table : Type := list (string * Column).

Definition is_number (c : Column) : bool :=
  match c with
  | NumCol _ => true
  | ObjCol _ => false
  end.

Definition col_length (c : Column) : nat :=
  match c with
  | NumCol v => List.length v
  | ObjCol v => List.length v
  end.

(** [data.columns] *)
Definition labels (data : Table) : list string := map fst data.

Definition is_missing {V} (cell : option V) : bool :=
  match cell with
  | Some _ => false
  | None => true
  end.

(** The missing cells of a column. *)
Definition col_missing (c : Column) : nat :=
  match c with
  | NumCol v => List.length (filter is_missing v)
  | ObjCol v => List.length (filter is_missing v)
  end.

(** [data.isnull().sum().sum()] *)
Definition isnull_count (data : Table) : nat :=
  fold_left Nat.add (map (fun c => col_missing (snd c)) data) 0.

(** [data.empty]: no column or no row. *)
Definition empty (data : Table) : bool :=
  match data with
  | [] => true
  | (_, c) :: _ => Nat.eqb (col_length c) 0
  end.

(** [data[key]] *)
Definition getitem (data : Table) (key : string) : result Column :=
  match lookup data key with
  | Some c => Ok c
  | None => Raise (KeyError key)
  end.

(** What a charting call is given.  The correlation matrix of the heatmap is
    kept as the table [numeric_data.corr()] is computed from. *)
Inductive Figure : Type :=
| Heatmap (corr_of : Table)
| ScatterBokeh (data : Table) (x y : string)
| Histogram (values : Column)
| BarPlot (data : Table) (x y : string)
| BoxPlot (data : Table) (x y : string)
| Scatter3d (x_feature y_feature z_feature : string) (x y z color : Column).

Inductive Verdict : Type := Passed | Failed | Errored.

Inductive Event : Type :=
| EvReadCsv (path : string)            (* pd.read_csv(path) was called *)
| EvRaise (e : exn)                    (* a library call raised e *)
| EvShow (fig : Figure)                (* a figure was displayed *)
| EvTestReport (verdicts : list Verdict)
| EvPrint (msg : string).

(** The world: the files on disk as [pd.read_csv] sees them, the outcome of
    the charting-library calls that build a figure, and the events so far. *)
Record State : Type := {
  files : string -> result Table;
  charts : Figure -> result unit;
  trace : list Event
}.

Definition log (ev : Event) : M State unit :=
  fun s => ({| files := files s; charts := charts s;
               trace := trace s ++ [ev] |}, Ok tt).

Definition lib {A} (r : result A) : M State A :=
  match r with
  | Ok a => ret a
  | Raise e => log (EvRaise e) ;;; (fun s => (s, Raise e))
  end.

(** The library calls that build [fig], without displaying it. *)
Definition build (fig : Figure) : M State unit :=
  fun s => lib (charts s fig) s.

(** Build [fig] and display it ([plt.show()], [show(p)], [fig.show()]). *)
Definition draw (fig : Figure) : M State unit :=
  build fig ;;; log (EvShow fig).

(** [try: m  except Exception as e: handler(e)] *)
Definition try_except {A} (m : M State A) (handler : exn -> M State A)
  : M State A :=
  fun s => match m s with
           | (s', Ok a) => (s', Ok a)
           | (s', Raise e) => handler e s'
           end.

(** [load_data(file_path)] *)
Definition load_data (file_path : string) : M State Table :=
  log (EvReadCsv file_path) ;;; (fun s => lib (files s file_path) s).

(** [preprocess_data(data)]: [data.select_dtypes(include=['number'])] *)
Definition preprocess_data (data : Table) : Table :=
  filter (fun c => is_number (snd c)) data.

Definition flow_velocity : string := "Flow_Velocity (m/s)".
Definition heat_transfer : string := "Heat_Transfer_Coefficient (W/m²K)".
Definition thermal_conductivity : string := "Thermal_Conductivity (W/mK)".
Definition nanoparticle_type : string := "Nanoparticle_Type".
Definition viscosity : string := "Viscosity (Pa·s)".

(** ** class TestNanofluidDataset *)

Definition fixture_path : string :=
  "E:\PYTHON\AI_Python_code_31stJan\Python_Project\dataset\nanofluid_heat_transfer_dataset.csv".

(** [setUp]: the attributes [data] and [numeric_data] of the test object. *)
Definition setUp : M State (Table * Table) :=
  data <- load_data fixture_path ;;
  ret (data, preprocess_data data).

Definition assertion (holds : bool) (msg : string) : M State unit :=
  if holds then ret tt else lib (Raise (AssertionError msg)).

Definition test_data_loading (fx : Table * Table) : M State unit :=
  assertion (negb (empty (fst fx))) "Dataset is empty!".

Definition test_numeric_columns (fx : Table * Table) : M State unit :=
  assertion (Nat.ltb 0 (List.length (labels (snd fx))))
            "No numeric columns found!".

Definition test_missing_values (fx : Table * Table) : M State unit :=
  let missing_count := isnull_count (fst fx) in
  assertion (Nat.eqb missing_count 0)
    (String.append "Dataset contains "
       (String.append (NilZero.string_of_uint (Nat.to_uint missing_count))
          " missing values!")).

Definition test_scatter_plot (fx : Table * Table) : M State unit :=
  try_except
    (build (ScatterBokeh (fst fx) flow_velocity heat_transfer) ;;;
     assertion true "")
    (fun e => assertion false "Scatter plot generation failed!").

Definition verdict_of (r : result unit) : Verdict :=
  match r with
  | Ok _ => Passed
  | Raise (AssertionError _) => Failed
  | Raise _ => Errored
  end.

(** One test method as the runner runs it: a fresh [setUp], the method, and
    every exception turned into a verdict. *)
Definition run_test (test : Table * Table -> M State unit) : M State Verdict :=
  fun s => match setUp s with
           | (s1, Raise _) => (s1, Ok Errored)
           | (s1, Ok fx) =>
               match test fx s1 with
               | (s2, r) => (s2, Ok (verdict_of r))
               end
           end.

(** The test methods in the order the loader sorts them. *)
Definition test_methods : list (Table * Table -> M State unit) :=
  [test_data_loading; test_missing_values; test_numeric_columns;
   test_scatter_plot].

(** [unittest.main(argv=[''], exit=False)] *)
Definition unittest_main : M State unit :=
  verdicts <- for_each test_methods [] (fun vs test =>
                v <- run_test test ;; ret (vs ++ [v])) ;;
  log (EvTestReport verdicts).

(** ** The plots *)

Definition plot_heatmap (numeric_data : Table) : M State unit :=
  draw (Heatmap numeric_data).

Definition plot_scatter_bokeh (data : Table) : M State unit :=
  draw (ScatterBokeh data flow_velocity heat_transfer).

Definition plot_histogram (data : Table) : M State unit :=
  values <- lib (getitem data thermal_conductivity) ;;
  draw (Histogram values).

Definition plot_bar (data : Table) : M State unit :=
  draw (BarPlot data nanoparticle_type heat_transfer).

Definition plot_boxplot (data : Table) : M State unit :=
  draw (BoxPlot data nanoparticle_type viscosity).

Definition plot_3d_scatter_plot (data : Table)
    (x_feature y_feature z_feature : string) : M State unit :=
  x <- lib (getitem data x_feature) ;;
  y <- lib (getitem data y_feature) ;;
  z <- lib (getitem data z_feature) ;;
  color <- lib (getitem data z_feature) ;;
  draw (Scatter3d x_feature y_feature z_feature x y z color).

(** [main(file_path)] *)
Definition main (file_path : string) : M State unit :=
  data <- load_data file_path ;;
  let numeric_data := preprocess_data data in
  unittest_main ;;;
  plot_heatmap numeric_data ;;;
  plot_scatter_bokeh data ;;;
  plot_histogram data ;;;
  plot_bar data ;;;
  plot_boxplot data ;;;
  plot_3d_scatter_plot data flow_velocity heat_transfer viscosity ;;;
  log (EvPrint "All visualizations generated successfully!").

Definition script_file_path : string :=
  "E:\IU_MSc_AI_Courses_Slides\Semester 1.1\Python task_assignment\nanofluid_heat_transfer_dataset.csv".

(** The script run as a program: the two [if __name__ == '__main__'] blocks
    in file order. *)
Definition script : M State unit :=
  unittest_main ;;;
  main script_file_path.

(** ** Reading a trace *)

(** The figures displayed, in order. *)
Fixpoint shown (tr : list Event) : list Figure :=
  match tr with
  | [] => []
  | EvShow fig :: tr' => fig :: shown tr'
  | _ :: tr' => shown tr'
  end.

(** The paths [pd.read_csv] was called on, in order. *)
Fixpoint reads (tr : list Event) : list string :=
  match tr with
  | [] => []
  | EvReadCsv p :: tr' => p :: reads tr'
  | _ :: tr' => reads tr'
  end.

(** [s] with the events [evs] added, everything else as it was. *)
Definition extend (s : State) (evs : list Event) : State :=
  {| files := files s; charts := charts s; trace := trace s ++ evs |}.

(** Whatever its outcome, [m] only adds events, and they satisfy [P]. *)
Definition adds (P : list Event -> Prop) {A} (m : M State A) : Prop :=
  forall s, exists evs, fst (m s) = extend s evs /\ P evs.

(** No file read, no figure displayed. *)
Definition silent (evs : list Event) : Prop :=
  reads evs = [] /\ shown evs = [].

(** No file read. *)
Definition no_read (evs : list Event) : Prop := reads evs = [].

End Task02.

(* ===================================================================== *)
(** * Sample data                                                         *)
(* ===================================================================== *)

Module Sample.

Definition ideal : DataFrame :=
  [("x", [1; 2; 3]); ("y1", [1; 2; 3]); ("y2", [2; 4; 6]);
   ("y3", [1; 2; 4])]%Q.

Definition train : DataFrame :=
  [("x", [1; 2; 3]); ("t1", [2; 4; 7]); ("t2", [1; 2; 7 # 2]);
   ("t3", [1; 2; 3]); ("t4", [2; 4; 6])]%Q.

Definition test : DataFrame :=
  [("x", [1; 2; 5; 3]); ("y", [1; 10; 3; 9 # 2])]%Q.

Definition handler : Task01.DataHandler :=
  {| Task01.ideal_df := ideal; Task01.train_df := train |}.

Definition disk (path : string) : result DataFrame :=
  if String.eqb path "ideal.csv" then Ok ideal
  else if String.eqb path "train.csv" then Ok train
  else if String.eqb path "test.csv" then Ok test
  else Raise (OSError path).

Definition state : Task01.State Task01.DataHandler :=
  {| Task01.self := handler; Task01.files := disk; Task01.trace := [] |}.

Definition best_fit : dict string :=
  [("t1", "y2"); ("t2", "y1"); ("t3", "y1"); ("t4", "y2")].

Definition dataset : Task02.Table :=
  [(Task02.nanoparticle_type, Task02.ObjCol [Some "Al2O3"; Some "CuO"]);
   (Task02.flow_velocity, Task02.NumCol [Some 1; Some 2]%Q);
   (Task02.heat_transfer, Task02.NumCol [Some 3; Some 5]%Q);
   (Task02.thermal_conductivity, Task02.NumCol [Some (1 # 2); Some (3 # 4)]%Q);
   (Task02.viscosity, Task02.NumCol [Some (1 # 100); Some (2 # 100)]%Q)].

Definition world : Task02.State :=
  {| Task02.files := fun _ => Ok dataset;
     Task02.charts := fun _ => Ok tt;
     Task02.trace := [] |}.

End Sample.

(* ===================================================================== *)
(** * Task01/Python_task01.py: the plots and the integrity test           *)
(* ===================================================================== *)

Module Task01Plots.

(** What [p.line] and [p.scatter] add to a Bokeh figure. *)
Inductive Glyph : Type :=
| Line (xs ys : Series) (legend_label : string)
| Scatter (xs ys : Series) (legend_label : string).

(** A Bokeh figure when [show(p)] is called. *)
Record Figure : Type := {
  title : string;
  renderers : list Glyph
}.

Inductive Event : Type :=
| EvOutputFile (filename : string)   (* output_file(filename) *)
| EvRaise (e : exn)                  (* a library call raised e *)
| EvShow (fig : Figure).             (* show(p) *)

(** The plotting functions touch no object: the state is the events. *)
Definition State : Type := list Event.

Definition log (ev : Event) : M State unit := fun tr => (tr ++ [ev], Ok tt).

Definition lib {A} (r : result A) : M State A :=
  match r with
  | Ok a => ret a
  | Raise e => log (EvRaise e) ;;; (fun tr => (tr, Raise e))
  end.

(** [plot_data(df, title, filename)] *)
Definition plot_data (df : DataFrame) (title filename : string)
  : M State unit :=
  log (EvOutputFile filename) ;;;
  glyphs <- for_each (firstn 4 (columns_from_1 df)) [] (fun glyphs col =>
    xs <- lib (getitem df "x") ;;
    ys <- lib (getitem df col) ;;
    ret (glyphs ++ [Line xs ys col])) ;;
  log (EvShow {| title := title; renderers := glyphs |}).

(** [plot_best_fit(best_fit, train_df, ideal_df)] *)
Definition plot_best_fit (best_fit : dict string)
    (train_df ideal_df : DataFrame) : M State unit :=
  log (EvOutputFile "best_fit.html") ;;;
  glyphs <- for_each best_fit [] (fun glyphs item =>
    let train_col := fst item in
    let ideal_col := snd item in
    tx <- lib (getitem train_df "x") ;;
    ty <- lib (getitem train_df train_col) ;;
    let glyphs := glyphs ++ [Scatter tx ty (String.append "Train: " train_col)] in
    ix <- lib (getitem ideal_df "x") ;;
    iy <- lib (getitem ideal_df ideal_col) ;;
    ret (glyphs ++ [Line ix iy (String.append "Ideal: " ideal_col)])) ;;
  log (EvShow {| title := "Best Fit Functions"; renderers := glyphs |}).

(** The glyphs [plot_best_fit] draws for one entry of [best_fit]. *)
Definition pair_glyphs (tx ix : Series) (item : string * string)
    (ty iy : Series) : list Glyph :=
  [Scatter tx ty (String.append "Train: " (fst item));
   Line ix iy (String.append "Ideal: " (snd item))].

(** ** class TestDatasetIntegrity, [test_x_value_ranges] *)







End Task01Plots.

(* ===================================================================== *)
(** * Task02/Task_02_seg_def.py: the kinds of plots                       *)
(* ===================================================================== *)

Module Task02Kinds.

Inductive PlotKind : Type :=
| KHeatmap | KScatter | KHistogram | KBar | KBox | KScatter3d.

Definition kind_of (fig : Task02.Figure) : PlotKind :=
  match fig with
  | Task02.Heatmap _ => KHeatmap
  | Task02.ScatterBokeh _ _ _ => KScatter
  | Task02.Histogram _ => KHistogram
  | Task02.BarPlot _ _ _ => KBar
  | Task02.BoxPlot _ _ _ => KBox
  | Task02.Scatter3d _ _ _ _ _ _ _ => KScatter3d
  end.

(** The plots of [main], in the order of its calls. *)
Definition battery : list PlotKind :=
  [KHeatmap; KScatter; KHistogram; KBar; KBox; KScatter3d].

(** The last event of a trace, if any. *)
Definition last_event (tr : list Task02.Event) : option Task02.Event :=
  last (map Some tr) None.

(** [m] is one plot of kind [k]: either it returns and has displayed one
    figure, of kind [k], or it raises and has displayed nothing. *)
Definition plot_step (k : PlotKind) (m : M Task02.State unit) : Prop :=
  forall s, exists evs,
    fst (m s) = Task02.extend s evs /\
    ((snd (m s) = Ok tt /\ map kind_of (Task02.shown evs) = [k]) \/
     ((exists e, snd (m s) = Raise e) /\ Task02.shown evs = [])).

(** [m] displays the plots [ks] in order and stops at the first failure:
    the kinds displayed are the first [n] of [ks], all of them when [m]
    returns. *)
Definition plots_prefix (ks : list PlotKind) (m : M Task02.State unit)
  : Prop :=
  forall s, exists evs n,
    fst (m s) = Task02.extend s evs /\
    map kind_of (Task02.shown evs) = firstn n ks /\
    (snd (m s) = Ok tt -> n = List.length ks).

(** The verdicts the runner reports, in the order the methods run. *)
Definition expected_verdicts (s : Task02.State) : list Task02.Verdict :=
  match Task02.files s Task02.fixture_path with
  | Raise _ =>
      [Task02.Errored; Task02.Errored; Task02.Errored; Task02.Errored]
  | Ok data =>
      [if Task02.empty data then Task02.Failed else Task02.Passed;
       if Nat.eqb (Task02.isnull_count data) 0
       then Task02.Passed else Task02.Failed;
       if Nat.ltb 0 (List.length (Task02.labels (Task02.preprocess_data data)))
       then Task02.Passed else Task02.Failed;
       match Task02.charts s
               (Task02.ScatterBokeh data Task02.flow_velocity
                  Task02.heat_transfer) with
       | Ok _ => Task02.Passed
       | Raise _ => Task02.Failed
       end]
  end.

End Task02Kinds.

(** More sample data. *)
Module SampleExtra.

Definition wide : DataFrame :=
  [("x", [1; 2]); ("y1", [1; 1]); ("y2", [2; 2]); ("y3", [3; 3]);
   ("y4", [4; 4]); ("y5", [5; 5]); ("y6", [6; 6])]%Q.

Definition no_rows : DataFrame :=
  [("x", []); ("t1", []); ("t2", []); ("t3", []); ("t4", [])].

Definition off_grid : DataFrame :=
  [("x", [7; 8]); ("y", [1; 2])]%Q.

Definition disk (path : string) : result DataFrame :=
  if String.eqb path "off_grid.csv" then Ok off_grid else Sample.disk path.

Definition state : Task01.State Task01.DataHandler :=
  {| Task01.self := Sample.handler; Task01.files := disk;
     Task01.trace := [] |}.

Definition no_thermal : Task02.Table :=
  [(Task02.nanoparticle_type, Task02.ObjCol [Some "Al2O3"; Some "CuO"]);
   (Task02.flow_velocity, Task02.NumCol [Some 1; Some 2]%Q);
   (Task02.heat_transfer, Task02.NumCol [Some 3; Some 5]%Q);
   (Task02.viscosity, Task02.NumCol [Some (1 # 100); Some (2 # 100)]%Q)].

Definition world_no_thermal : Task02.State :=
  {| Task02.files := fun _ => Ok no_thermal;
     Task02.charts := fun _ => Ok tt;
     Task02.trace := [] |}.

(** The dataset with one cell left empty. *)
Definition with_gap : Task02.Table :=
  [(Task02.nanoparticle_type, Task02.ObjCol [Some "Al2O3"; Some "CuO"]);
   (Task02.flow_velocity, Task02.NumCol [Some 1; None]%Q);
   (Task02.heat_transfer, Task02.NumCol [Some 3; Some 5]%Q);
   (Task02.thermal_conductivity, Task02.NumCol [Some (1 # 2); Some (3 # 4)]%Q);
   (Task02.viscosity, Task02.NumCol [Some (1 # 100); Some (2 # 100)]%Q)].

Definition world_with_gap : Task02.State :=
  {| Task02.files := fun _ => Ok with_gap;
     Task02.charts := fun _ => Ok tt;
     Task02.trace := [] |}.

Definition world_no_file : Task02.State :=
  {| Task02.files := fun p => Raise (OSError p);
     Task02.charts := fun _ => Ok tt;
     Task02.trace := [] |}.

End SampleExtra.

(* ===================================================================== *)
(** * Task01/Python_task01.py in the arithmetic of the columns            *)
(* ===================================================================== *)

(** [Task01] computes on exact rationals.  pandas computes in the dtype of
    the columns: [int64], whose differences, squares and sums wrap around, or
    [float64], whose operations round.  [Dtyped] embeds [DataHandler] once
    more, over the operations of a dtype: what it proves holds of every
    dtype, and is run on [Int64] and [Binary64] below. *)
Module Dtyped.

(** The operations [DataHandler] applies to the values of its tables, as
    pandas and numpy define them for a dtype. *)
Record dtype : Type := {
  num : Type;
  vsub : num -> num -> num;          (* a - b *)
  vsquare : num -> num;              (* v ** 2 *)
  vabs : num -> num;                 (* abs(v) *)
  vsum : list num -> num;            (* s.sum() *)
  vmax : list num -> option num;     (* s.max(); None: NaN *)
  veqb : num -> num -> bool;         (* a == b *)
  vltb : num -> num -> bool;         (* a < b *)
  within : num -> num -> bool;       (* deviation <= max_dev * (2**0.5) *)
  upcast : list (list num) -> num -> num
    (* the value of a cell in a row of [iterrows], which has the common
       dtype of the columns of the table *)
}.

Definition Series (A : dtype) : Type := list (num A).

(** A [DataFrame] whose values are of dtype [A]. *)
Definition Frame (A : dtype) : Type := list (string * Series A).

(** [a - b] on two columns of one length over the default index. *)
Definition series_sub {A} (a b : Series A) : Series A :=
  map (fun p => vsub A (fst p) (snd p)) (combine a b).

(** [s ** 2] *)
Definition series_sq {A} (s : Series A) : Series A := map (vsquare A) s.

(** [abs(s)] *)
Definition series_abs {A} (s : Series A) : Series A := map (vabs A) s.

(** [((a - b)**2).sum()] *)
Definition sum_sq_diff {A} (a b : Series A) : num A :=
  vsum A (series_sq (series_sub a b)).

(** [abs(a - b).max()] *)
Definition max_abs_diff {A} (a b : Series A) : option (num A) :=
  vmax A (series_abs (series_sub a b)).

(** [deviation <= max_dev * (2**0.5)]; a NaN [max_dev] compares false. *)
Definition le_threshold {A} (deviation : num A) (max_dev : option (num A))
  : bool :=
  match max_dev with
  | None => false
  | Some m => within A deviation m
  end.

(** [df.columns] *)
Definition columns {V} (df : list (string * list V)) : list string :=
  map fst df.

(** [df.columns[1:]] *)
Definition columns_from_1 {V} (df : list (string * list V)) : list string :=
  tl (columns df).

(** [df[key]] *)
Definition getitem {V} (df : list (string * list V)) (key : string)
  : result (list V) :=
  match lookup df key with
  | Some s => Ok s
  | None => Raise (KeyError key)
  end.

Definition nrows {V} (df : list (string * list V)) : nat :=
  match df with
  | [] => 0
  | (_, s) :: _ => List.length s
  end.

(** What [pd.read_csv] guarantees: distinct labels, columns of one length. *)
Definition wf_frame {V} (df : list (string * list V)) : bool :=
  unique_labels (columns df)
  && forallb (fun c => Nat.eqb (List.length (snd c)) (nrows df)) df.

(** [min(d, key=d.get)]: the keys are visited in insertion order and the
    current best is replaced only by a key with a strictly smaller value. *)
Fixpoint min_from {A} (best : string * num A) (rest : dict (num A)) : string :=
  match rest with
  | [] => fst best
  | kv :: r =>
      if vltb A (snd kv) (snd best) then min_from kv r else min_from best r
  end.

Definition min_by_value {A} (d : dict (num A)) : result string :=
  match d with
  | [] => Raise (ValueError "min() arg is an empty sequence")
  | kv :: r => Ok (min_from kv r)
  end.

Definition Row (A : dtype) : Type := list (string * num A).

(** Row [i] as [df.iterrows()] yields it. *)
Definition row_at {A} (df : Frame A) (i : nat) : Row A :=
  flat_map (fun c => match nth_error (snd c) i with
                     | Some v => [(fst c, upcast A (map snd df) v)]
                     | None => []
                     end) df.

(** [df.iterrows()] *)
Definition iterrows {A} (df : Frame A) : list (Row A) :=
  map (row_at df) (seq 0 (nrows df)).

(** [row[key]] *)
Definition row_getitem {A} (row : Row A) (key : string) : result (num A) :=
  match lookup row key with
  | Some v => Ok v
  | None => Raise (KeyError key)
  end.

(** [v in s.values] *)
Definition contains {A} (s : Series A) (v : num A) : bool :=
  existsb (fun xi => veqb A xi v) s.

(** [df.loc[xs == v, col]] given the two columns. *)
Definition loc_eq {A} (xs : Series A) (v : num A) (col : Series A) : Series A :=
  map snd (filter (fun p => veqb A (fst p) v) (combine xs col)).

Record DataHandler (A : dtype) : Type := {
  ideal_df : Frame A;
  train_df : Frame A
}.
Arguments ideal_df {A} d.
Arguments train_df {A} d.

(** An element of [results]: [(x_val, y_val, ideal_col, deviation)]. *)
Definition Hit (A : dtype) : Type := (num A * num A * string * num A)%type.

Inductive Printed (A : dtype) : Type :=
| PrintBestFit (best_fit : dict string)
| PrintValidated (first10 : list (Hit A)).
Arguments PrintBestFit {A} best_fit.
Arguments PrintValidated {A} first10.

Inductive Event (A : dtype) : Type :=
| EvReadCsv (path : string)
| EvRaise (e : exn)
| EvPrint (p : Printed A).
Arguments EvReadCsv {A} path.
Arguments EvRaise {A} e.
Arguments EvPrint {A} p.

Record State (A : dtype) : Type := {
  self : DataHandler A;
  files : string -> result (Frame A);
  trace : list (Event A)
}.
Arguments self {A} s.
Arguments files {A} s.
Arguments trace {A} s.

Definition log {A} (ev : Event A) : M (State A) unit :=
  fun s => ({| self := self s; files := files s; trace := trace s ++ [ev] |},
            Ok tt).

Definition lib {A B} (r : result B) : M (State A) B :=
  match r with
  | Ok b => ret b
  | Raise e => log (EvRaise e) ;;; (fun s => (s, Raise e))
  end.

(** [pd.read_csv(path)] *)
Definition read_csv {A} (path : string) : M (State A) (Frame A) :=
  log (EvReadCsv path) ;;; (fun s => lib (files s path) s).

(** [self.field] *)
Definition attr {A B} (field : DataHandler A -> B) : M (State A) B :=
  fun s => (s, Ok (field (self s))).

(** [self.field[key]] *)
Definition self_getitem {A} (field : DataHandler A -> Frame A) (key : string)
  : M (State A) (Series A) :=
  df <- attr field ;; lib (getitem df key).

(** [print(...)] *)
Definition print {A} (p : Printed A) : M (State A) unit := log (EvPrint p).

(** The dict comprehension of [get_best_fit_functions] for one [col]. *)
Definition deviations_for {A} (col : string) : M (State A) (dict (num A)) :=
  ideal_cols <- attr (fun h => columns_from_1 (ideal_df h)) ;;
  for_each ideal_cols [] (fun deviations ideal_col =>
    t <- self_getitem train_df col ;;
    i <- self_getitem ideal_df ideal_col ;;
    ret (dict_set deviations ideal_col (sum_sq_diff t i))).

(** [DataHandler.get_best_fit_functions(self)] *)
Definition get_best_fit_functions {A} : M (State A) (dict string) :=
  train_cols <- attr (fun h => columns_from_1 (train_df h)) ;;
  best_fit <- for_each train_cols [] (fun best_fit col =>
    deviations <- deviations_for col ;;
    best <- lib (min_by_value deviations) ;;
    ret (dict_set best_fit col best)) ;;
  print (PrintBestFit best_fit) ;;;
  ret best_fit.

(** The body of the inner loop of [validate_test_data]. *)
Definition validate_pair {A} (x_val y_val : num A) (results : list (Hit A))
    (item : string * string) : M (State A) (list (Hit A)) :=
  let train_col := fst item in
  let ideal_col := snd item in
  t <- self_getitem train_df train_col ;;
  i <- self_getitem ideal_df ideal_col ;;
  let max_dev := max_abs_diff t i in
  xs <- self_getitem ideal_df "x" ;;
  ys <- self_getitem ideal_df ideal_col ;;
  let ideal_y_values := loc_eq xs x_val ys in
  match ideal_y_values with
  | [] => ret results
  | ideal_y :: _ =>
      let deviation := vabs A (vsub A y_val ideal_y) in
      if le_threshold deviation max_dev
      then ret (results ++ [(x_val, y_val, ideal_col, deviation)])
      else ret results
  end.

(** The body of the outer loop of [validate_test_data]. *)
Definition validate_row {A} (best_fit : dict string) (results : list (Hit A))
    (row : Row A) : M (State A) (list (Hit A)) :=
  x_val <- lib (row_getitem row "x") ;;
  y_val <- lib (row_getitem row "y") ;;
  xs <- self_getitem ideal_df "x" ;;
  if negb (contains xs x_val)
  then ret results
  else for_each best_fit results (validate_pair x_val y_val).

(** [DataHandler.validate_test_data(self, test_file, best_fit)] *)
Definition validate_test_data {A} (test_file : string)
    (best_fit : dict string) : M (State A) (list (Hit A)) :=
  test_df <- read_csv test_file ;;
  results <- for_each (iterrows test_df) [] (validate_row best_fit) ;;
  print (PrintValidated (firstn 10 results)) ;;;
  ret results.

(** ** Vocabulary of the specification *)

(** The columns after the first one, the [x] column. *)
Definition candidates {V} (df : list (string * list V))
  : list (string * list V) := tl df.

(** The value of [deviations] for a training column of values [tv]: the
    computed sum of squared differences with every candidate. *)
Definition deviations_value {A} (h : DataHandler A) (tv : Series A)
  : dict (num A) :=
  map (fun c => (fst c, sum_sq_diff tv (snd c))) (candidates (ideal_df h)).

Definition chosen_by {A} (h : DataHandler A) (c : string * Series A)
    (k : string) : Prop :=
  min_by_value (deviations_value h (snd c)) = Ok k.

(** [<] orders the values [ok]: it is asymmetric, and [a < b] with [b] not
    above [c] gives [a < c].  So it is on [int64], and on [float64] values
    other than NaN. *)
Record ordered (A : dtype) (ok : num A -> Prop) : Prop := {
  vltb_asym : forall a b, ok a -> ok b ->
    vltb A a b = true -> vltb A b a = false;
  vltb_below : forall a b c, ok a -> ok b -> ok c ->
    vltb A a b = true -> vltb A c b = false -> vltb A a c = true
}.


(** Row [k] is the first row whose [xs] equals [x]. *)
Definition first_row_with {A} (xs : Series A) (x : num A) (k : nat) : Prop :=
  (exists x', nth_error xs k = Some x' /\ veqb A x' x = true) /\
  (forall j xj, j < k -> nth_error xs j = Some xj -> veqb A xj x = false).

(** The value of column [label] in row [r] of [iterrows]. *)
Definition row_value {A} (df : Frame A) (label : string) (r : nat)
  : option (num A) :=
  match lookup df label with
  | Some s => option_map (upcast A (map snd df)) (nth_error s r)
  | None => None
  end.

(** What the amended specification says of a tuple contributed by the test
    point [(x, y)] for a pair of [best_fit]: [x] occurs in the [x] column of
    the ideal table, [ideal_y] is the value of [ideal_col] in the first row
    with that [x], the deviation is [abs(y - ideal_y)], [max_dev] is
    [abs(train[train_col] - ideal[ideal_col]).max()], and
    [deviation <= max_dev * (2**0.5)] holds as the dtype evaluates it. *)
Definition pair_spec {A} (h : DataHandler A) (x y : num A)
    (item : string * string) (hit : Hit A) : Prop :=
  exists xs t i k ideal_y max_dev,
    lookup (ideal_df h) "x" = Some xs /\
    first_row_with xs x k /\
    lookup (train_df h) (fst item) = Some t /\
    lookup (ideal_df h) (snd item) = Some i /\
    nth_error i k = Some ideal_y /\
    hit = (x, y, snd item, vabs A (vsub A y ideal_y)) /\
    max_abs_diff t i = Some max_dev /\
    within A (vabs A (vsub A y ideal_y)) max_dev = true.

Definition row_spec {A} (h : DataHandler A) (test_df : Frame A)
    (best_fit : dict string) (r : nat) (hit : Hit A) : Prop :=
  exists x y item,
    row_value test_df "x" r = Some x /\
    row_value test_df "y" r = Some y /\
    In item best_fit /\
    pair_spec h x y item hit.

Definition hit_spec {A} (h : DataHandler A) (test_df : Frame A)
    (best_fit : dict string) (hit : Hit A) : Prop :=
  exists r, row_spec h test_df best_fit r hit.

(** [.max()] returns a largest value of a column of [ok] values, and NaN
    only on no value. *)
Definition max_is_largest (A : dtype) (ok : num A -> Prop) : Prop :=
  forall l, (forall v, In v l -> ok v) ->
    match vmax A l with
    | Some m => In m l /\ forall v, In v l -> vltb A m v = false
    | None => l = []
    end.

(** ** [int64] *)

(** The value of an integer in two's complement on 64 bits. *)
Definition wrap64 (z : Z) : Z :=
  ((z + 9223372036854775808) mod 18446744073709551616
   - 9223372036854775808)%Z.

(** [2**0.5] in binary64. *)
Definition sqrt2_f : float := 0x1.6a09e667f3bcdp+0%float.

(** An [int64] converted to [float64]. *)
Definition float_of_int64 (z : Z) : float :=
  if (z =? -9223372036854775808)%Z then (-0x1p+63)%float
  else if (z <? 0)%Z then PrimFloat.opp (PrimFloat.of_uint63 (Uint63.of_Z (- z)))
  else PrimFloat.of_uint63 (Uint63.of_Z z).

Definition Zmax_list (l : list Z) : option Z :=
  match l with
  | [] => None
  | v :: r => Some (fold_left Z.max r v)
  end.

(** Tables whose columns are all [int64]: differences, squares, absolute
    values and sums wrap around; the threshold [max_dev * (2**0.5)] is a
    [float64], with which the deviation is compared as a [float64]. *)
Definition Int64 : dtype := {|
  num := Z;
  vsub := fun a b => wrap64 (a - b);
  vsquare := fun v => wrap64 (v * v);
  vabs := fun v => wrap64 (Z.abs v);
  vsum := fun l => fold_left (fun acc v => wrap64 (acc + v)) l 0%Z;
  vmax := Zmax_list;
  veqb := Z.eqb;
  vltb := Z.ltb;
  within := fun d m =>
    PrimFloat.leb (float_of_int64 d)
                  (PrimFloat.mul (float_of_int64 m) sqrt2_f);
  upcast := fun _ v => v
|}.

(** The sum over the rows of the squared differences of two columns of
    integers, in the integers: the sum of squared errors the specification
    speaks of. *)
Definition exact_sum_sq_diff (a b : list Z) : Z :=
  fold_right Z.add 0%Z
    (map (fun p => ((fst p - snd p) * (fst p - snd p))%Z) (combine a b)).

(** ** [float64] *)

Definition is_nan (f : float) : bool := negb (PrimFloat.eqb f f).

Definition fmax (a b : float) : float := if PrimFloat.leb a b then b else a.

(** [s.max()] on [float64]: NaN values are skipped. *)
Definition nanmax (l : list float) : option float :=
  match filter (fun f => negb (is_nan f)) l with
  | [] => None
  | v :: r => Some (fold_left fmax r v)
  end.

(** Tables whose columns are all [float64].  The order in which [.sum()]
    adds is the library's: [fsum] stands for it. *)
Definition Binary64 (fsum : list float -> float) : dtype := {|
  num := float;
  vsub := PrimFloat.sub;
  vsquare := fun v => PrimFloat.mul v v;
  vabs := PrimFloat.abs;
  vsum := fsum;
  vmax := nanmax;
  veqb := PrimFloat.eqb;
  vltb := PrimFloat.ltb;
  within := fun d m => PrimFloat.leb d (PrimFloat.mul m sqrt2_f);
  upcast := fun _ v => v
|}.

(** Adding from left to right, skipping NaN. *)
Definition fsum_left (l : list float) : float :=
  fold_left PrimFloat.add (filter (fun f => negb (is_nan f)) l) 0%float.


End Dtyped.

Module SampleDtyped.

Import Dtyped.






Definition ideal : Frame Int64 :=
  [("x", [1; 2; 3]); ("y1", [1; 2; 3]); ("y2", [2; 4; 6]);
   ("y3", [1; 2; 4]); ("y4", [2; 4; 6])]%Z.

Definition train : Frame Int64 :=
  [("x", [1; 2; 3]); ("t1", [2; 4; 7]); ("t2", [1; 2; 4]);
   ("t3", [1; 2; 3]); ("t4", [2; 4; 6])]%Z.

Definition test : Frame Int64 :=
  [("x", [1; 2; 5; 3]); ("y", [1; 10; 3; 5])]%Z.

Definition disk (path : string) : result (Frame Int64) :=
  if String.eqb path "test.csv" then Ok test else Raise (OSError path).

Definition state : State Int64 :=
  {| self := {| ideal_df := ideal; train_df := train |};
     files := disk; trace := [] |}.

Definition best_fit : dict string :=
  [("t1", "y2"); ("t2", "y3"); ("t3", "y1"); ("t4", "y2")].

(** The sum for [y1], 10^16 + 1, is not a [float64]: it is rounded to 10^16,
    the sum for [y2]. *)
Definition rounding_ideal : Frame (Binary64 fsum_left) :=
  [("x", [0; 1]); ("y1", [100000000; 1]); ("y2", [100000000; 0])]%float.

Definition rounding_train : Frame (Binary64 fsum_left) :=
  [("x", [0; 1]); ("t1", [0; 0])]%float.

Definition rounding_state : State (Binary64 fsum_left) :=
  {| self := {| ideal_df := rounding_ideal; train_df := rounding_train |};
     files := fun p => Raise (OSError p); trace := [] |}.





End SampleDtyped.

(* ===================================================================== *)
(** * Facts on labels, lookups and dictionaries                           *)
(* ===================================================================== *)

Lemma existsb_eqb_In (k : string) (l : list string) :
  existsb (String.eqb k) l = true <-> In k l.
Proof.
  rewrite existsb_exists. split.
  - intros (y & Hy & E). apply String.eqb_eq in E. now subst.
  - intros H. exists k. split; [assumption | apply String.eqb_refl].
Qed.

Lemma unique_labels_NoDup (l : list string) :
  unique_labels l = true <-> NoDup l.
Proof.
  induction l as [|k l IH]; simpl.
  - split; [constructor | reflexivity].
  - rewrite andb_true_iff, negb_true_iff, IH. split.
    + intros [Hk Hl]. constructor; [|assumption].
      intros Hin. apply existsb_eqb_In in Hin. congruence.
    + intros H. inversion H as [|? ? Hk Hl]; subst. split; [|assumption].
      destruct (existsb (String.eqb k) l) eqn:E; [|reflexivity].
      apply existsb_eqb_In in E. contradiction.
Qed.

Lemma lookup_In {V} (d : list (string * V)) k v :
  lookup d k = Some v -> In (k, v) d.
Proof.
  induction d as [|[k' v'] d IH]; simpl; [discriminate|].
  destruct (String.eqb_spec k' k) as [->|Hne].
  - intros [= ->]. now left.
  - intros H. right. now apply IH.
Qed.

Lemma lookup_None {V} (d : list (string * V)) k :
  lookup d k = None <-> ~ In k (map fst d).
Proof.
  induction d as [|[k' v'] d IH]; simpl.
  - tauto.
  - destruct (String.eqb_spec k' k) as [->|Hne].
    + split; [discriminate | intros H; exfalso; apply H; now left].
    + rewrite IH. tauto.
Qed.

Lemma In_lookup {V} (d : list (string * V)) k :
  In k (map fst d) -> exists v, lookup d k = Some v.
Proof.
  intros H. destruct (lookup d k) as [v|] eqn:E; [now exists v|].
  apply lookup_None in E. contradiction.
Qed.

Lemma lookup_unique {V} (d : list (string * V)) k v :
  NoDup (map fst d) -> In (k, v) d -> lookup d k = Some v.
Proof.
  induction d as [|[k' v'] d IH]; simpl; [tauto|].
  intros Hnd [Heq|Hin].
  - inversion Heq; subst. now rewrite String.eqb_refl.
  - inversion Hnd as [|? ? Hk Hd]; subst.
    destruct (String.eqb_spec k' k) as [->|Hne].
    + exfalso. apply Hk. change k with (fst (k, v)). now apply in_map.
    + now apply IH.
Qed.

Lemma lookup_map_snd {V W} (f : V -> W) (d : list (string * V)) k :
  lookup (map (fun c => (fst c, f (snd c))) d) k = option_map f (lookup d k).
Proof.
  induction d as [|[k' v'] d IH]; simpl; [reflexivity|].
  destruct (String.eqb k' k); [reflexivity | apply IH].
Qed.

Lemma lookup_map_pair {V W} (f : string * V -> W) (d : list (string * V)) k v :
  NoDup (map fst d) -> In (k, v) d ->
  lookup (map (fun c => (fst c, f c)) d) k = Some (f (k, v)).
Proof.
  intros Hnd Hin. apply lookup_unique.
  - now rewrite map_map.
  - apply (in_map (fun c => (fst c, f c))) in Hin. exact Hin.
Qed.

Lemma dict_set_fresh {V} (d : dict V) k v :
  ~ In k (map fst d) -> dict_set d k v = d ++ [(k, v)].
Proof.
  induction d as [|[k' v'] d IH]; simpl; [reflexivity|].
  intros H. destruct (String.eqb_spec k' k) as [->|Hne].
  - exfalso. apply H. now left.
  - rewrite IH; [reflexivity | tauto].
Qed.

Lemma NoDup_tl {A} (l : list A) : NoDup l -> NoDup (tl l).
Proof. destruct l; simpl; [trivial | now inversion 1]. Qed.

Lemma In_tl {A} (a : A) (l : list A) : In a (tl l) -> In a l.
Proof. destruct l; simpl; [trivial | now right]. Qed.

Lemma map_tl {A B} (f : A -> B) (l : list A) : map f (tl l) = tl (map f l).
Proof. now destruct l. Qed.

Lemma wf_frame_labels (df : DataFrame) :
  wf_frame df = true -> NoDup (columns df).
Proof.
  unfold wf_frame. rewrite andb_true_iff. intros [H _].
  now apply unique_labels_NoDup.
Qed.

Lemma wf_frame_length (df : DataFrame) k s :
  wf_frame df = true -> lookup df k = Some s -> List.length s = nrows df.
Proof.
  unfold wf_frame. rewrite andb_true_iff. intros [_ H] Hl.
  rewrite forallb_forall in H. apply lookup_In in Hl.
  apply H in Hl. now apply Nat.eqb_eq in Hl.
Qed.

(* ===================================================================== *)
(** * Facts on rational comparisons and column arithmetic                 *)
(* ===================================================================== *)

Lemma Qlt_bool_iff (a b : Q) : Qlt_bool a b = true <-> (a < b)%Q.
Proof.
  unfold Qlt_bool. rewrite negb_true_iff. split.
  - intros H. apply Qnot_le_lt. intros Hle.
    apply Qle_bool_iff in Hle. congruence.
  - intros H. destruct (Qle_bool b a) eqn:E; [|reflexivity].
    apply Qle_bool_iff in E. exfalso. now apply (Qlt_not_le a b).
Qed.

Lemma Qlt_bool_false (a b : Q) : Qlt_bool a b = false <-> (b <= a)%Q.
Proof.
  unfold Qlt_bool. rewrite negb_false_iff. apply Qle_bool_iff.
Qed.

(** [((a - b)**2).sum()] is the sum of the squared differences, row by row,
    over the rows of both columns. *)
Lemma series_sum_acc (s : Series) (acc : Q) :
  (fold_left Qplus s acc == acc + series_sum s)%Q.
Proof.
  unfold series_sum. revert acc. induction s as [|v s IH]; intros acc; simpl.
  - ring.
  - rewrite (IH (acc + v)%Q), (IH (0 + v)%Q). ring.
Qed.

Lemma sum_sq_diff_nil_l (b : Series) : sum_sq_diff [] b = 0%Q.
Proof. reflexivity. Qed.

Lemma sum_sq_diff_nil_r (a : Series) : sum_sq_diff a [] = 0%Q.
Proof. now destruct a. Qed.

Lemma sum_sq_diff_cons (x y : Q) (a b : Series) :
  (sum_sq_diff (x :: a) (y :: b) == (x - y) ^ 2 + sum_sq_diff a b)%Q.
Proof.
  unfold sum_sq_diff, series_sq, series_sub. simpl map.
  unfold series_sum at 1. simpl fold_left. rewrite series_sum_acc. ring.
Qed.

Lemma Qsquare_nonneg (q : Q) : (0 <= q ^ 2)%Q.
Proof.
  change (q ^ 2)%Q with (q * q)%Q.
  destruct (Qlt_le_dec q 0) as [H|H].
  - setoid_replace (q * q)%Q with ((- q) * (- q))%Q by ring.
    apply Qlt_le_weak, Qopp_le_compat in H.
    now apply Qmult_le_0_compat.
  - now apply Qmult_le_0_compat.
Qed.

Lemma sum_sq_diff_nonneg (a b : Series) : (0 <= sum_sq_diff a b)%Q.
Proof.
  revert b. induction a as [|x a IH]; intros [|y b].
  - apply Qle_refl.
  - apply Qle_refl.
  - rewrite sum_sq_diff_nil_r. apply Qle_refl.
  - rewrite sum_sq_diff_cons.
    pose proof (Qsquare_nonneg (x - y)) as H.
    specialize (IH b). apply Qle_trans with (0 + 0)%Q; [apply Qle_refl|].
    now apply Qplus_le_compat.
Qed.

(** ** [min(d, key=d.get)] *)

(** The scan keeps as best the first item of least value: everything before
    it is strictly larger, everything after it at least as large. *)
Lemma min_from_split (rest pre mid : dict Q) (best : string * Q) :
  (forall kv, In kv pre -> (snd best < snd kv)%Q) ->
  (forall kv, In kv mid -> (snd best <= snd kv)%Q) ->
  exists pre' v post,
    pre ++ best :: mid ++ rest = pre' ++ (min_from best rest, v) :: post /\
    (forall kv, In kv pre' -> (v < snd kv)%Q) /\
    (forall kv, In kv post -> (v <= snd kv)%Q).
Proof.
  revert pre mid best.
  induction rest as [|kv r IH]; intros pre mid best Hpre Hmid; simpl.
  - exists pre, (snd best), mid. rewrite app_nil_r.
    destruct best as [k v]. simpl in *. auto.
  - destruct (Qlt_bool (snd kv) (snd best)) eqn:E.
    + apply Qlt_bool_iff in E.
      destruct (IH (pre ++ best :: mid) [] kv) as (pre' & v & post & Heq & H1 & H2).
      * intros x Hx. apply in_app_or in Hx. destruct Hx as [Hx|[Hx|Hx]].
        -- apply Qlt_trans with (snd best); auto.
        -- subst x. assumption.
        -- apply Qlt_le_trans with (snd best); auto.
      * intros x [].
      * exists pre', v, post. split; [|auto].
        rewrite <- Heq. simpl. rewrite <- app_assoc. reflexivity.
    + apply Qlt_bool_false in E.
      destruct (IH pre (mid ++ [kv]) best) as (pre' & v & post & Heq & H1 & H2).
      * assumption.
      * intros x Hx. apply in_app_or in Hx. destruct Hx as [Hx|[Hx|[]]].
        -- auto.
        -- subst x. assumption.
      * exists pre', v, post. split; [|auto].
        rewrite <- Heq. rewrite <- app_assoc. reflexivity.
Qed.

Lemma min_by_value_split (d : dict Q) :
  d <> [] ->
  exists k pre v post,
    min_by_value d = Ok k /\
    d = pre ++ (k, v) :: post /\
    (forall kv, In kv pre -> (v < snd kv)%Q) /\
    (forall kv, In kv post -> (v <= snd kv)%Q).
Proof.
  destruct d as [|best rest]; [congruence|]. intros _.
  destruct (min_from_split rest [] [] best) as (pre & v & post & Heq & H1 & H2).
  - intros ? [].
  - intros ? [].
  - exists (min_from best rest), pre, v, post. simpl in *. auto.
Qed.

(* ===================================================================== *)
(** * Running the statements of [DataHandler]                             *)
(* ===================================================================== *)

Section Task01_runs.
Import Task01.

Lemma bind_ok {S A B} (m : M S A) (k : A -> M S B) s s' a :
  m s = (s', Ok a) -> bind m k s = k a s'.
Proof. unfold bind. now intros ->. Qed.

Lemma bind_raise {S A B} (m : M S A) (k : A -> M S B) s s' e :
  m s = (s', Raise e) -> bind m k s = (s', Raise e).
Proof. unfold bind. now intros ->. Qed.

Lemma self_getitem_ok {Obj} (field : Obj -> DataFrame) key v (s : State Obj) :
  lookup (field (self s)) key = Some v ->
  self_getitem field key s = (s, Ok v).
Proof.
  intros H. unfold self_getitem, attr, bind, getitem. now rewrite H.
Qed.

(** The dict comprehension, run: one entry per candidate, in column order. *)
Lemma deviations_loop (h : DataHandler) col tv :
  lookup (train_df h) col = Some tv ->
  NoDup (columns (ideal_df h)) ->
  forall (cands : list (string * Series)) (acc : dict Q) (s : State DataHandler),
    self s = h ->
    (forall c, In c cands -> In c (ideal_df h)) ->
    NoDup (map fst acc ++ map fst cands) ->
    for_each (map fst cands) acc (fun deviations ideal_col =>
      t <- self_getitem train_df col ;;
      i <- self_getitem ideal_df ideal_col ;;
      ret (dict_set deviations ideal_col (sum_sq_diff t i))) s
    = (s, Ok (acc ++ map (fun c => (fst c, sum_sq_diff tv (snd c))) cands)).
Proof.
  intros Ht Hnd. induction cands as [|[k v] cands IH]; intros acc s Hs Hin Hfresh.
  - simpl. unfold ret. now rewrite app_nil_r.
  - simpl map. cbn [for_each].
    assert (Hk : lookup (ideal_df h) k = Some v).
    { apply lookup_unique; [exact Hnd | apply Hin; now left]. }
    rewrite (bind_ok _ _ s s (dict_set acc k (sum_sq_diff tv v))).
    + rewrite IH.
      * rewrite dict_set_fresh.
        -- now rewrite <- app_assoc.
        -- apply NoDup_remove_2 in Hfresh. intros Hc. apply Hfresh.
           apply in_or_app. now left.
      * assumption.
      * intros c Hc. apply Hin. now right.
      * rewrite dict_set_fresh.
        -- rewrite map_app. simpl. rewrite <- app_assoc. exact Hfresh.
        -- apply NoDup_remove_2 in Hfresh. intros Hc. apply Hfresh.
           apply in_or_app. now left.
    + rewrite (bind_ok _ _ s s tv) by (apply self_getitem_ok; now rewrite Hs).
      rewrite (bind_ok _ _ s s v) by (apply self_getitem_ok; now rewrite Hs).
      reflexivity.
Qed.

Lemma deviations_for_run (s : State DataHandler) col tv :
  lookup (train_df (self s)) col = Some tv ->
  NoDup (columns (ideal_df (self s))) ->
  deviations_for col s = (s, Ok (deviations_value (self s) tv)).
Proof.
  intros Ht Hnd. unfold deviations_for, deviations_value, candidates.
  unfold bind at 1. unfold attr. unfold columns_from_1, columns.
  rewrite <- map_tl.
  apply (deviations_loop (self s) col tv Ht Hnd (tl (ideal_df (self s))) [] s).
  - reflexivity.
  - intros c Hc. now apply In_tl.
  - simpl. rewrite map_tl. now apply NoDup_tl.
Qed.

(** The loop over the training columns, run: it fails at the first column
    whose [deviations] is empty, and otherwise adds one entry per column. *)
Lemma best_fit_loop (h : DataHandler) :
  NoDup (columns (train_df h)) ->
  NoDup (columns (ideal_df h)) ->
  candidates (ideal_df h) <> [] ->
  forall (tcands : list (string * Series)) (acc : dict string)
         (s : State DataHandler),
    self s = h ->
    (forall c, In c tcands -> In c (train_df h)) ->
    NoDup (map fst acc ++ map fst tcands) ->
    exists bf,
      for_each (map fst tcands) acc (fun best_fit col =>
        deviations <- deviations_for col ;;
        best <- lib (min_by_value deviations) ;;
        ret (dict_set best_fit col best)) s
      = (s, Ok (acc ++ bf)) /\
      Forall2 (fun c kv => fst kv = fst c /\
                 min_by_value (deviations_value h (snd c)) = Ok (snd kv))
              tcands bf.
Proof.
  intros Hndt Hndi Hne.
  induction tcands as [|[k v] tcands IH]; intros acc s Hs Hin Hfresh.
  - exists []. simpl. unfold ret. rewrite app_nil_r. split; constructor.
  - simpl map. cbn [for_each].
    assert (Hk : lookup (train_df (self s)) k = Some v).
    { rewrite Hs. apply lookup_unique; [exact Hndt | apply Hin; now left]. }
    assert (Hd : deviations_value h v <> []).
    { unfold deviations_value. destruct (candidates (ideal_df h));
        [congruence | discriminate]. }
    destruct (min_by_value_split _ Hd) as (best & _ & _ & _ & Hbest & _).
    assert (Hfr : ~ In k (map fst acc)).
    { apply NoDup_remove_2 in Hfresh. intros Hc. apply Hfresh.
      apply in_or_app. now left. }
    destruct (IH (acc ++ [(k, best)]) s Hs) as (bf & Hrun & Hall).
    + intros c Hc. apply Hin. now right.
    + rewrite map_app. simpl. rewrite <- app_assoc. exact Hfresh.
    + exists ((k, best) :: bf). split.
      * rewrite (bind_ok _ _ s s (dict_set acc k best)).
        -- rewrite dict_set_fresh by exact Hfr. rewrite Hrun.
           now rewrite <- app_assoc.
        -- rewrite (bind_ok _ _ s s (deviations_value h v)).
           ++ rewrite Hbest. reflexivity.
           ++ rewrite <- Hs. apply deviations_for_run; [exact Hk|].
              now rewrite Hs.
      * constructor; [|exact Hall]. simpl. auto.
Qed.

(** [get_best_fit_functions], run on well-formed tables with a candidate. *)
Lemma get_best_fit_functions_run (s : State DataHandler) :
  wf_frame (train_df (self s)) = true ->
  wf_frame (ideal_df (self s)) = true ->
  candidates (ideal_df (self s)) <> [] ->
  exists bf,
    get_best_fit_functions s
    = (fst (print (PrintBestFit bf) s), Ok bf) /\
    Forall2 (fun c kv => fst kv = fst c /\
               min_by_value (deviations_value (self s) (snd c)) = Ok (snd kv))
            (candidates (train_df (self s))) bf.
Proof.
  intros Hwt Hwi Hne.
  apply wf_frame_labels in Hwt. apply wf_frame_labels in Hwi.
  destruct (best_fit_loop (self s) Hwt Hwi Hne
              (candidates (train_df (self s))) [] s) as (bf & Hrun & Hall).
  - reflexivity.
  - intros c Hc. now apply In_tl.
  - simpl. unfold candidates. rewrite map_tl. now apply NoDup_tl.
  - exists bf. split; [|exact Hall].
    unfold get_best_fit_functions. unfold bind at 1. unfold attr.
    unfold columns_from_1, columns. rewrite <- map_tl.
    unfold candidates in Hrun. simpl app in Hrun.
    erewrite bind_ok by exact Hrun. reflexivity.
Qed.

End Task01_runs.

(* ===================================================================== *)
(** * The least-squares choice                                            *)
(* ===================================================================== *)

Section Task01_best_fit.
Import Task01.

Lemma Forall2_In_l {A B} (R : A -> B -> Prop) (l : list A) (l' : list B) a :
  Forall2 R l l' -> In a l -> exists b, In b l' /\ R a b.
Proof.
  induction 1 as [|x y l l' Hxy _ IH]; simpl; [tauto|].
  intros [->|Hin].
  - exists y. auto.
  - destruct (IH Hin) as (b & Hb & HR). exists b. auto.
Qed.

Lemma Forall2_In_r {A B} (R : A -> B -> Prop) (l : list A) (l' : list B) b :
  Forall2 R l l' -> In b l' -> exists a, In a l /\ R a b.
Proof.
  induction 1 as [|x y l l' Hxy _ IH]; simpl; [tauto|].
  intros [->|Hin].
  - exists x. auto.
  - destruct (IH Hin) as (a & Ha & HR). exists a. auto.
Qed.

Lemma Forall2_keys {A} (R : string * A -> string -> Prop)
    (l : list (string * A)) (bf : dict string) :
  Forall2 (fun c kv => fst kv = fst c /\ R c (snd kv)) l bf ->
  map fst bf = map fst l.
Proof.
  induction 1 as [|x y l l' [Hk _] _ IH]; simpl; [reflexivity|].
  now rewrite Hk, IH.
Qed.


(** Where the chosen label stands among the candidates: every candidate
    before it has a strictly larger sum of squared differences, every
    candidate after it one at least as large. *)
Lemma chosen_position (h : DataHandler) (tv : Series) (k : string) :
  min_by_value (deviations_value h tv) = Ok k ->
  exists iv pre post,
    candidates (ideal_df h) = pre ++ (k, iv) :: post /\
    (forall c, In c pre -> (sum_sq_diff tv iv < sum_sq_diff tv (snd c))%Q) /\
    (forall c, In c post -> (sum_sq_diff tv iv <= sum_sq_diff tv (snd c))%Q).
Proof.
  intros Hmin.
  assert (Hne : deviations_value h tv <> []).
  { intros E. rewrite E in Hmin. discriminate. }
  destruct (min_by_value_split _ Hne) as (k' & pre & v & post & Hk & Hd & H1 & H2).
  rewrite Hk in Hmin. injection Hmin as ->.
  unfold deviations_value in Hd.
  apply map_eq_app in Hd. destruct Hd as (cpre & crest & Hc & Hpre & Hrest).
  apply map_eq_cons in Hrest. destruct Hrest as (c & cpost & -> & Hcv & Hpost).
  destruct c as [ck iv]. simpl in Hcv. injection Hcv as -> <-.
  exists iv, cpre, cpost. split; [exact Hc|]. split.
  - intros c Hin. apply (H1 (fst c, sum_sq_diff tv (snd c))).
    rewrite <- Hpre.
    apply (in_map (fun c => (fst c, sum_sq_diff tv (snd c)))) in Hin. exact Hin.
  - intros c Hin. apply (H2 (fst c, sum_sq_diff tv (snd c))).
    rewrite <- Hpost.
    apply (in_map (fun c => (fst c, sum_sq_diff tv (snd c)))) in Hin. exact Hin.
Qed.


End Task01_best_fit.

Section Task01_best_fit_claims.
Import Task01.

(** C3.  For training data whose columns are [x] followed by exactly four
    training curves, the returned mapping has exactly four entries: one
    chosen ideal function, a candidate label, for each of the four curves,
    in column order. *)
Theorem best_fit_four_entries (s : State DataHandler)
    (cx c1 c2 c3 c4 : string * Series) :
  train_df (self s) = [cx; c1; c2; c3; c4] ->
  wf_frame (train_df (self s)) = true ->
  wf_frame (ideal_df (self s)) = true ->
  candidates (ideal_df (self s)) <> [] ->
  exists s' best_fit,
    get_best_fit_functions s = (s', Ok best_fit) /\
    List.length best_fit = 4 /\
    map fst best_fit = [fst c1; fst c2; fst c3; fst c4] /\
    forall kv, In kv best_fit ->
      In (snd kv) (map fst (candidates (ideal_df (self s)))).
Proof.
  intros Htr Hwt Hwi Hne.
  destruct (get_best_fit_functions_run s Hwt Hwi Hne) as (bf & Hrun & Hall).
  exists (fst (print (PrintBestFit bf) s)), bf. split; [exact Hrun|].
  pose proof (Forall2_keys (chosen_by (self s)) _ _ Hall) as Hkeys.
  rewrite Htr in Hkeys. simpl in Hkeys.
  split; [|split].
  - rewrite <- (length_map fst), Hkeys. reflexivity.
  - exact Hkeys.
  - intros kv Hkv.
    destruct (Forall2_In_r _ _ _ _ Hall Hkv) as (c & _ & _ & Hmin).
    destruct (chosen_position _ _ _ Hmin) as (iv & pre & post & Hc & _).
    rewrite Hc, map_app. apply in_or_app. right. now left.
Qed.

End Task01_best_fit_claims.

(* ===================================================================== *)
(** * Facts for the validation of test points                             *)
(* ===================================================================== *)

Section Task01_validation_facts.
Import Task01.

(** ** The threshold [max_dev * 2**0.5] *)

Lemma Q2R_two : Q2R 2 = 2%R.
Proof. unfold Q2R. simpl. lra. Qed.

Lemma le_sqrt2_spec (d m : Q) :
  (0 <= d)%Q -> (0 <= m)%Q ->
  (le_sqrt2 d m = true <-> (Q2R d <= sqrt 2 * Q2R m)%R).
Proof.
  intros Hd Hm. unfold le_sqrt2. rewrite Qle_bool_iff.
  apply Qle_Rle in Hd. apply Qle_Rle in Hm.
  rewrite RMicromega.Q2R_0 in Hd, Hm.
  assert (Hs : (sqrt 2 * sqrt 2 = 2)%R) by (apply sqrt_sqrt; lra).
  assert (Hp : (0 < sqrt 2)%R) by (apply sqrt_lt_R0; lra).
  split.
  - intros H. apply Qle_Rle in H.
    rewrite !Q2R_mult, Q2R_two in H.
    destruct (Rle_or_lt (Q2R d) (sqrt 2 * Q2R m)) as [Hle|Hlt]; [exact Hle|].
    exfalso.
    assert (H0 : (0 <= sqrt 2 * Q2R m)%R) by (apply Rmult_le_pos; lra).
    assert (Hsq : ((sqrt 2 * Q2R m) * (sqrt 2 * Q2R m) < Q2R d * Q2R d)%R)
      by (apply Rmult_le_0_lt_compat; lra).
    replace ((sqrt 2 * Q2R m) * (sqrt 2 * Q2R m))%R
      with ((sqrt 2 * sqrt 2) * (Q2R m * Q2R m))%R in Hsq by ring.
    rewrite Hs in Hsq. lra.
  - intros H. apply Rle_Qle. rewrite !Q2R_mult, Q2R_two.
    assert (Hsq : (Q2R d * Q2R d <= (sqrt 2 * Q2R m) * (sqrt 2 * Q2R m))%R)
      by (apply Rmult_le_compat; lra).
    replace ((sqrt 2 * Q2R m) * (sqrt 2 * Q2R m))%R
      with ((sqrt 2 * sqrt 2) * (Q2R m * Q2R m))%R in Hsq by ring.
    rewrite Hs in Hsq. exact Hsq.
Qed.

(** ** [abs(a - b).max()] *)

Lemma combine_nth_error {A B} (l : list A) (l' : list B) a b :
  In (a, b) (combine l l') <->
  exists k, nth_error l k = Some a /\ nth_error l' k = Some b.
Proof.
  revert l'. induction l as [|x l IH]; intros [|y l']; simpl.
  - split; [tauto | intros ([|k] & H & _); discriminate].
  - split; [tauto | intros ([|k] & H & _); discriminate].
  - split; [tauto | intros ([|k] & _ & H); discriminate].
  - rewrite IH. split.
    + intros [H|(k & H)].
      * injection H as -> ->. now exists 0.
      * now exists (S k).
    + intros ([|k] & H1 & H2); simpl in *.
      * left. congruence.
      * right. now exists k.
Qed.

Lemma abs_diff_In (t i : Series) (v : Q) :
  In v (series_abs (series_sub t i)) <->
  exists k a b, nth_error t k = Some a /\ nth_error i k = Some b /\
                v = Qabs (a - b).
Proof.
  unfold series_abs, series_sub. rewrite map_map, in_map_iff. split.
  - intros ([a b] & <- & Hin). apply combine_nth_error in Hin.
    destruct Hin as (k & H1 & H2). now exists k, a, b.
  - intros (k & a & b & H1 & H2 & ->). exists (a, b). split; [reflexivity|].
    apply combine_nth_error. now exists k.
Qed.

Lemma fold_max_spec (r : Series) (v : Q) :
  In (fold_left Qmax_bool r v) (v :: r) /\
  forall x, In x (v :: r) -> (x <= fold_left Qmax_bool r v)%Q.
Proof.
  revert v. induction r as [|y r IH]; intros v; simpl.
  - split; [now left | intros x [<-|[]]; apply Qle_refl].
  - destruct (IH (Qmax_bool v y)) as [Hin Hle]. split.
    + destruct Hin as [H|H]; [|now right; right].
      rewrite <- H. unfold Qmax_bool. destruct (Qle_bool v y); auto.
    + assert (Hv : (v <= Qmax_bool v y)%Q /\ (y <= Qmax_bool v y)%Q).
      { unfold Qmax_bool. destruct (Qle_bool v y) eqn:E.
        - apply Qle_bool_iff in E. split; [exact E | apply Qle_refl].
        - split; [apply Qle_refl|]. apply Qlt_le_weak, Qlt_bool_iff.
          unfold Qlt_bool. now rewrite E. }
      destruct Hv as [Hv Hy].
      intros x [<-|[<-|Hx]].
      * apply Qle_trans with (Qmax_bool v y); [exact Hv|]. apply Hle. now left.
      * apply Qle_trans with (Qmax_bool v y); [exact Hy|]. apply Hle. now left.
      * apply Hle. now right.
Qed.

Lemma max_abs_diff_Some (t i : Series) (m : Q) :
  max_abs_diff t i = Some m -> max_abs_dev_is t i m.
Proof.
  unfold max_abs_diff, series_max.
  destruct (series_abs (series_sub t i)) as [|v r] eqn:E; [discriminate|].
  intros [= <-]. destruct (fold_max_spec r v) as [Hin Hle]. split.
  - rewrite <- E in Hin. now apply abs_diff_In in Hin.
  - intros k a b Ha Hb. apply Hle. rewrite <- E.
    apply abs_diff_In. now exists k, a, b.
Qed.

Lemma max_abs_diff_None (t i : Series) (m : Q) :
  max_abs_diff t i = None -> ~ max_abs_dev_is t i m.
Proof.
  unfold max_abs_diff, series_max.
  destruct (series_abs (series_sub t i)) as [|v r] eqn:E; [|discriminate].
  intros _ [(k & a & b & Ha & Hb & _) _].
  assert (Hin : In (Qabs (a - b)) (series_abs (series_sub t i))).
  { apply abs_diff_In. now exists k, a, b. }
  rewrite E in Hin. exact Hin.
Qed.

Lemma max_abs_dev_unique (t i : Series) (m m' : Q) :
  max_abs_dev_is t i m -> max_abs_dev_is t i m' -> (m == m')%Q.
Proof.
  intros [(k & a & b & Ha & Hb & ->) Hle] [(k' & a' & b' & Ha' & Hb' & ->) Hle'].
  apply Qle_antisym; eauto.
Qed.

Lemma max_abs_dev_nonneg (t i : Series) (m : Q) :
  max_abs_dev_is t i m -> (0 <= m)%Q.
Proof. intros [(k & a & b & _ & _ & ->) _]. apply Qabs_nonneg. Qed.

End Task01_validation_facts.

Section Task01_lookup_facts.
Import Task01.

(** ** [x_val in xs.values] and [df.loc[xs == x_val, col]] *)

Lemma Qeq_bool_sym (a b : Q) : Qeq_bool a b = Qeq_bool b a.
Proof.
  destruct (Qeq_bool a b) eqn:E1, (Qeq_bool b a) eqn:E2; try reflexivity.
  - apply Qeq_bool_iff in E1. symmetry in E1. apply Qeq_bool_iff in E1.
    congruence.
  - apply Qeq_bool_iff in E2. symmetry in E2. apply Qeq_bool_iff in E2.
    congruence.
Qed.

Lemma first_row_with_here (xs : Series) (x x0 : Q) :
  (x0 == x)%Q -> first_row_with (x0 :: xs) x 0.
Proof.
  intros H. split.
  - now exists x0.
  - intros j xj Hj. inversion Hj.
Qed.

Lemma first_row_with_later (xs : Series) (x x0 : Q) (k : nat) :
  ~ (x0 == x)%Q -> first_row_with xs x k -> first_row_with (x0 :: xs) x (S k).
Proof.
  intros Hne [Hk Hbefore]. split.
  - exact Hk.
  - intros [|j] xj Hj Hnth; simpl in Hnth.
    + injection Hnth as <-. exact Hne.
    + apply (Hbefore j); [lia | exact Hnth].
Qed.

Lemma first_row_with_unique (xs : Series) (x : Q) (k k' : nat) :
  first_row_with xs x k -> first_row_with xs x k' -> k = k'.
Proof.
  intros [(x1 & H1 & E1) B1] [(x2 & H2 & E2) B2].
  destruct (Nat.lt_trichotomy k k') as [H|[H|H]]; [|exact H|].
  - exfalso. exact (B2 k x1 H H1 E1).
  - exfalso. exact (B1 k' x2 H H2 E2).
Qed.

Lemma contains_false (xs : Series) (x : Q) (k : nat) :
  contains xs x = false -> ~ first_row_with xs x k.
Proof.
  unfold contains. intros Hc [(x' & Hnth & Heq) _].
  apply nth_error_In in Hnth.
  assert (Ht : existsb (Qeq_bool x) xs = true).
  { apply existsb_exists. exists x'. split; [exact Hnth|].
    apply Qeq_bool_iff. now symmetry. }
  congruence.
Qed.

(** On columns of one length, a value that occurs in [xs] selects a
    non-empty part of [ys], whose head is the value in the first such row. *)
Lemma loc_eq_first (xs ys : Series) (x : Q) :
  List.length xs = List.length ys ->
  contains xs x = true ->
  exists k iy rest,
    loc_eq xs x ys = iy :: rest /\
    first_row_with xs x k /\
    nth_error ys k = Some iy.
Proof.
  unfold contains, loc_eq. revert ys.
  induction xs as [|x0 xs IH]; intros [|y0 ys] Hlen Hc; simpl in *;
    try discriminate.
  rewrite (Qeq_bool_sym x x0) in Hc.
  destruct (Qeq_bool x0 x) eqn:E; simpl.
  - exists 0, y0, (map snd (filter (fun p => Qeq_bool (fst p) x) (combine xs ys))).
    split; [reflexivity|]. split; [|reflexivity].
    apply first_row_with_here. now apply Qeq_bool_iff.
  - simpl in Hc. destruct (IH ys) as (k & iy & rest & Hloc & Hfirst & Hnth).
    + now injection Hlen.
    + exact Hc.
    + exists (S k), iy, rest. split; [exact Hloc|]. split; [|exact Hnth].
      apply first_row_with_later; [|exact Hfirst].
      intros H. apply Qeq_bool_iff in H. congruence.
Qed.

End Task01_lookup_facts.

Section Task01_lookup_claims.
Import Task01.

(** C9.  In [validate_test_data], on an ideal table as [pd.read_csv] builds
    it, for a test row that passes the membership check (its [x_val] occurs
    in the [x] column of the ideal table) the lookup [ideal_y_values] of any
    ideal column at that [x_val] is non-empty: the guard of
    [ideal_y_values.values[0]] never takes the empty branch. *)
Theorem ideal_lookup_nonempty (h : DataHandler) (x_val : Q)
    (ideal_col : string) (xs ys : Series) :
  wf_frame (ideal_df h) = true ->
  getitem (ideal_df h) "x" = Ok xs ->
  getitem (ideal_df h) ideal_col = Ok ys ->
  contains xs x_val = true ->
  loc_eq xs x_val ys <> [].
Proof.
  intros Hwf Hx Hy Hc. unfold getitem in Hx, Hy.
  destruct (lookup (ideal_df h) "x") as [xs'|] eqn:Ex; [|discriminate].
  destruct (lookup (ideal_df h) ideal_col) as [ys'|] eqn:Ey; [|discriminate].
  injection Hx as ->. injection Hy as ->.
  destruct (loc_eq_first xs ys x_val) as (k & iy & rest & Hloc & _).
  - rewrite (wf_frame_length _ _ _ Hwf Ex), (wf_frame_length _ _ _ Hwf Ey).
    reflexivity.
  - exact Hc.
  - rewrite Hloc. discriminate.
Qed.

End Task01_lookup_claims.

(* ===================================================================== *)
(** * Running [validate_test_data]                                        *)
(* ===================================================================== *)

Section Task01_validation_runs.
Import Task01.

Lemma threshold_iff (t i : Series) (d : Q) :
  (0 <= d)%Q ->
  (le_sqrt2_times d (max_abs_diff t i) = true <->
   exists m, max_abs_dev_is t i m /\ (Q2R d <= sqrt 2 * Q2R m)%R).
Proof.
  intros Hd. destruct (max_abs_diff t i) as [m|] eqn:E; simpl.
  - pose proof (max_abs_diff_Some _ _ _ E) as Hm.
    rewrite (le_sqrt2_spec d m Hd (max_abs_dev_nonneg _ _ _ Hm)). split.
    + intros H. now exists m.
    + intros (m' & Hm' & H).
      rewrite (Qeq_eqR _ _ (max_abs_dev_unique _ _ _ _ Hm Hm')). exact H.
  - split; [discriminate|]. intros (m & Hm & _). exfalso.
    exact (max_abs_diff_None _ _ m E Hm).
Qed.

(** One pair of [best_fit] for one test point that passed the membership
    check: the state is unchanged and at most one tuple is appended. *)
Lemma validate_pair_run (s : State DataHandler) (x y : Q) (acc : list Hit)
    (item : string * string) (xs t i : Series) :
  wf_frame (ideal_df (self s)) = true ->
  lookup (ideal_df (self s)) "x" = Some xs ->
  lookup (train_df (self s)) (fst item) = Some t ->
  lookup (ideal_df (self s)) (snd item) = Some i ->
  contains xs x = true ->
  exists acc',
    validate_pair x y acc item s = (s, Ok acc') /\
    forall hit, In hit acc' <-> In hit acc \/ pair_spec (self s) x y item hit.
Proof.
  intros Hwf Hx Ht Hi Hc.
  destruct (loc_eq_first xs i x) as (k & iy & rest & Hloc & Hfirst & Hnth).
  { rewrite (wf_frame_length _ _ _ Hwf Hx), (wf_frame_length _ _ _ Hwf Hi).
    reflexivity. }
  { exact Hc. }
  assert (Hspec : forall hit, pair_spec (self s) x y item hit <->
            hit = (x, y, snd item, Qabs (y - iy)) /\
            le_sqrt2_times (Qabs (y - iy)) (max_abs_diff t i) = true).
  { intros hit. rewrite (threshold_iff t i _ (Qabs_nonneg _)). split.
    - intros (xs' & t' & i' & k' & iy' & m & Hx' & Hf' & Ht' & Hi' & Hn' & Hh & Hm & Hle).
      rewrite Hx in Hx'. injection Hx' as <-.
      rewrite Ht in Ht'. injection Ht' as <-.
      rewrite Hi in Hi'. injection Hi' as <-.
      rewrite <- (first_row_with_unique _ _ _ _ Hfirst Hf') in Hn'.
      rewrite Hnth in Hn'. injection Hn' as <-.
      split; [exact Hh | now exists m].
    - intros (Hh & m & Hm & Hle).
      exists xs, t, i, k, iy, m. auto 10. }
  unfold validate_pair.
  rewrite (bind_ok _ _ s s t) by (now apply self_getitem_ok).
  rewrite (bind_ok _ _ s s i) by (now apply self_getitem_ok).
  rewrite (bind_ok _ _ s s xs) by (now apply self_getitem_ok).
  rewrite (bind_ok _ _ s s i) by (now apply self_getitem_ok).
  rewrite Hloc.
  destruct (le_sqrt2_times (Qabs (y - iy)) (max_abs_diff t i)) eqn:E.
  - exists (acc ++ [(x, y, snd item, Qabs (y - iy))]). split; [reflexivity|].
    intros hit. rewrite in_app_iff, Hspec. simpl. intuition congruence.
  - exists acc. split; [reflexivity|].
    intros hit. rewrite Hspec. intuition congruence.
Qed.

(** The loop over [best_fit.items()] for one test point. *)
Lemma validate_pairs_run (s : State DataHandler) (x y : Q) (xs : Series) :
  wf_frame (ideal_df (self s)) = true ->
  lookup (ideal_df (self s)) "x" = Some xs ->
  contains xs x = true ->
  forall (best_fit : dict string) (acc : list Hit),
    (forall item, In item best_fit ->
       In (fst item) (columns (train_df (self s))) /\
       In (snd item) (columns (ideal_df (self s)))) ->
    exists acc',
      for_each best_fit acc (validate_pair x y) s = (s, Ok acc') /\
      forall hit, In hit acc' <->
        In hit acc \/
        exists item, In item best_fit /\ pair_spec (self s) x y item hit.
Proof.
  intros Hwf Hx Hc. induction best_fit as [|item bf IH]; intros acc Hcols.
  - exists acc. split; [reflexivity|]. intros hit. split; [auto|].
    intros [H|(item & [] & _)]. exact H.
  - destruct (Hcols item (or_introl eq_refl)) as [Ht Hi].
    apply In_lookup in Ht. destruct Ht as (t & Ht).
    apply In_lookup in Hi. destruct Hi as (i & Hi).
    destruct (validate_pair_run s x y acc item xs t i Hwf Hx Ht Hi Hc)
      as (acc1 & Hrun1 & Hspec1).
    destruct (IH acc1) as (acc2 & Hrun2 & Hspec2).
    { intros it Hit. apply Hcols. now right. }
    exists acc2. split.
    + cbn [for_each]. rewrite (bind_ok _ _ s s acc1 Hrun1). exact Hrun2.
    + intros hit. rewrite Hspec2, Hspec1. split.
      * intros [[H|H]|(it & Hit & H)]; [now left | right | right].
        -- exists item. split; [now left | exact H].
        -- exists it. split; [now right | exact H].
      * intros [H|(it & [<-|Hit] & H)]; [now left; left | now left; right |].
        right. now exists it.
Qed.

End Task01_validation_runs.

Section Task01_validation_rows.
Import Task01.

Lemma row_getitem_row_at (df : DataFrame) (r : nat) (label : string)
    (col : Series) :
  wf_frame df = true ->
  lookup df label = Some col ->
  r < nrows df ->
  row_getitem (row_at df r) label = Ok (nth r col 0%Q) /\
  cell df label r = Some (nth r col 0%Q).
Proof.
  intros Hwf Hl Hr. unfold row_getitem, row_at, cell.
  rewrite (lookup_map_snd (fun v : Series => nth r v 0%Q)), Hl. simpl.
  split; [reflexivity|].
  apply nth_error_nth'. now rewrite (wf_frame_length _ _ _ Hwf Hl).
Qed.

Lemma cell_in_range (df : DataFrame) (label : string) (r : nat) (v : Q) :
  wf_frame df = true -> cell df label r = Some v -> r < nrows df.
Proof.
  unfold cell. intros Hwf. destruct (lookup df label) as [col|] eqn:E;
    [|discriminate].
  intros H. rewrite <- (wf_frame_length _ _ _ Hwf E).
  apply nth_error_Some. congruence.
Qed.

Lemma lib_ok {Obj A} (r : result A) (a : A) (s : State Obj) :
  r = Ok a -> lib r s = (s, Ok a).
Proof. now intros ->. Qed.

(** One row of the test table. *)
Lemma validate_row_run (s : State DataHandler) (test_df : DataFrame)
    (best_fit : dict string) (r : nat) (acc : list Hit) :
  wf_frame test_df = true ->
  In "x" (columns test_df) ->
  In "y" (columns test_df) ->
  r < nrows test_df ->
  wf_frame (ideal_df (self s)) = true ->
  In "x" (columns (ideal_df (self s))) ->
  (forall item, In item best_fit ->
     In (fst item) (columns (train_df (self s))) /\
     In (snd item) (columns (ideal_df (self s)))) ->
  exists acc',
    validate_row best_fit acc (row_at test_df r) s = (s, Ok acc') /\
    forall hit, In hit acc' <->
      In hit acc \/ row_spec (self s) test_df best_fit r hit.
Proof.
  intros Hwt Htx Hty Hr Hwi Hix Hcols.
  apply In_lookup in Htx. destruct Htx as (xcol & Htx).
  apply In_lookup in Hty. destruct Hty as (ycol & Hty).
  apply In_lookup in Hix. destruct Hix as (xs & Hix).
  destruct (row_getitem_row_at _ _ _ _ Hwt Htx Hr) as [Hgx Hcx].
  destruct (row_getitem_row_at _ _ _ _ Hwt Hty Hr) as [Hgy Hcy].
  set (x := nth r xcol 0%Q) in *. set (y := nth r ycol 0%Q) in *.
  assert (Hspec : forall hit, row_spec (self s) test_df best_fit r hit <->
            exists item, In item best_fit /\ pair_spec (self s) x y item hit).
  { intros hit. split.
    - intros (x' & y' & item & Hx' & Hy' & Hin & Hp).
      rewrite Hcx in Hx'. injection Hx' as <-.
      rewrite Hcy in Hy'. injection Hy' as <-. now exists item.
    - intros (item & Hin & Hp). now exists x, y, item. }
  unfold validate_row.
  rewrite (bind_ok _ _ s s x) by (now apply lib_ok).
  rewrite (bind_ok _ _ s s y) by (now apply lib_ok).
  rewrite (bind_ok _ _ s s xs) by (now apply self_getitem_ok).
  destruct (contains xs x) eqn:Ec; simpl.
  - destruct (validate_pairs_run s x y xs Hwi Hix Ec best_fit acc Hcols)
      as (acc' & Hrun & Hacc).
    exists acc'. split; [exact Hrun|].
    intros hit. rewrite Hacc, Hspec. reflexivity.
  - exists acc. split; [reflexivity|].
    intros hit. rewrite Hspec. split; [auto|].
    intros [H|(item & _ & Hp)]; [exact H|]. exfalso.
    destruct Hp as (xs' & _ & _ & k & _ & _ & Hx' & Hf & _).
    rewrite Hix in Hx'. injection Hx' as <-.
    exact (contains_false _ _ k Ec Hf).
Qed.

(** The loop over the rows of the test table. *)
Lemma validate_rows_run (s : State DataHandler) (test_df : DataFrame)
    (best_fit : dict string) :
  wf_frame test_df = true ->
  In "x" (columns test_df) ->
  In "y" (columns test_df) ->
  wf_frame (ideal_df (self s)) = true ->
  In "x" (columns (ideal_df (self s))) ->
  (forall item, In item best_fit ->
     In (fst item) (columns (train_df (self s))) /\
     In (snd item) (columns (ideal_df (self s)))) ->
  forall (rs : list nat) (acc : list Hit),
    (forall r, In r rs -> r < nrows test_df) ->
    exists acc',
      for_each (map (row_at test_df) rs) acc (validate_row best_fit) s
      = (s, Ok acc') /\
      forall hit, In hit acc' <->
        In hit acc \/
        exists r, In r rs /\ row_spec (self s) test_df best_fit r hit.
Proof.
  intros Hwt Htx Hty Hwi Hix Hcols.
  induction rs as [|r rs IH]; intros acc Hrs.
  - exists acc. split; [reflexivity|]. intros hit. split; [auto|].
    intros [H|(r & [] & _)]. exact H.
  - destruct (validate_row_run s test_df best_fit r acc Hwt Htx Hty
                (Hrs r (or_introl eq_refl)) Hwi Hix Hcols)
      as (acc1 & Hrun1 & Hspec1).
    destruct (IH acc1) as (acc2 & Hrun2 & Hspec2).
    { intros r' Hr'. apply Hrs. now right. }
    exists acc2. split.
    + simpl map. cbn [for_each]. rewrite (bind_ok _ _ s s acc1 Hrun1).
      exact Hrun2.
    + intros hit. rewrite Hspec2, Hspec1. split.
      * intros [[H|H]|(r' & Hr' & H)]; [now left | right | right].
        -- exists r. split; [now left | exact H].
        -- exists r'. split; [now right | exact H].
      * intros [H|(r' & [<-|Hr'] & H)]; [now left; left | now left; right |].
        right. now exists r'.
Qed.

Lemma read_csv_ok {Obj} (path : string) (df : DataFrame) (s : State Obj) :
  files s path = Ok df ->
  read_csv path s = (fst (log (EvReadCsv path) s), Ok df).
Proof. intros H. unfold read_csv, bind. simpl. now rewrite H. Qed.

End Task01_validation_rows.

(* ===================================================================== *)
(** * Effects of [DataHandler]: files read, exceptions, the object        *)
(* ===================================================================== *)

Section Task01_effects.
Import Task01.

Lemma reads_app (l l' : list Event) : reads (l ++ l') = reads l ++ reads l'.
Proof.
  induction l as [|[p|e|p] l IH]; simpl; [reflexivity | | |];
    now rewrite IH.
Qed.

Lemma raised_app (l l' : list Event) :
  raised (l ++ l') = raised l ++ raised l'.
Proof.
  induction l as [|[p|e|p] l IH]; simpl; [reflexivity | | |];
    now rewrite IH.
Qed.

Lemma unhandled_app {A} (r : result A) (evs1 evs2 : list Event) :
  raised evs1 = [] -> unhandled r evs2 -> unhandled r (evs1 ++ evs2).
Proof.
  intros H1. destruct r as [a|e]; simpl.
  - intros H2. now rewrite raised_app, H1, H2.
  - intros (pre & -> & Hpre). exists (evs1 ++ pre). split.
    + now rewrite app_assoc.
    + now rewrite raised_app, H1, Hpre.
Qed.

Lemma quiet_ret {Obj A} (a : A) : quiet (@ret (State Obj) A a).
Proof.
  intros s. simpl. repeat split. exists []. now rewrite app_nil_r.
Qed.

Lemma quiet_attr {Obj A} (field : Obj -> A) : quiet (attr field).
Proof.
  intros s. simpl. repeat split. exists []. now rewrite app_nil_r.
Qed.

Lemma quiet_print {Obj} (p : Printed) : quiet (@print Obj p).
Proof.
  intros s. simpl. repeat split. now exists [EvPrint p].
Qed.

Lemma quiet_lib {Obj A} (r : result A) : quiet (@lib Obj A r).
Proof.
  intros s. destruct r as [a|e]; simpl.
  - repeat split. exists []. now rewrite app_nil_r.
  - repeat split. exists [EvRaise e]. repeat split. now exists [].
Qed.

Lemma quiet_bind {Obj A B} (m : M (State Obj) A) (k : A -> M (State Obj) B) :
  quiet m -> (forall a, quiet (k a)) -> quiet (bind m k).
Proof.
  intros Hm Hk s. unfold bind.
  destruct (Hm s) as (Hself & Hfiles & evs & Htr & Hrd & Hun).
  destruct (m s) as [s1 [a|e]]; simpl in *.
  - destruct (Hk a s1) as (Hself' & Hfiles' & evs' & Htr' & Hrd' & Hun').
    split; [congruence|]. split; [congruence|].
    exists (evs ++ evs'). split; [|split].
    + rewrite Htr', Htr. now rewrite app_assoc.
    + now rewrite reads_app, Hrd, Hrd'.
    + now apply unhandled_app.
  - split; [exact Hself|]. split; [exact Hfiles|]. now exists evs.
Qed.

Lemma quiet_for_each {Obj A B} (l : list A) (body : B -> A -> M (State Obj) B) :
  (forall acc a, quiet (body acc a)) ->
  forall acc, quiet (for_each l acc body).
Proof.
  intros Hbody. induction l as [|a l IH]; intros acc; cbn [for_each].
  - apply quiet_ret.
  - apply quiet_bind; [apply Hbody | intros acc'; apply IH].
Qed.

Lemma quiet_self_getitem {Obj} (field : Obj -> DataFrame) (key : string) :
  quiet (self_getitem field key).
Proof.
  unfold self_getitem. apply quiet_bind; [apply quiet_attr|].
  intros df. apply quiet_lib.
Qed.

Lemma quiet_deviations_for (col : string) : quiet (deviations_for col).
Proof.
  unfold deviations_for. apply quiet_bind; [apply quiet_attr|].
  intros cols. apply quiet_for_each. intros acc a.
  apply quiet_bind; [apply quiet_self_getitem|]. intros t.
  apply quiet_bind; [apply quiet_self_getitem|]. intros i.
  apply quiet_ret.
Qed.

Lemma quiet_get_best_fit_functions : quiet get_best_fit_functions.
Proof.
  unfold get_best_fit_functions. apply quiet_bind; [apply quiet_attr|].
  intros cols. apply quiet_bind.
  - apply quiet_for_each. intros acc col.
    apply quiet_bind; [apply quiet_deviations_for|]. intros d.
    apply quiet_bind; [apply quiet_lib|]. intros best. apply quiet_ret.
  - intros bf. apply quiet_bind; [apply quiet_print|]. intros _.
    apply quiet_ret.
Qed.

Lemma quiet_validate_pair (x y : Q) (acc : list Hit) (item : string * string) :
  quiet (validate_pair x y acc item).
Proof.
  unfold validate_pair.
  apply quiet_bind; [apply quiet_self_getitem|]. intros t.
  apply quiet_bind; [apply quiet_self_getitem|]. intros i.
  apply quiet_bind; [apply quiet_self_getitem|]. intros xs.
  apply quiet_bind; [apply quiet_self_getitem|]. intros ys.
  destruct (loc_eq xs x ys) as [|iy rest]; [apply quiet_ret|].
  destruct (le_sqrt2_times _ _); apply quiet_ret.
Qed.

Lemma quiet_validate_row (best_fit : dict string) (acc : list Hit) (row : Row) :
  quiet (validate_row best_fit acc row).
Proof.
  unfold validate_row.
  apply quiet_bind; [apply quiet_lib|]. intros x.
  apply quiet_bind; [apply quiet_lib|]. intros y.
  apply quiet_bind; [apply quiet_self_getitem|]. intros xs.
  destruct (negb (contains xs x)); [apply quiet_ret|].
  apply quiet_for_each. intros acc' item. apply quiet_validate_pair.
Qed.

(** What follows the [pd.read_csv] call of [validate_test_data]. *)
Lemma quiet_validate_rest (best_fit : dict string) (test_df : DataFrame) :
  quiet (results <- for_each (iterrows test_df) [] (validate_row best_fit) ;;
         print (PrintValidated (firstn 10 results)) ;;;
         ret results).
Proof.
  apply quiet_bind.
  - apply quiet_for_each. intros acc row. apply quiet_validate_row.
  - intros results. apply quiet_bind; [apply quiet_print|]. intros _.
    apply quiet_ret.
Qed.

(** [pd.read_csv(path)] followed by statements that read nothing: the object
    and the files stay as they are, [path] is the one file read, and no
    exception is handled. *)
Lemma read_then_quiet {Obj A} (path : string)
    (k : DataFrame -> M (State Obj) A) :
  (forall df, quiet (k df)) ->
  forall s,
    self (fst (bind (read_csv path) k s)) = self s /\
    files (fst (bind (read_csv path) k s)) = files s /\
    exists evs,
      trace (fst (bind (read_csv path) k s)) = trace s ++ evs /\
      reads evs = [path] /\
      unhandled (snd (bind (read_csv path) k s)) evs.
Proof.
  intros Hk s. destruct (files s path) as [df|e] eqn:E.
  - rewrite (bind_ok _ _ s _ df (read_csv_ok path df s E)).
    destruct (Hk df (fst (log (EvReadCsv path) s)))
      as (Hself & Hfiles & evs & Htr & Hrd & Hun).
    simpl in *. split; [exact Hself|]. split; [exact Hfiles|].
    exists (EvReadCsv path :: evs). split; [|split].
    + rewrite Htr, <- app_assoc. reflexivity.
    + simpl. now rewrite Hrd.
    + apply (unhandled_app _ [EvReadCsv path] evs); [reflexivity | exact Hun].
  - assert (Heq : bind (read_csv path) k s
                  = ({| self := self s; files := files s;
                        trace := (trace s ++ [EvReadCsv path]) ++ [EvRaise e] |},
                     Raise e)).
    { unfold bind, read_csv, bind. simpl. rewrite E. reflexivity. }
    rewrite Heq. simpl. repeat split.
    exists [EvReadCsv path; EvRaise e]. split; [|split].
    + now rewrite <- app_assoc.
    + reflexivity.
    + now exists [EvReadCsv path].
Qed.

End Task01_effects.

Section Task01_effect_claims.
Import Task01.

(** [DataHandler.__init__], run: the ideal file is read first; the training
    file is read only when that succeeded. *)
Lemma init_run (ideal_file train_file : string) (s : State unit) :
  init ideal_file train_file s =
  match files s ideal_file with
  | Raise e =>
      ({| self := self s; files := files s;
          trace := trace s ++ [EvReadCsv ideal_file; EvRaise e] |}, Raise e)
  | Ok i =>
      match files s train_file with
      | Raise e =>
          ({| self := self s; files := files s;
              trace := trace s ++ [EvReadCsv ideal_file; EvReadCsv train_file;
                                   EvRaise e] |}, Raise e)
      | Ok t =>
          ({| self := self s; files := files s;
              trace := trace s ++ [EvReadCsv ideal_file; EvReadCsv train_file] |},
           Ok {| ideal_df := i; train_df := t |})
      end
  end.
Proof.
  unfold init, bind, read_csv, bind. simpl.
  destruct (files s ideal_file) as [i|e]; simpl.
  - destruct (files s train_file) as [t|e]; simpl;
      now rewrite <- !app_assoc.
  - now rewrite <- !app_assoc.
Qed.

Lemma validate_test_data_effects (test_file : string) (best_fit : dict string)
    (s : State DataHandler) :
  self (fst (validate_test_data test_file best_fit s)) = self s /\
  files (fst (validate_test_data test_file best_fit s)) = files s /\
  exists evs,
    trace (fst (validate_test_data test_file best_fit s)) = trace s ++ evs /\
    reads evs = [test_file] /\
    unhandled (snd (validate_test_data test_file best_fit s)) evs.
Proof.
  unfold validate_test_data. apply read_then_quiet.
  intros df. apply quiet_validate_rest.
Qed.

(** C7.  The operations of the first script handle no failure themselves:
    whenever [DataHandler] construction, [get_best_fit_functions] or
    [validate_test_data] ends with an exception [e], the last thing that
    happened is a library call raising that same [e]; and no library call
    raised earlier in the run, so no exception is ever caught. *)
Theorem task01_exceptions_propagate :
  (forall ideal_file train_file (s : State unit),
     propagates_at (init ideal_file train_file) s) /\
  (forall s : State DataHandler, propagates_at get_best_fit_functions s) /\
  (forall test_file best_fit (s : State DataHandler),
     propagates_at (validate_test_data test_file best_fit) s).
Proof.
  split; [|split].
  - intros ideal_file train_file s. unfold propagates_at.
    rewrite init_run.
    destruct (files s ideal_file) as [i|e]; simpl.
    + destruct (files s train_file) as [t|e]; simpl.
      * exists [EvReadCsv ideal_file; EvReadCsv train_file]. auto.
      * exists [EvReadCsv ideal_file; EvReadCsv train_file; EvRaise e].
        split; [reflexivity|].
        now exists [EvReadCsv ideal_file; EvReadCsv train_file].
    + exists [EvReadCsv ideal_file; EvRaise e]. split; [reflexivity|].
      now exists [EvReadCsv ideal_file].
  - intros s.
    destruct (quiet_get_best_fit_functions s) as (_ & _ & evs & Htr & _ & Hun).
    now exists evs.
  - intros test_file best_fit s.
    destruct (validate_test_data_effects test_file best_fit s)
      as (_ & _ & evs & Htr & _ & Hun).
    now exists evs.
Qed.

(** C8.  Neither [get_best_fit_functions] nor [validate_test_data] modifies
    the [DataHandler]: after either call, also one that raises, [ideal_df] and
    [train_df] are what they were before. *)
Theorem task01_handler_unchanged (s : State DataHandler) :
  (ideal_df (self (fst (get_best_fit_functions s))) = ideal_df (self s) /\
   train_df (self (fst (get_best_fit_functions s))) = train_df (self s)) /\
  (forall test_file best_fit,
     ideal_df (self (fst (validate_test_data test_file best_fit s)))
     = ideal_df (self s) /\
     train_df (self (fst (validate_test_data test_file best_fit s)))
     = train_df (self s)).
Proof.
  split.
  - destruct (quiet_get_best_fit_functions s) as (Hself & _).
    now rewrite Hself.
  - intros test_file best_fit.
    destruct (validate_test_data_effects test_file best_fit s) as (Hself & _).
    now rewrite Hself.
Qed.

End Task01_effect_claims.

(* ===================================================================== *)
(** * Effects of the second script                                        *)
(* ===================================================================== *)

Section Task02_effects.
Import Task02.

Lemma plot_reads_app (l l' : list Event) :
  reads (l ++ l') = reads l ++ reads l'.
Proof.
  induction l as [|[p|e|f|v|m] l IH]; simpl; try assumption;
    [reflexivity | now rewrite IH].
Qed.

Lemma shown_app (l l' : list Event) : shown (l ++ l') = shown l ++ shown l'.
Proof.
  induction l as [|[p|e|f|v|m] l IH]; simpl; try assumption;
    [reflexivity | now rewrite IH].
Qed.

Lemma extend_nil (s : State) : extend s [] = s.
Proof. destruct s. unfold extend. simpl. now rewrite app_nil_r. Qed.

Lemma extend_extend (s : State) (a b : list Event) :
  extend (extend s a) b = extend s (a ++ b).
Proof. unfold extend. simpl. now rewrite app_assoc. Qed.

Section adds_closure.
Variable P : list Event -> Prop.
Hypothesis P_nil : P [].
Hypothesis P_app : forall a b, P a -> P b -> P (a ++ b).
Hypothesis P_raise : forall e, P [EvRaise e].

Lemma adds_ret {A} (a : A) : adds P (@ret State A a).
Proof. intros s. exists []. simpl. now rewrite extend_nil. Qed.

Lemma adds_lib {A} (r : result A) : adds P (lib r).
Proof.
  intros s. destruct r as [a|e].
  - exists []. simpl. now rewrite extend_nil.
  - exists [EvRaise e]. split; [reflexivity | apply P_raise].
Qed.

Lemma adds_build (fig : Figure) : adds P (build fig).
Proof. intros s. unfold build. apply adds_lib. Qed.

Lemma adds_bind {A B} (m : M State A) (k : A -> M State B) :
  adds P m -> (forall a, adds P (k a)) -> adds P (bind m k).
Proof.
  intros Hm Hk s. unfold bind. destruct (Hm s) as (evs & Hfst & HP).
  destruct (m s) as [s1 [a|e]]; simpl in Hfst; subst s1.
  - destruct (Hk a (extend s evs)) as (evs' & Hfst' & HP').
    exists (evs ++ evs'). rewrite Hfst', extend_extend. auto.
  - now exists evs.
Qed.

Lemma adds_try_except {A} (m : M State A) (handler : exn -> M State A) :
  adds P m -> (forall e, adds P (handler e)) -> adds P (try_except m handler).
Proof.
  intros Hm Hh s. unfold try_except. destruct (Hm s) as (evs & Hfst & HP).
  destruct (m s) as [s1 [a|e]]; simpl in Hfst; subst s1.
  - now exists evs.
  - destruct (Hh e (extend s evs)) as (evs' & Hfst' & HP').
    exists (evs ++ evs'). rewrite Hfst', extend_extend. auto.
Qed.

Lemma adds_assertion (holds : bool) (msg : string) :
  adds P (assertion holds msg).
Proof.
  unfold assertion. destruct holds; [apply adds_ret | apply adds_lib].
Qed.

End adds_closure.

Lemma silent_nil : silent [].
Proof. now split. Qed.

Lemma silent_app (a b : list Event) : silent a -> silent b -> silent (a ++ b).
Proof.
  intros [Ha Ha'] [Hb Hb']. split.
  - now rewrite plot_reads_app, Ha, Hb.
  - now rewrite shown_app, Ha', Hb'.
Qed.

Lemma silent_raise (e : exn) : silent [EvRaise e].
Proof. now split. Qed.

Lemma no_read_app (a b : list Event) :
  no_read a -> no_read b -> no_read (a ++ b).
Proof. unfold no_read. intros Ha Hb. now rewrite plot_reads_app, Ha, Hb. Qed.

(** The test methods read nothing and display nothing. *)
Lemma test_methods_silent (test : Table * Table -> M State unit) :
  In test test_methods -> forall fx, adds silent (test fx).
Proof.
  pose proof silent_nil as Hn. pose proof silent_app as Ha.
  pose proof silent_raise as Hr.
  intros [<-|[<-|[<-|[<-|[]]]]] fx.
  - apply adds_assertion; assumption.
  - apply adds_assertion; assumption.
  - apply adds_assertion; assumption.
  - apply adds_try_except; try assumption.
    + apply adds_bind; try assumption.
      * apply adds_build; assumption.
      * intros _. apply adds_assertion; assumption.
    + intros e. apply adds_assertion; assumption.
Qed.

(** One test method, run: its [setUp] reads the fixture's file once, nothing
    is displayed, and the runner returns a verdict. *)
Lemma run_test_run (test : Table * Table -> M State unit) (s : State) :
  (forall fx, adds silent (test fx)) ->
  exists evs v,
    run_test test s = (extend s evs, Ok v) /\
    reads evs = [fixture_path] /\ shown evs = [].
Proof.
  intros Htest. unfold run_test, setUp, bind, load_data, bind. simpl.
  destruct (files s fixture_path) as [data|e]; simpl.
  - destruct (Htest (data, preprocess_data data)
                (extend s [EvReadCsv fixture_path])) as (evs & Hfst & Hr & Hs).
    unfold extend in Hfst at 2. simpl in Hfst.
    destruct (test (data, preprocess_data data) _) as [s2 r].
    simpl in Hfst. subst s2.
    exists (EvReadCsv fixture_path :: evs), (verdict_of r).
    split; [|split].
    + unfold extend. simpl. now rewrite <- app_assoc.
    + simpl. now rewrite Hr.
    + exact Hs.
  - exists [EvReadCsv fixture_path; EvRaise e], Errored.
    split; [|split]; try reflexivity.
    unfold extend. simpl. now rewrite <- app_assoc.
Qed.

Lemma run_tests_run (tests : list (Table * Table -> M State unit)) :
  (forall test, In test tests -> forall fx, adds silent (test fx)) ->
  forall (acc : list Verdict) (s : State),
  exists evs vs,
    for_each tests acc (fun vs test => v <- run_test test ;; ret (vs ++ [v])) s
    = (extend s evs, Ok vs) /\
    reads evs = repeat fixture_path (List.length tests) /\ shown evs = [].
Proof.
  induction tests as [|test tests IH]; intros Hsilent acc s.
  - exists [], acc. simpl. now rewrite extend_nil.
  - destruct (run_test_run test s (Hsilent test (or_introl eq_refl)))
      as (evs1 & v & Hrun1 & Hr1 & Hs1).
    destruct (IH (fun t Ht => Hsilent t (or_intror Ht)) (acc ++ [v])
                 (extend s evs1)) as (evs2 & vs & Hrun2 & Hr2 & Hs2).
    exists (evs1 ++ evs2), vs. split; [|split].
    + cbn [for_each].
      rewrite (bind_ok _ _ s (extend s evs1) (acc ++ [v])).
      * rewrite Hrun2. now rewrite extend_extend.
      * unfold bind. now rewrite Hrun1.
    + rewrite plot_reads_app, Hr1, Hr2. reflexivity.
    + now rewrite shown_app, Hs1, Hs2.
Qed.

(** [unittest.main(argv=[''], exit=False)], run: it returns normally, has
    read the fixture's file once per test method and displayed nothing. *)
Lemma unittest_main_run (s : State) :
  exists evs,
    unittest_main s = (extend s evs, Ok tt) /\
    reads evs = repeat fixture_path 4 /\ shown evs = [].
Proof.
  destruct (run_tests_run test_methods test_methods_silent [] s)
    as (evs & vs & Hrun & Hr & Hs).
  exists (evs ++ [EvTestReport vs]). split; [|split].
  - unfold unittest_main. rewrite (bind_ok _ _ s (extend s evs) vs Hrun).
    unfold log. simpl. now rewrite <- extend_extend.
  - rewrite plot_reads_app, Hr. reflexivity.
  - rewrite shown_app, Hs. reflexivity.
Qed.

End Task02_effects.

(* ===================================================================== *)
(** * Running [main] of the second script                                 *)
(* ===================================================================== *)

Section Task02_runs.
Import Task02.

Lemma load_data_ok (path : string) (data : Table) (s : State) :
  files s path = Ok data ->
  load_data path s = (extend s [EvReadCsv path], Ok data).
Proof. intros H. unfold load_data, bind. simpl. now rewrite H. Qed.

Lemma load_data_raise (path : string) (e : exn) (s : State) :
  files s path = Raise e ->
  load_data path s = (extend s [EvReadCsv path; EvRaise e], Raise e).
Proof.
  intros H. unfold load_data, bind. simpl. rewrite H.
  unfold lib, bind, log, extend. simpl. now rewrite <- app_assoc.
Qed.

Lemma draw_ok (fig : Figure) (s : State) :
  charts s fig = Ok tt -> draw fig s = (extend s [EvShow fig], Ok tt).
Proof. intros H. unfold draw, build, bind. now rewrite H. Qed.

Lemma adds_log (P : list Event -> Prop) (ev : Event) :
  P [ev] -> adds P (log ev).
Proof. intros H s. now exists [ev]. Qed.

Lemma adds_draw (fig : Figure) : adds no_read (draw fig).
Proof.
  unfold draw. apply adds_bind.
  - exact no_read_app.
  - apply adds_build; reflexivity.
  - intros _. now apply adds_log.
Qed.

(** The plotting part of [main] reads no file, whatever the charting calls
    do. *)
Lemma plots_no_read (data numeric_data : Table) :
  adds no_read
    (plot_heatmap numeric_data ;;;
     plot_scatter_bokeh data ;;;
     plot_histogram data ;;;
     plot_bar data ;;;
     plot_boxplot data ;;;
     plot_3d_scatter_plot data flow_velocity heat_transfer viscosity ;;;
     log (EvPrint "All visualizations generated successfully!")).
Proof.
  assert (Hn : no_read []) by reflexivity.
  assert (Hr : forall e, no_read [EvRaise e]) by reflexivity.
  pose proof no_read_app as Ha.
  unfold plot_heatmap, plot_scatter_bokeh, plot_bar, plot_boxplot.
  apply adds_bind; [exact Ha | apply adds_draw | intros _].
  apply adds_bind; [exact Ha | apply adds_draw | intros _].
  apply adds_bind; [exact Ha | | intros _].
  { unfold plot_histogram.
    apply adds_bind; [exact Ha | now apply adds_lib | intros v].
    apply adds_draw. }
  apply adds_bind; [exact Ha | apply adds_draw | intros _].
  apply adds_bind; [exact Ha | apply adds_draw | intros _].
  apply adds_bind; [exact Ha | | intros _].
  { unfold plot_3d_scatter_plot.
    do 4 (apply adds_bind; [exact Ha | now apply adds_lib | intros ?]).
    apply adds_draw. }
  now apply adds_log.
Qed.

(** The files [main] reads: its own [load_data] call reads [file_path]; the
    other reads are those of the test fixture. *)
Lemma main_reads (file_path : string) (s : State) :
  exists evs,
    fst (main file_path s) = extend s evs /\
    reads evs = file_path ::
                match files s file_path with
                | Ok _ => repeat fixture_path 4
                | Raise _ => []
                end.
Proof.
  unfold main. destruct (files s file_path) as [data|e] eqn:E.
  - rewrite (bind_ok _ _ s _ data (load_data_ok _ _ _ E)).
    destruct (unittest_main_run (extend s [EvReadCsv file_path]))
      as (evs1 & Hrun1 & Hr1 & _).
    rewrite (bind_ok _ _ _ _ tt Hrun1).
    destruct (plots_no_read data (preprocess_data data)
                (extend (extend s [EvReadCsv file_path]) evs1))
      as (evs2 & Hfst & Hr2).
    exists ([EvReadCsv file_path] ++ evs1 ++ evs2). split.
    + rewrite Hfst, !extend_extend. rewrite <- ?app_assoc. reflexivity.
    + rewrite !plot_reads_app, Hr1, Hr2. simpl. now rewrite ?app_nil_r.
  - rewrite (bind_raise _ _ s _ e (load_data_raise _ _ _ E)).
    now exists [EvReadCsv file_path; EvRaise e].
Qed.

End Task02_runs.

Section Task02_claims.
Import Task02.

Lemma plot_lib_ok {A} (r : result A) (a : A) (s : State) :
  r = Ok a -> lib r s = (s, Ok a).
Proof. now intros ->. Qed.

(** The plotting part of [main], run when every charting call returns and
    the indexed columns exist: six figures are displayed, in this order. *)
Lemma plots_run (data : Table) (s : State) (tc fv ht vi : Column) :
  (forall fig, charts s fig = Ok tt) ->
  getitem data thermal_conductivity = Ok tc ->
  getitem data flow_velocity = Ok fv ->
  getitem data heat_transfer = Ok ht ->
  getitem data viscosity = Ok vi ->
  (plot_heatmap (preprocess_data data) ;;;
   plot_scatter_bokeh data ;;;
   plot_histogram data ;;;
   plot_bar data ;;;
   plot_boxplot data ;;;
   plot_3d_scatter_plot data flow_velocity heat_transfer viscosity ;;;
   log (EvPrint "All visualizations generated successfully!")) s
  = (extend s
       [EvShow (Heatmap (preprocess_data data));
        EvShow (ScatterBokeh data flow_velocity heat_transfer);
        EvShow (Histogram tc);
        EvShow (BarPlot data nanoparticle_type heat_transfer);
        EvShow (BoxPlot data nanoparticle_type viscosity);
        EvShow (Scatter3d flow_velocity heat_transfer viscosity fv ht vi vi);
        EvPrint "All visualizations generated successfully!"],
     Ok tt).
Proof.
  intros Hc Htc Hfv Hht Hvi.
  unfold plot_heatmap, plot_scatter_bokeh, plot_histogram, plot_bar,
    plot_boxplot, plot_3d_scatter_plot.
  erewrite bind_ok by (apply draw_ok; apply Hc).
  erewrite bind_ok by (apply draw_ok; apply Hc).
  erewrite bind_ok;
    [| erewrite bind_ok by (apply plot_lib_ok; exact Htc);
       apply draw_ok; apply Hc].
  erewrite bind_ok by (apply draw_ok; apply Hc).
  erewrite bind_ok by (apply draw_ok; apply Hc).
  erewrite bind_ok;
    [| erewrite bind_ok by (apply plot_lib_ok; exact Hfv);
       erewrite bind_ok by (apply plot_lib_ok; exact Hht);
       erewrite bind_ok by (apply plot_lib_ok; exact Hvi);
       erewrite bind_ok by (apply plot_lib_ok; exact Hvi);
       apply draw_ok; apply Hc].
  unfold log, extend. simpl. rewrite <- !app_assoc. reflexivity.
Qed.

Lemma preprocess_data_columns (data : Table) (label : string) (c : Column) :
  In (label, c) (preprocess_data data) <->
  In (label, c) data /\ is_number c = true.
Proof. unfold preprocess_data. now rewrite filter_In. Qed.

(** C5.  Given a dataset path, [main] loads the dataset, restricts it to its
    numeric columns, and then produces the battery of plots in order: the
    heatmap of the correlations over exactly the numeric columns, the scatter
    plot, the histogram, the bar plot, the box plot and the 3D scatter plot.
    (When the file loads, the dataset has the columns the plots index and
    the charting calls return.) *)
Theorem main_plots_in_order (file_path : string) (s : State) (data : Table)
    (tc fv ht vi : Column) :
  files s file_path = Ok data ->
  (forall fig, charts s fig = Ok tt) ->
  getitem data thermal_conductivity = Ok tc ->
  getitem data flow_velocity = Ok fv ->
  getitem data heat_transfer = Ok ht ->
  getitem data viscosity = Ok vi ->
  exists evs,
    main file_path s = (extend s evs, Ok tt) /\
    hd_error evs = Some (EvReadCsv file_path) /\
    shown evs =
      [Heatmap (preprocess_data data);
       ScatterBokeh data flow_velocity heat_transfer;
       Histogram tc;
       BarPlot data nanoparticle_type heat_transfer;
       BoxPlot data nanoparticle_type viscosity;
       Scatter3d flow_velocity heat_transfer viscosity fv ht vi vi] /\
    (forall label c, In (label, c) (preprocess_data data) <->
                     In (label, c) data /\ is_number c = true).
Proof.
  intros Hf Hc Htc Hfv Hht Hvi.
  destruct (unittest_main_run (extend s [EvReadCsv file_path]))
    as (evs1 & Hrun1 & _ & Hs1).
  eexists. split; [|split; [|split]].
  - unfold main.
    rewrite (bind_ok _ _ s _ data (load_data_ok _ _ _ Hf)).
    cbv zeta. rewrite (bind_ok _ _ _ _ tt Hrun1).
    rewrite (plots_run data (extend (extend s [EvReadCsv file_path]) evs1)
               tc fv ht vi Hc Htc Hfv Hht Hvi).
    rewrite !extend_extend. reflexivity.
  - reflexivity.
  - rewrite !shown_app, Hs1. reflexivity.
  - apply preprocess_data_columns.
Qed.

(** The files a run of the second script reads, in order. *)
Lemma script_reads (s : State) :
  exists evs,
    fst (script s) = extend s evs /\
    reads evs = repeat fixture_path 4 ++ script_file_path ::
                match files s script_file_path with
                | Ok _ => repeat fixture_path 4
                | Raise _ => []
                end.
Proof.
  destruct (unittest_main_run s) as (evs1 & Hrun1 & Hr1 & _).
  destruct (main_reads script_file_path (extend s evs1)) as (evs2 & Hfst & Hr2).
  exists (evs1 ++ evs2). split.
  - unfold script. rewrite (bind_ok _ _ _ _ tt Hrun1).
    now rewrite Hfst, extend_extend.
  - now rewrite plot_reads_app, Hr1, Hr2.
Qed.

End Task02_claims.

(* ===================================================================== *)
(** * How often the input files are read                                  *)
(* ===================================================================== *)




(* ===================================================================== *)
(** * The theorems on the sample data                                     *)
(* ===================================================================== *)


Lemma best_fit_four_entries_sample :
  exists s' best_fit,
    Task01.get_best_fit_functions Sample.state = (s', Ok best_fit) /\
    List.length best_fit = 4 /\
    map fst best_fit = ["t1"; "t2"; "t3"; "t4"] /\
    forall kv, In kv best_fit ->
      In (snd kv) (map fst (Task01.candidates Sample.ideal)).
Proof.
  apply (best_fit_four_entries Sample.state
           ("x", [1; 2; 3]%Q) ("t1", [2; 4; 7]%Q) ("t2", [1; 2; 7 # 2]%Q)
           ("t3", [1; 2; 3]%Q) ("t4", [2; 4; 6]%Q));
    [reflexivity | reflexivity | reflexivity | discriminate].
Defined.

Lemma ideal_lookup_nonempty_sample :
  loc_eq [1; 2; 3]%Q 3%Q [2; 4; 6]%Q <> [].
Proof.
  apply (ideal_lookup_nonempty Sample.handler 3%Q "y2" [1; 2; 3]%Q [2; 4; 6]%Q);
    reflexivity.
Defined.

Lemma main_plots_in_order_sample :
  exists evs,
    Task02.main "data.csv" Sample.world = (Task02.extend Sample.world evs, Ok tt) /\
    hd_error evs = Some (Task02.EvReadCsv "data.csv") /\
    Task02.shown evs =
      [Task02.Heatmap (Task02.preprocess_data Sample.dataset);
       Task02.ScatterBokeh Sample.dataset Task02.flow_velocity
         Task02.heat_transfer;
       Task02.Histogram (Task02.NumCol [Some (1 # 2); Some (3 # 4)]%Q);
       Task02.BarPlot Sample.dataset Task02.nanoparticle_type
         Task02.heat_transfer;
       Task02.BoxPlot Sample.dataset Task02.nanoparticle_type
         Task02.viscosity;
       Task02.Scatter3d Task02.flow_velocity Task02.heat_transfer
         Task02.viscosity (Task02.NumCol [Some 1; Some 2]%Q) (Task02.NumCol [Some 3; Some 5]%Q)
         (Task02.NumCol [Some (1 # 100); Some (2 # 100)]%Q)
         (Task02.NumCol [Some (1 # 100); Some (2 # 100)]%Q)] /\
    (forall label c,
       In (label, c) (Task02.preprocess_data Sample.dataset) <->
       In (label, c) Sample.dataset /\ Task02.is_number c = true).
Proof.
  apply (main_plots_in_order "data.csv" Sample.world Sample.dataset
           (Task02.NumCol [Some (1 # 2); Some (3 # 4)]%Q) (Task02.NumCol [Some 1; Some 2]%Q)
           (Task02.NumCol [Some 3; Some 5]%Q) (Task02.NumCol [Some (1 # 100); Some (2 # 100)]%Q));
    reflexivity.
Defined.

(** ** The sample data, run *)

Example sample_best_fit :
  snd (Task01.get_best_fit_functions Sample.state) = Ok Sample.best_fit.
Proof. vm_compute. reflexivity. Qed.

(** [t2] is as far from [y1] as from [y3]; [y1] comes first. *)
Example sample_tie :
  (sum_sq_diff [1; 2; 7 # 2] [1; 2; 3] == sum_sq_diff [1; 2; 7 # 2] [1; 2; 4])%Q.
Proof. vm_compute. reflexivity. Qed.

Example sample_no_candidate :
  snd (Task01.get_best_fit_functions
         {| Task01.self := {| Task01.ideal_df := [("x", [1; 2; 3]%Q)];
                              Task01.train_df := Sample.train |};
            Task01.files := Sample.disk; Task01.trace := [] |})
  = Raise (ValueError "min() arg is an empty sequence").
Proof. vm_compute. reflexivity. Qed.

Example sample_validate :
  snd (Task01.validate_test_data "test.csv" [("t1", "y2"); ("t2", "y3")]
         Sample.state)
  = Ok [(1, 1, "y2", 1); (1, 1, "y3", 0); (3, 9 # 2, "y3", 1 # 2)]%Q.
Proof. vm_compute. reflexivity. Qed.

Example sample_validate_missing_file :
  Task01.validate_test_data "nowhere.csv" Sample.best_fit Sample.state
  = ({| Task01.self := Sample.handler; Task01.files := Sample.disk;
        Task01.trace := [Task01.EvReadCsv "nowhere.csv";
                         Task01.EvRaise (OSError "nowhere.csv")] |},
     Raise (OSError "nowhere.csv")).
Proof. reflexivity. Qed.

Example sample_validate_missing_column :
  snd (Task01.validate_test_data "test.csv" [("t1", "y9")] Sample.state)
  = Raise (KeyError "y9").
Proof. vm_compute. reflexivity. Qed.

(** The runner turns a failing [setUp] into a verdict: the exception is
    raised by a library call and does not reach the caller. *)
Example sample_tests_without_fixture :
  Task02.unittest_main
    {| Task02.files := fun p => Raise (OSError p);
       Task02.charts := fun _ => Ok tt; Task02.trace := [] |}
  = ({| Task02.files := fun p => Raise (OSError p);
        Task02.charts := fun _ => Ok tt;
        Task02.trace :=
          [Task02.EvReadCsv Task02.fixture_path;
           Task02.EvRaise (OSError Task02.fixture_path);
           Task02.EvReadCsv Task02.fixture_path;
           Task02.EvRaise (OSError Task02.fixture_path);
           Task02.EvReadCsv Task02.fixture_path;
           Task02.EvRaise (OSError Task02.fixture_path);
           Task02.EvReadCsv Task02.fixture_path;
           Task02.EvRaise (OSError Task02.fixture_path);
           Task02.EvTestReport
             [Task02.Errored; Task02.Errored; Task02.Errored;
              Task02.Errored]] |},
     Ok tt).
Proof. reflexivity. Qed.

(* ===================================================================== *)
(** * More on the least-squares choice                                    *)
(* ===================================================================== *)

Section Task01_best_fit_more.
Import Task01.

Lemma columns_from_1_candidates (df : DataFrame) :
  columns_from_1 df = map fst (candidates df).
Proof. unfold columns_from_1, columns, candidates. now rewrite map_tl. Qed.

(** X1.  On a training table with no column after the first,
    [get_best_fit_functions] returns the empty mapping and prints it; the
    ideal table is not looked at, so it may have no candidate either. *)
Theorem best_fit_no_training_curve (s : State DataHandler) :
  candidates (train_df (self s)) = [] ->
  get_best_fit_functions s = (fst (print (PrintBestFit []) s), Ok []).
Proof.
  intros H. unfold get_best_fit_functions, bind, attr.
  rewrite columns_from_1_candidates, H. reflexivity.
Qed.

(** X2.  When the training table has a curve and the ideal table has no
    column after the first, [get_best_fit_functions] raises the [ValueError]
    of [min] on an empty dict at the first curve, and prints nothing. *)
Theorem best_fit_no_candidate (s : State DataHandler) :
  candidates (train_df (self s)) <> [] ->
  candidates (ideal_df (self s)) = [] ->
  get_best_fit_functions s
  = ({| self := self s; files := files s;
        trace := trace s ++
                 [EvRaise (ValueError "min() arg is an empty sequence")] |},
     Raise (ValueError "min() arg is an empty sequence")).
Proof.
  intros Ht Hi. unfold get_best_fit_functions, bind, attr.
  rewrite columns_from_1_candidates.
  destruct (candidates (train_df (self s))) as [|c cs]; [congruence|].
  simpl. unfold deviations_for, bind, attr.
  rewrite columns_from_1_candidates, Hi. reflexivity.
Qed.

(** ** A sum of squared differences that is zero *)

Lemma Qsquare_zero (q : Q) : (q ^ 2 == 0)%Q -> (q == 0)%Q.
Proof.
  change (q ^ 2)%Q with (q * q)%Q. intros H.
  apply Qmult_integral in H. tauto.
Qed.

Lemma sum_sq_diff_zero (a b : Series) :
  (sum_sq_diff a b == 0)%Q <->
  forall k x y, nth_error a k = Some x -> nth_error b k = Some y -> (x == y)%Q.
Proof.
  revert b. induction a as [|x0 a IH]; intros [|y0 b].
  - split; [intros _ [|k] x y H; discriminate | reflexivity].
  - split; [intros _ [|k] x y H; discriminate | reflexivity].
  - rewrite sum_sq_diff_nil_r.
    split; [intros _ [|k] x y _ H; discriminate | reflexivity].
  - rewrite sum_sq_diff_cons.
    pose proof (Qsquare_nonneg (x0 - y0)) as H1.
    pose proof (sum_sq_diff_nonneg a b) as H2.
    split.
    + intros H.
      assert (Hsq : ((x0 - y0) ^ 2 == 0)%Q).
      { apply Qle_antisym; [|exact H1]. rewrite <- H.
        rewrite <- (Qplus_0_r ((x0 - y0) ^ 2)) at 1.
        apply Qplus_le_compat; [apply Qle_refl | exact H2]. }
      assert (Hrest : (sum_sq_diff a b == 0)%Q).
      { rewrite Hsq, Qplus_0_l in H. exact H. }
      intros [|k] x y Hx Hy; simpl in Hx, Hy.
      * injection Hx as <-. injection Hy as <-.
        apply Qsquare_zero in Hsq.
        setoid_replace x0 with ((x0 - y0) + y0)%Q by ring.
        rewrite Hsq. ring.
      * apply (proj1 (IH b) Hrest k); assumption.
    + intros H.
      assert (Hxy : (x0 == y0)%Q) by (apply (H 0); reflexivity).
      assert (Hrest : (sum_sq_diff a b == 0)%Q).
      { apply IH. intros k x y Hx Hy. apply (H (S k)); assumption. }
      rewrite Hrest, Hxy. ring.
Qed.

(** Every entry of the mapping names a training column and an ideal column. *)
Lemma best_fit_columns_exist (h : DataHandler) (bf : dict string) :
  Forall2 (fun c kv => fst kv = fst c /\ chosen_by h c (snd kv))
          (candidates (train_df h)) bf ->
  forall item, In item bf ->
    In (fst item) (columns (train_df h)) /\
    In (snd item) (columns (ideal_df h)).
Proof.
  intros Hall item Hin.
  destruct (Forall2_In_r _ _ _ _ Hall Hin) as (c & Hc & Hk & Hmin).
  split.
  - rewrite Hk. unfold columns. apply in_map. now apply In_tl.
  - destruct (chosen_position _ _ _ Hmin) as (iv & pre & post & Hsplit & _).
    unfold columns. change (snd item) with (fst (snd item, iv)).
    apply in_map. apply In_tl. fold (candidates (ideal_df h)).
    rewrite Hsplit. apply in_or_app. right. now left.
Qed.

End Task01_best_fit_more.

(* ===================================================================== *)
(** * More on the validation of test points                               *)
(* ===================================================================== *)

Section Task01_validation_more.
Import Task01.

(** [validate_test_data], run on tables that have the indexed columns. *)
Lemma validate_test_data_run (s : State DataHandler) (test_file : string)
    (best_fit : dict string) (test_df : DataFrame) :
  files s test_file = Ok test_df ->
  wf_frame test_df = true ->
  In "x" (columns test_df) ->
  In "y" (columns test_df) ->
  wf_frame (ideal_df (self s)) = true ->
  In "x" (columns (ideal_df (self s))) ->
  (forall item, In item best_fit ->
     In (fst item) (columns (train_df (self s))) /\
     In (snd item) (columns (ideal_df (self s)))) ->
  exists results,
    validate_test_data test_file best_fit s
    = (fst (print (PrintValidated (firstn 10 results))
              (fst (log (EvReadCsv test_file) s))), Ok results) /\
    forall hit, In hit results <-> hit_spec (self s) test_df best_fit hit.
Proof.
  intros Hf Hwt Htx Hty Hwi Hix Hcols.
  set (s1 := fst (log (EvReadCsv test_file) s)).
  destruct (validate_rows_run s1 test_df best_fit Hwt Htx Hty Hwi Hix Hcols
              (seq 0 (nrows test_df)) [])
    as (results & Hrun & Hspec).
  { intros r Hr. apply in_seq in Hr. lia. }
  exists results. split.
  - unfold validate_test_data.
    rewrite (bind_ok _ _ s s1 test_df) by (now apply read_csv_ok).
    unfold iterrows. rewrite (bind_ok _ _ s1 s1 results Hrun). reflexivity.
  - intros hit. rewrite Hspec. unfold hit_spec. simpl. split.
    + intros [[]|(r & _ & H)]. now exists r.
    + intros (r & H). right. exists r. split; [|exact H].
      destruct H as (x & _ & _ & Hx & _).
      apply cell_in_range in Hx; [|exact Hwt]. apply in_seq. lia.
Qed.

(** X4.  The mapping [get_best_fit_functions] returns can be passed to
    [validate_test_data] as it is: every column it names exists, so the
    validation raises no [KeyError] and returns, and every tuple it returns
    carries one of the chosen ideal columns. *)
Theorem best_fit_then_validate (s : State DataHandler) (test_file : string)
    (test_df : DataFrame) :
  wf_frame (train_df (self s)) = true ->
  wf_frame (ideal_df (self s)) = true ->
  candidates (ideal_df (self s)) <> [] ->
  In "x" (columns (ideal_df (self s))) ->
  files s test_file = Ok test_df ->
  wf_frame test_df = true ->
  In "x" (columns test_df) ->
  In "y" (columns test_df) ->
  exists s1 best_fit s2 results,
    get_best_fit_functions s = (s1, Ok best_fit) /\
    validate_test_data test_file best_fit s1 = (s2, Ok results) /\
    forall x y ideal_col deviation,
      In (x, y, ideal_col, deviation) results ->
      In ideal_col (map snd best_fit).
Proof.
  intros Hwt Hwi Hne Hix Hf Hwtest Htx Hty.
  destruct (get_best_fit_functions_run s Hwt Hwi Hne) as (bf & Hrun & Hall).
  set (s1 := fst (print (PrintBestFit bf) s)).
  destruct (validate_test_data_run s1 test_file bf test_df Hf Hwtest Htx Hty
              Hwi Hix (best_fit_columns_exist (self s) bf Hall))
    as (results & Hrun2 & Hspec).
  eexists s1, bf, _, results. split; [exact Hrun|]. split; [exact Hrun2|].
  intros x y ic d Hin. apply Hspec in Hin.
  destruct Hin as (r & x' & y' & item & _ & _ & Hitem & Hp).
  destruct Hp as (xs & t & i & k & iy & m & _ & _ & _ & _ & _ & Hh & _).
  injection Hh as _ _ -> _. now apply in_map.
Qed.

(** A test row whose [x] is not in the ideal table is skipped before
    [best_fit] is looked at. *)
Lemma validate_row_skip (s : State DataHandler) (test_df : DataFrame)
    (best_fit : dict string) (r : nat) (acc : list Hit) (xs xcol : Series) :
  wf_frame test_df = true ->
  lookup test_df "x" = Some xcol ->
  In "y" (columns test_df) ->
  r < nrows test_df ->
  lookup (ideal_df (self s)) "x" = Some xs ->
  contains xs (nth r xcol 0%Q) = false ->
  validate_row best_fit acc (row_at test_df r) s = (s, Ok acc).
Proof.
  intros Hwt Htx Hty Hr Hix Hc.
  apply In_lookup in Hty. destruct Hty as (ycol & Hty).
  destruct (row_getitem_row_at _ _ _ _ Hwt Htx Hr) as [Hgx _].
  destruct (row_getitem_row_at _ _ _ _ Hwt Hty Hr) as [Hgy _].
  unfold validate_row.
  rewrite (bind_ok _ _ s s (nth r xcol 0%Q)) by (now apply lib_ok).
  rewrite (bind_ok _ _ s s (nth r ycol 0%Q)) by (now apply lib_ok).
  rewrite (bind_ok _ _ s s xs) by (now apply self_getitem_ok).
  now rewrite Hc.
Qed.

(** X5.  When no [x] of the test table occurs in the [x] column of the ideal
    table, [validate_test_data] returns the empty list whatever [best_fit]
    is: the columns it names are never looked up, so a mapping that names
    missing columns raises nothing. *)
Theorem validate_no_matching_row (s : State DataHandler) (test_file : string)
    (best_fit : dict string) (test_df : DataFrame) (xs : Series) :
  files s test_file = Ok test_df ->
  wf_frame test_df = true ->
  In "x" (columns test_df) ->
  In "y" (columns test_df) ->
  lookup (ideal_df (self s)) "x" = Some xs ->
  (forall r x, cell test_df "x" r = Some x -> contains xs x = false) ->
  validate_test_data test_file best_fit s
  = (fst (print (PrintValidated [])
            (fst (log (EvReadCsv test_file) s))), Ok []).
Proof.
  intros Hf Hwt Htx Hty Hix Hnone.
  set (s1 := fst (log (EvReadCsv test_file) s)).
  apply In_lookup in Htx. destruct Htx as (xcol & Htx).
  assert (Hloop : forall rs acc,
            (forall r, In r rs -> r < nrows test_df) ->
            for_each (map (row_at test_df) rs) acc (validate_row best_fit) s1
            = (s1, Ok acc)).
  { induction rs as [|r rs IH]; intros acc Hrs; [reflexivity|].
    simpl map. cbn [for_each].
    rewrite (bind_ok _ _ s1 s1 acc).
    - apply IH. intros r' Hr'. apply Hrs. now right.
    - apply (validate_row_skip s1 test_df best_fit r acc xs xcol);
        try assumption.
      + apply Hrs. now left.
      + apply (Hnone r).
        destruct (row_getitem_row_at test_df r "x" xcol Hwt Htx) as [_ Hc];
          [apply Hrs; now left | exact Hc]. }
  unfold validate_test_data.
  rewrite (bind_ok _ _ s s1 test_df) by (now apply read_csv_ok).
  unfold iterrows. rewrite (bind_ok _ _ s1 s1 []).
  - reflexivity.
  - apply Hloop. intros r Hr. apply in_seq in Hr. lia.
Qed.

(** X6.  When the first entry of [best_fit] names a training column that
    does not exist and some [x] of the test table occurs in the ideal table,
    [validate_test_data] raises the [KeyError] of that column, at the first
    such row, and prints nothing. *)
Theorem validate_missing_training_column (s : State DataHandler)
    (test_file : string) (train_col ideal_col : string)
    (rest : dict string) (test_df : DataFrame) (xs : Series)
    (r0 : nat) (x0 : Q) :
  files s test_file = Ok test_df ->
  wf_frame test_df = true ->
  In "x" (columns test_df) ->
  In "y" (columns test_df) ->
  lookup (ideal_df (self s)) "x" = Some xs ->
  lookup (train_df (self s)) train_col = None ->
  cell test_df "x" r0 = Some x0 ->
  contains xs x0 = true ->
  validate_test_data test_file ((train_col, ideal_col) :: rest) s
  = ({| self := self s; files := files s;
        trace := trace s ++ [EvReadCsv test_file;
                             EvRaise (KeyError train_col)] |},
     Raise (KeyError train_col)).
Proof.
  intros Hf Hwt Htx Hty Hix Hmiss Hcell Hc.
  set (s1 := fst (log (EvReadCsv test_file) s)).
  set (s2 := fst (log (EvRaise (KeyError train_col)) s1)).
  pose proof Htx as Htx'.
  apply In_lookup in Htx'. destruct Htx' as (xcol & Hxcol).
  pose proof Hty as Hty'.
  apply In_lookup in Hty'. destruct Hty' as (ycol & Hycol).
  assert (Hraise : forall r acc, r < nrows test_df ->
            contains xs (nth r xcol 0%Q) = true ->
            validate_row ((train_col, ideal_col) :: rest) acc
              (row_at test_df r) s1
            = (s2, Raise (KeyError train_col))).
  { intros r acc Hr Hcr.
    destruct (row_getitem_row_at _ _ _ _ Hwt Hxcol Hr) as [Hgx _].
    destruct (row_getitem_row_at _ _ _ _ Hwt Hycol Hr) as [Hgy _].
    unfold validate_row.
    rewrite (bind_ok _ _ s1 s1 (nth r xcol 0%Q)) by (now apply lib_ok).
    rewrite (bind_ok _ _ s1 s1 (nth r ycol 0%Q)) by (now apply lib_ok).
    rewrite (bind_ok _ _ s1 s1 xs) by (now apply self_getitem_ok).
    rewrite Hcr. simpl negb. cbv iota. cbn [for_each].
    apply bind_raise. unfold validate_pair. apply bind_raise.
    unfold self_getitem, bind, attr, getitem. simpl.
    rewrite Hmiss. reflexivity. }
  assert (Hloop : forall rs acc,
            (forall r, In r rs -> r < nrows test_df) ->
            (exists r, In r rs /\ contains xs (nth r xcol 0%Q) = true) ->
            for_each (map (row_at test_df) rs) acc
              (validate_row ((train_col, ideal_col) :: rest)) s1
            = (s2, Raise (KeyError train_col))).
  { induction rs as [|r rs IH]; intros acc Hrs (r' & Hin & Hr').
    - destruct Hin.
    - simpl map. cbn [for_each].
      destruct (contains xs (nth r xcol 0%Q)) eqn:E.
      + apply bind_raise. apply Hraise; [apply Hrs; now left | exact E].
      + rewrite (bind_ok _ _ s1 s1 acc).
        * apply IH; [intros r1 Hr1; apply Hrs; now right|].
          exists r'. split; [|exact Hr'].
          destruct Hin as [<-|Hin]; [congruence | exact Hin].
        * apply (validate_row_skip s1 test_df _ r acc xs xcol);
            try assumption. apply Hrs. now left. }
  unfold validate_test_data.
  rewrite (bind_ok _ _ s s1 test_df) by (now apply read_csv_ok).
  unfold iterrows.
  rewrite (bind_raise _ _ s1 s2 (KeyError train_col)).
  - unfold s2, s1, log. simpl. now rewrite <- app_assoc.
  - apply Hloop.
    + intros r Hr. apply in_seq in Hr. lia.
    + pose proof (cell_in_range _ _ _ _ Hwt Hcell) as Hr0.
      exists r0. split; [apply in_seq; lia|].
      destruct (row_getitem_row_at test_df r0 "x" xcol Hwt Hxcol Hr0)
        as [_ Hc0].
      rewrite Hcell in Hc0. injection Hc0 as <-. exact Hc.
Qed.

End Task01_validation_more.

Section Task01_validation_bounds.
Import Task01.

Lemma bind_inv_ok {S A B} (m : M S A) (k : A -> M S B) s s' b :
  bind m k s = (s', Ok b) ->
  exists s1 a, m s = (s1, Ok a) /\ k a s1 = (s', Ok b).
Proof.
  unfold bind. destruct (m s) as [s1 [a|e]]; [|discriminate].
  intros H. now exists s1, a.
Qed.

Lemma ret_inv {S A} (a b : A) (s s' : S) :
  ret a s = (s', Ok b) -> a = b.
Proof. unfold ret. now intros [= _ ->]. Qed.

(** A loop whose body adds at most [c] to a measure of its variables. *)
Lemma for_each_measure {S A B} (f : B -> nat) (c : nat) (l : list A)
    (body : B -> A -> M S B) :
  (forall acc a s s' acc',
     body acc a s = (s', Ok acc') -> f acc' <= f acc + c) ->
  forall acc s s' acc',
    for_each l acc body s = (s', Ok acc') ->
    f acc' <= f acc + List.length l * c.
Proof.
  intros Hbody. induction l as [|a l IH]; intros acc s s' acc' H.
  - apply ret_inv in H. subst. simpl. lia.
  - cbn [for_each] in H. apply bind_inv_ok in H.
    destruct H as (s1 & acc1 & H1 & H2).
    apply Hbody in H1. apply IH in H2. simpl. lia.
Qed.

Lemma validate_pair_length (x y : Q) (acc : list Hit) (item : string * string)
    (s s' : State DataHandler) (acc' : list Hit) :
  validate_pair x y acc item s = (s', Ok acc') ->
  List.length acc' <= List.length acc + 1.
Proof.
  unfold validate_pair. intros H.
  apply bind_inv_ok in H. destruct H as (s1 & t & _ & H).
  apply bind_inv_ok in H. destruct H as (s2 & i & _ & H).
  apply bind_inv_ok in H. destruct H as (s3 & xs & _ & H).
  apply bind_inv_ok in H. destruct H as (s4 & ys & _ & H).
  destruct (loc_eq xs x ys) as [|iy rest].
  - apply ret_inv in H. subst. lia.
  - destruct (le_sqrt2_times _ _); apply ret_inv in H; subst.
    + rewrite length_app. simpl. lia.
    + lia.
Qed.

Lemma validate_row_length (best_fit : dict string) (acc : list Hit) (row : Row)
    (s s' : State DataHandler) (acc' : list Hit) :
  validate_row best_fit acc row s = (s', Ok acc') ->
  List.length acc' <= List.length acc + List.length best_fit.
Proof.
  unfold validate_row. intros H.
  apply bind_inv_ok in H. destruct H as (s1 & x & _ & H).
  apply bind_inv_ok in H. destruct H as (s2 & y & _ & H).
  apply bind_inv_ok in H. destruct H as (s3 & xs & _ & H).
  destruct (negb (contains xs x)).
  - apply ret_inv in H. subst. lia.
  - apply (for_each_measure (@List.length Hit) 1) in H.
    + lia.
    + intros a it st st' a'. apply validate_pair_length.
Qed.

(** X7.  Every test row contributes at most one tuple for each entry of
    [best_fit]: a call that returns has read a table and returns at most
    (number of its rows) times (number of entries) tuples. *)
Theorem validate_result_length (test_file : string) (best_fit : dict string)
    (s s' : State DataHandler) (results : list Hit) :
  validate_test_data test_file best_fit s = (s', Ok results) ->
  exists test_df,
    files s test_file = Ok test_df /\
    List.length results <= nrows test_df * List.length best_fit.
Proof.
  unfold validate_test_data. intros H.
  apply bind_inv_ok in H. destruct H as (s1 & test_df & Hread & H).
  apply bind_inv_ok in H. destruct H as (s2 & res & Hloop & H).
  apply bind_inv_ok in H. destruct H as (s3 & u & _ & H).
  apply ret_inv in H. subst res.
  exists test_df. split.
  - unfold read_csv, bind in Hread. simpl in Hread.
    destruct (files s test_file) as [df|e]; simpl in Hread;
      [now injection Hread as _ -> | discriminate].
  - apply (for_each_measure (@List.length Hit) (List.length best_fit)) in Hloop.
    + unfold iterrows in Hloop. rewrite length_map, length_seq in Hloop.
      simpl in Hloop. exact Hloop.
    + intros a row st st' a'. apply validate_row_length.
Qed.



(** X9.  With a training table that has no row the largest training
    deviation is NaN and every comparison with it is false:
    [validate_test_data] returns the empty list. *)
Theorem validate_empty_training (s : State DataHandler) (test_file : string)
    (best_fit : dict string) (test_df : DataFrame) :
  files s test_file = Ok test_df ->
  wf_frame test_df = true ->
  In "x" (columns test_df) ->
  In "y" (columns test_df) ->
  wf_frame (ideal_df (self s)) = true ->
  In "x" (columns (ideal_df (self s))) ->
  (forall item, In item best_fit ->
     In (fst item) (columns (train_df (self s))) /\
     In (snd item) (columns (ideal_df (self s)))) ->
  wf_frame (train_df (self s)) = true ->
  nrows (train_df (self s)) = 0 ->
  exists s', validate_test_data test_file best_fit s = (s', Ok []).
Proof.
  intros Hf Hwt Htx Hty Hwi Hix Hcols Hwtr Hrows.
  destruct (validate_test_data_run s test_file best_fit test_df
              Hf Hwt Htx Hty Hwi Hix Hcols) as (results & Hrun & Hspec).
  assert (Hnil : results = []).
  { destruct results as [|hit results]; [reflexivity|]. exfalso.
    assert (Hin : In hit (hit :: results)) by (now left).
    apply Hspec in Hin.
    destruct Hin as (r & x & y & item & _ & _ & _ & Hp).
    destruct Hp as (xs & t & i & k & iy & m & _ & _ & Ht & _ & _ & _ & Hm & _).
    destruct Hm as [(j & a & b & Ha & _) _].
    pose proof (wf_frame_length _ _ _ Hwtr Ht) as Hlen.
    rewrite Hrows in Hlen. destruct t; [|discriminate].
    destruct j; discriminate. }
  subst results. eexists. exact Hrun.
Qed.

End Task01_validation_bounds.

(* ===================================================================== *)
(** * The plots of the first script                                       *)
(* ===================================================================== *)

Section Task01_plots.
Import Task01Plots.

Lemma plot_lib_getitem (df : DataFrame) (key : string) (v : Series)
    (tr : State) :
  lookup df key = Some v -> lib (getitem df key) tr = (tr, Ok v).
Proof. intros H. unfold getitem. now rewrite H. Qed.

Lemma plot_data_loop (df : DataFrame) (xs : Series) :
  NoDup (columns df) ->
  lookup df "x" = Some xs ->
  forall (cols : list (string * Series)) (acc : list Glyph) (tr : State),
    (forall c, In c cols -> In c df) ->
    for_each (map fst cols) acc (fun glyphs col =>
      xs <- lib (getitem df "x") ;;
      ys <- lib (getitem df col) ;;
      ret (glyphs ++ [Line xs ys col])) tr
    = (tr, Ok (acc ++ map (fun c => Line xs (snd c) (fst c)) cols)).
Proof.
  intros Hnd Hx. induction cols as [|[k v] cols IH]; intros acc tr Hin.
  - simpl. unfold ret. now rewrite app_nil_r.
  - simpl map. cbn [for_each].
    rewrite (bind_ok _ _ tr tr (acc ++ [Line xs v k])).
    + rewrite IH by (intros c Hc; apply Hin; now right).
      now rewrite <- app_assoc.
    + rewrite (bind_ok _ _ tr tr xs) by (now apply plot_lib_getitem).
      rewrite (bind_ok _ _ tr tr v).
      * reflexivity.
      * apply plot_lib_getitem. apply lookup_unique; [exact Hnd|].
        apply Hin. now left.
Qed.

Lemma In_firstn {A} (n : nat) (l : list A) (a : A) :
  In a (firstn n l) -> In a l.
Proof.
  revert l. induction n as [|n IH]; intros [|b l]; simpl; try tauto.
  intros [H|H]; [now left | right; now apply IH].
Qed.

(** X10.  [plot_data] draws one line for each of the columns 2 to 5 of the
    table, in column order, against the [x] column and labelled with the
    column name, and shows the figure: at most four curves, whatever the
    number of columns. *)
Theorem plot_data_first_four (df : DataFrame) (title filename : string)
    (xs : Series) (tr : State) :
  wf_frame df = true ->
  lookup df "x" = Some xs ->
  plot_data df title filename tr
  = (tr ++ [EvOutputFile filename;
            EvShow {| title := title;
                      renderers := map (fun c => Line xs (snd c) (fst c))
                                       (firstn 4 (tl df)) |}],
     Ok tt) /\
  List.length (firstn 4 (tl df)) = Nat.min 4 (List.length df - 1).
Proof.
  intros Hwf Hx. split.
  - unfold plot_data. unfold bind at 1. unfold log at 1.
    unfold columns_from_1, columns. rewrite <- map_tl, firstn_map.
    erewrite bind_ok.
    2:{ apply (plot_data_loop df xs (wf_frame_labels _ Hwf) Hx).
        intros c Hc. apply In_tl. now apply In_firstn in Hc. }
    unfold log. simpl. now rewrite <- app_assoc.
  - rewrite length_firstn. destruct df; simpl; [reflexivity|].
    now rewrite Nat.sub_0_r.
Qed.

(** X11.  On a table with a column after the first and no column labelled
    [x], [plot_data] raises [KeyError] for [x] at the first curve and shows
    nothing. *)
Theorem plot_data_without_x (df : DataFrame) (title filename : string)
    (tr : State) :
  lookup df "x" = None ->
  tl df <> [] ->
  plot_data df title filename tr
  = (tr ++ [EvOutputFile filename; EvRaise (KeyError "x")],
     Raise (KeyError "x")).
Proof.
  intros Hx Hne. unfold plot_data, bind, log, columns_from_1, columns.
  rewrite <- map_tl. destruct (tl df) as [|c cs]; [congruence|].
  simpl. unfold getitem. rewrite Hx. simpl. now rewrite <- app_assoc.
Qed.

(** X12.  On a table with at most one column [plot_data] shows a figure with
    no curve and raises nothing, whether or not that column is [x]. *)
Theorem plot_data_single_column (df : DataFrame) (title filename : string)
    (tr : State) :
  tl df = [] ->
  plot_data df title filename tr
  = (tr ++ [EvOutputFile filename;
            EvShow {| title := title; renderers := [] |}], Ok tt).
Proof.
  intros H. unfold plot_data, bind, log, columns_from_1, columns.
  rewrite <- map_tl, H. simpl. now rewrite <- app_assoc.
Qed.

(** [plot_best_fit] on a mapping whose columns exist: a scatter of the
    training column and a line of the ideal column for every entry. *)
Lemma plot_best_fit_loop (train_df ideal_df : DataFrame) (tx ix : Series) :
  lookup train_df "x" = Some tx ->
  lookup ideal_df "x" = Some ix ->
  forall (best_fit : dict string) (acc : list Glyph) (tr : State),
    (forall item, In item best_fit ->
       In (fst item) (columns train_df) /\ In (snd item) (columns ideal_df)) ->
    exists gss,
      for_each best_fit acc (fun glyphs item =>
        let train_col := fst item in
        let ideal_col := snd item in
        tx <- lib (getitem train_df "x") ;;
        ty <- lib (getitem train_df train_col) ;;
        let glyphs :=
          glyphs ++ [Scatter tx ty (String.append "Train: " train_col)] in
        ix <- lib (getitem ideal_df "x") ;;
        iy <- lib (getitem ideal_df ideal_col) ;;
        ret (glyphs ++ [Line ix iy (String.append "Ideal: " ideal_col)])) tr
      = (tr, Ok (acc ++ List.concat gss)) /\
      Forall2 (fun item gs =>
                 exists ty iy,
                   lookup train_df (fst item) = Some ty /\
                   lookup ideal_df (snd item) = Some iy /\
                   gs = pair_glyphs tx ix item ty iy)
              best_fit gss.
Proof.
  intros Htx Hix. induction best_fit as [|item bf IH]; intros acc tr Hcols.
  - exists []. simpl. unfold ret. rewrite app_nil_r. split; constructor.
  - destruct (Hcols item (or_introl eq_refl)) as [Ht Hi].
    apply In_lookup in Ht. destruct Ht as (ty & Ht).
    apply In_lookup in Hi. destruct Hi as (iy & Hi).
    destruct (IH (acc ++ pair_glyphs tx ix item ty iy) tr)
      as (gss & Hrun & Hall).
    { intros it Hit. apply Hcols. now right. }
    exists (pair_glyphs tx ix item ty iy :: gss). split.
    + cbn [for_each].
      rewrite (bind_ok _ _ tr tr (acc ++ pair_glyphs tx ix item ty iy)).
      * etransitivity; [exact Hrun|]. cbn [List.concat].
        now rewrite <- app_assoc.
      * cbv zeta.
        rewrite (bind_ok _ _ tr tr tx) by (now apply plot_lib_getitem).
        rewrite (bind_ok _ _ tr tr ty) by (now apply plot_lib_getitem).
        rewrite (bind_ok _ _ tr tr ix) by (now apply plot_lib_getitem).
        rewrite (bind_ok _ _ tr tr iy) by (now apply plot_lib_getitem).
        unfold ret, pair_glyphs. now rewrite <- app_assoc.
    + constructor; [|exact Hall]. now exists ty, iy.
Qed.

Lemma concat_pairs_length {A B} (R : A -> list B -> Prop) (l : list A)
    (gss : list (list B)) :
  (forall a gs, R a gs -> List.length gs = 2) ->
  Forall2 R l gss -> List.length (List.concat gss) = 2 * List.length l.
Proof.
  intros H2. induction 1 as [|a gs l gss Hr _ IH]; [reflexivity|].
  simpl List.concat. rewrite length_app, (H2 _ _ Hr), IH. simpl. lia.
Qed.

(** X13.  The mapping [get_best_fit_functions] returns can be passed to
    [plot_best_fit] with the two tables: no [KeyError] is raised, and the
    figure shown holds, for every entry in order, the scatter of the training
    column and the line of the chosen ideal column, two glyphs per entry. *)
Theorem best_fit_then_plot (s : Task01.State Task01.DataHandler)
    (tx ix : Series) (tr : State) :
  wf_frame (Task01.train_df (Task01.self s)) = true ->
  wf_frame (Task01.ideal_df (Task01.self s)) = true ->
  Task01.candidates (Task01.ideal_df (Task01.self s)) <> [] ->
  lookup (Task01.train_df (Task01.self s)) "x" = Some tx ->
  lookup (Task01.ideal_df (Task01.self s)) "x" = Some ix ->
  exists s1 best_fit gss,
    Task01.get_best_fit_functions s = (s1, Ok best_fit) /\
    plot_best_fit best_fit (Task01.train_df (Task01.self s))
      (Task01.ideal_df (Task01.self s)) tr
    = (tr ++ [EvOutputFile "best_fit.html";
              EvShow {| title := "Best Fit Functions";
                        renderers := List.concat gss |}], Ok tt) /\
    Forall2 (fun item gs =>
               exists ty iy,
                 lookup (Task01.train_df (Task01.self s)) (fst item) = Some ty /\
                 lookup (Task01.ideal_df (Task01.self s)) (snd item) = Some iy /\
                 gs = pair_glyphs tx ix item ty iy)
            best_fit gss /\
    List.length (List.concat gss) = 2 * List.length best_fit.
Proof.
  intros Hwt Hwi Hne Htx Hix.
  destruct (get_best_fit_functions_run s Hwt Hwi Hne) as (bf & Hrun & Hall).
  destruct (plot_best_fit_loop _ _ tx ix Htx Hix bf []
              (tr ++ [EvOutputFile "best_fit.html"])
              (best_fit_columns_exist (Task01.self s) bf Hall))
    as (gss & Hloop & Hgs).
  eexists _, bf, gss. split; [exact Hrun|]. split; [|split].
  - unfold plot_best_fit. unfold bind at 1. unfold log at 1.
    erewrite bind_ok by exact Hloop.
    unfold log. simpl. now rewrite <- app_assoc.
  - exact Hgs.
  - eapply concat_pairs_length; [|exact Hgs].
    intros a gs (ty & iy & _ & _ & ->). reflexivity.
Qed.

End Task01_plots.

(* ===================================================================== *)
(** * The range test of the first script                                  *)
(* ===================================================================== *)

Section Task01_range_test.
Import Task01Plots.





End Task01_range_test.

(* ===================================================================== *)
(** * More on the second script                                           *)
(* ===================================================================== *)

Section Task02_more.
Import Task02 Task02Kinds.

(** X15.  When the dataset cannot be read, [main] raises the exception of
    [pd.read_csv] at once: no test is run and no figure is displayed. *)
Theorem main_missing_dataset (file_path : string) (s : State) (e : exn) :
  files s file_path = Raise e ->
  main file_path s = (extend s [EvReadCsv file_path; EvRaise e], Raise e).
Proof.
  intros H. unfold main. apply bind_raise. now apply load_data_raise.
Qed.

(** X16.  When the dataset has no thermal-conductivity column (and the
    charting calls return), [main] displays the heatmap and the scatter
    plot, raises the [KeyError] of that column in [plot_histogram], and
    displays none of the plots after it. *)
Theorem main_stops_at_histogram (file_path : string) (s : State)
    (data : Table) :
  files s file_path = Ok data ->
  (forall fig, charts s fig = Ok tt) ->
  lookup data thermal_conductivity = None ->
  exists evs,
    main file_path s = (extend s evs, Raise (KeyError thermal_conductivity)) /\
    shown evs = [Heatmap (preprocess_data data);
                 ScatterBokeh data flow_velocity heat_transfer].
Proof.
  intros Hf Hc Hmiss.
  destruct (unittest_main_run (extend s [EvReadCsv file_path]))
    as (evs1 & Hrun1 & _ & Hs1).
  exists ([EvReadCsv file_path] ++ evs1 ++
          [EvShow (Heatmap (preprocess_data data));
           EvShow (ScatterBokeh data flow_velocity heat_transfer);
           EvRaise (KeyError thermal_conductivity)]).
  split.
  - unfold main.
    rewrite (bind_ok _ _ s _ data (load_data_ok _ _ _ Hf)).
    cbv zeta. rewrite (bind_ok _ _ _ _ tt Hrun1).
    unfold plot_heatmap, plot_scatter_bokeh, plot_histogram.
    erewrite bind_ok by (apply draw_ok; apply Hc).
    erewrite bind_ok by (apply draw_ok; apply Hc).
    apply bind_raise. apply bind_raise.
    unfold getitem. rewrite Hmiss. unfold lib, bind, log, extend. simpl.
    now rewrite <- !app_assoc.
  - rewrite !shown_app, Hs1. reflexivity.
Qed.

(** ** The plots come in order *)

Lemma plot_step_draw (fig : Figure) : plot_step (kind_of fig) (draw fig).
Proof.
  intros s. unfold draw, build, bind.
  destruct (charts s fig) as [[]|e] eqn:E; simpl.
  - exists [EvShow fig]. split; [reflexivity|]. left. now split.
  - exists [EvRaise e]. split; [reflexivity|]. right. split; [now exists e|].
    reflexivity.
Qed.

Lemma plot_step_getitem (data : Table) (key : string) (k : PlotKind)
    (body : Column -> M State unit) :
  (forall c, plot_step k (body c)) ->
  plot_step k (c <- lib (getitem data key) ;; body c).
Proof.
  intros Hbody s. unfold bind.
  destruct (getitem data key) as [c|e]; simpl.
  - apply Hbody.
  - exists [EvRaise e]. split; [reflexivity|]. right. split; [now exists e|].
    reflexivity.
Qed.

Lemma plots_prefix_step (k : PlotKind) (ks : list PlotKind)
    (m rest : M State unit) :
  plot_step k m -> plots_prefix ks rest -> plots_prefix (k :: ks) (m ;;; rest).
Proof.
  intros Hm Hrest s. unfold bind.
  destruct (Hm s) as (evs & Hfst & [[Hok Hk]|[(e & He) Hnone]]).
  - destruct (m s) as [s1 r]. simpl in Hfst, Hok. subst s1 r.
    destruct (Hrest (extend s evs)) as (evs' & n & Hfst' & Hks & Hall).
    exists (evs ++ evs'), (S n). split; [|split].
    + rewrite Hfst'. apply extend_extend.
    + rewrite shown_app, map_app, Hk, Hks. reflexivity.
    + intros H. simpl. f_equal. now apply Hall.
  - destruct (m s) as [s1 r]. simpl in Hfst, He. subst s1 r.
    exists evs, 0. split; [reflexivity|]. split; [now rewrite Hnone|].
    discriminate.
Qed.

Lemma plots_prefix_done (ev : Event) :
  shown [ev] = [] -> plots_prefix [] (log ev).
Proof.
  intros H s. exists [ev], 0. split; [reflexivity|]. split; [|reflexivity].
  now rewrite H.
Qed.

Lemma battery_prefix (data numeric_data : Table) :
  plots_prefix battery
    (plot_heatmap numeric_data ;;;
     plot_scatter_bokeh data ;;;
     plot_histogram data ;;;
     plot_bar data ;;;
     plot_boxplot data ;;;
     plot_3d_scatter_plot data flow_velocity heat_transfer viscosity ;;;
     log (EvPrint "All visualizations generated successfully!")).
Proof.
  unfold battery.
  apply plots_prefix_step; [apply (plot_step_draw (Heatmap numeric_data))|].
  apply plots_prefix_step;
    [apply (plot_step_draw (ScatterBokeh data flow_velocity heat_transfer))|].
  apply plots_prefix_step.
  { unfold plot_histogram. apply plot_step_getitem.
    intros c. apply (plot_step_draw (Histogram c)). }
  apply plots_prefix_step;
    [apply (plot_step_draw (BarPlot data nanoparticle_type heat_transfer))|].
  apply plots_prefix_step;
    [apply (plot_step_draw (BoxPlot data nanoparticle_type viscosity))|].
  apply plots_prefix_step.
  { unfold plot_3d_scatter_plot.
    do 4 (apply plot_step_getitem; intros ?).
    apply (plot_step_draw (Scatter3d _ _ _ _ _ _ _)). }
  now apply plots_prefix_done.
Qed.

(** X17.  Whatever the files and the charting calls do, the figures [main]
    displays are, in order, the first plots of the battery (heatmap,
    scatter, histogram, bar, box, 3D scatter): a plot is never displayed
    after a later one or after a failed one, and all six are displayed when
    [main] returns. *)
Theorem main_plots_prefix (file_path : string) (s : State) :
  exists evs n,
    fst (main file_path s) = extend s evs /\
    map kind_of (shown evs) = firstn n battery /\
    (snd (main file_path s) = Ok tt -> n = 6).
Proof.
  unfold main. destruct (files s file_path) as [data|e] eqn:E.
  - rewrite (bind_ok _ _ s _ data (load_data_ok _ _ _ E)). cbv zeta.
    destruct (unittest_main_run (extend s [EvReadCsv file_path]))
      as (evs1 & Hrun1 & _ & Hs1).
    rewrite (bind_ok _ _ _ _ tt Hrun1).
    destruct (battery_prefix data (preprocess_data data)
                (extend (extend s [EvReadCsv file_path]) evs1))
      as (evs2 & n & Hfst & Hks & Hall).
    exists ([EvReadCsv file_path] ++ evs1 ++ evs2), n. split; [|split].
    + rewrite Hfst, !extend_extend. rewrite <- ?app_assoc. reflexivity.
    + rewrite !shown_app, Hs1. exact Hks.
    + exact Hall.
  - rewrite (bind_raise _ _ s _ e (load_data_raise _ _ _ E)).
    exists [EvReadCsv file_path; EvRaise e], 0.
    split; [reflexivity|]. split; [reflexivity | discriminate].
Qed.

End Task02_more.

Section Task02_tests.
Import Task02 Task02Kinds.

Lemma run_test_loaded (test : Table * Table -> M State unit) (s : State)
    (data : Table) :
  files s fixture_path = Ok data ->
  run_test test s
  = (fst (test (data, preprocess_data data)
            (extend s [EvReadCsv fixture_path])),
     Ok (verdict_of (snd (test (data, preprocess_data data)
                            (extend s [EvReadCsv fixture_path]))))).
Proof.
  intros H. unfold run_test, setUp, bind, load_data, bind. simpl.
  rewrite H. simpl.
  now destruct (test (data, preprocess_data data) _).
Qed.

Lemma run_test_unreadable (test : Table * Table -> M State unit) (s : State)
    (e : exn) :
  files s fixture_path = Raise e ->
  run_test test s
  = (extend s [EvReadCsv fixture_path; EvRaise e], Ok Errored).
Proof.
  intros H. unfold run_test.
  assert (Hs : setUp s
               = (extend s [EvReadCsv fixture_path; EvRaise e], Raise e)).
  { unfold setUp. apply bind_raise. now apply load_data_raise. }
  now rewrite Hs.
Qed.

Lemma last_event_last (l : list Event) (ev : Event) :
  last_event (l ++ [ev]) = Some ev.
Proof. unfold last_event. rewrite map_app. apply last_last. Qed.

(** The outcome of an assertion as a verdict. *)
Lemma assertion_verdict (holds : bool) (msg : string) (s : State) :
  exists evs,
    fst (assertion holds msg s) = extend s evs /\
    verdict_of (snd (assertion holds msg s))
    = if holds then Passed else Failed.
Proof.
  destruct holds; simpl.
  - exists []. now rewrite extend_nil.
  - now exists [EvRaise (AssertionError msg)].
Qed.

Lemma test_scatter_plot_verdict (fx : Table * Table) (s : State) :
  exists evs,
    fst (test_scatter_plot fx s) = extend s evs /\
    verdict_of (snd (test_scatter_plot fx s))
    = match charts s (ScatterBokeh (fst fx) flow_velocity heat_transfer) with
      | Ok _ => Passed
      | Raise _ => Failed
      end.
Proof.
  unfold test_scatter_plot, try_except, build, bind.
  destruct (charts s (ScatterBokeh (fst fx) flow_velocity heat_transfer))
    as [[]|e]; simpl.
  - exists []. now rewrite extend_nil.
  - exists [EvRaise e;
            EvRaise (AssertionError "Scatter plot generation failed!")].
    split; [|reflexivity]. unfold extend. simpl. now rewrite <- app_assoc.
Qed.

(** One test method on a readable fixture, given what its body does. *)
Lemma run_test_step (test : Table * Table -> M State unit) (s : State)
    (data : Table) (vs : list Verdict) (v : Verdict) :
  files s fixture_path = Ok data ->
  (forall s', exists evs,
     fst (test (data, preprocess_data data) s') = extend s' evs /\
     (charts s' = charts s ->
      verdict_of (snd (test (data, preprocess_data data) s')) = v)) ->
  exists evs,
    (x <- run_test test ;; ret (vs ++ [x])) s = (extend s evs, Ok (vs ++ [v])).
Proof.
  intros Hf Hbody.
  destruct (Hbody (extend s [EvReadCsv fixture_path])) as (evs & Hfst & Hv).
  exists ([EvReadCsv fixture_path] ++ evs).
  unfold bind. rewrite (run_test_loaded test s data Hf).
  rewrite Hfst, Hv by reflexivity. now rewrite extend_extend.
Qed.

Lemma run_test_step_unreadable (test : Table * Table -> M State unit)
    (s : State) (e : exn) (vs : list Verdict) :
  files s fixture_path = Raise e ->
  (x <- run_test test ;; ret (vs ++ [x])) s
  = (extend s [EvReadCsv fixture_path; EvRaise e], Ok (vs ++ [Errored])).
Proof.
  intros H. unfold bind. now rewrite (run_test_unreadable test s e H).
Qed.

(** X18.  [unittest.main(argv=[''], exit=False)] always returns normally and
    ends with a report of four verdicts.  When the fixture's dataset cannot
    be read every method ends in an error.  When it can, no method does:
    [test_data_loading] fails on an empty dataset, [test_missing_values]
    fails when a cell is missing, [test_numeric_columns] fails without a
    numeric column, and an
    exception of the charting calls in [test_scatter_plot] is caught and
    reported as a failure. *)
Theorem unittest_main_report (s : State) :
  exists evs,
    unittest_main s = (extend s evs, Ok tt) /\
    last_event evs = Some (EvTestReport (expected_verdicts s)).
Proof.
  unfold expected_verdicts, unittest_main, test_methods. cbn [for_each].
  destruct (files s fixture_path) as [data|e] eqn:E.
  - destruct (run_test_step test_data_loading s data []
                (if empty data then Failed else Passed) E)
      as (evs1 & H1).
    { intros s'. unfold test_data_loading. simpl fst.
      destruct (assertion_verdict (negb (empty data)) "Dataset is empty!" s')
        as (evs & Hf & Hv).
      exists evs. split; [exact Hf|]. intros _. rewrite Hv.
      now destruct (empty data). }
    destruct (run_test_step test_missing_values (extend s evs1) data
                ([] ++ [if empty data then Failed else Passed])
                (if Nat.eqb (isnull_count data) 0 then Passed else Failed) E)
      as (evs2 & H2).
    { intros s'. unfold test_missing_values. cbv zeta. simpl fst.
      destruct (assertion_verdict (Nat.eqb (isnull_count data) 0)
                  (String.append "Dataset contains "
                     (String.append
                        (NilZero.string_of_uint
                           (Nat.to_uint (isnull_count data)))
                        " missing values!")) s') as (evs & Hf & Hv).
      exists evs. split; [exact Hf|]. intros _. exact Hv. }
    destruct (run_test_step test_numeric_columns
                (extend (extend s evs1) evs2) data
                (([] ++ [if empty data then Failed else Passed]) ++
                 [if Nat.eqb (isnull_count data) 0 then Passed else Failed])
                (if Nat.ltb 0 (List.length (labels (preprocess_data data)))
                 then Passed else Failed) E)
      as (evs3 & H3).
    { intros s'. unfold test_numeric_columns. simpl snd.
      destruct (assertion_verdict
                  (Nat.ltb 0 (List.length (labels (preprocess_data data))))
                  "No numeric columns found!" s') as (evs & Hf & Hv).
      exists evs. split; [exact Hf|]. intros _. exact Hv. }
    destruct (run_test_step test_scatter_plot
                (extend (extend (extend s evs1) evs2) evs3) data
                ((([] ++ [if empty data then Failed else Passed]) ++
                  [if Nat.eqb (isnull_count data) 0 then Passed else Failed])
                 ++ [if Nat.ltb 0 (List.length (labels (preprocess_data data)))
                     then Passed else Failed])
                (match charts s (ScatterBokeh data flow_velocity heat_transfer)
                 with Ok _ => Passed | Raise _ => Failed end) E)
      as (evs4 & H4).
    { intros s'.
      destruct (test_scatter_plot_verdict (data, preprocess_data data) s')
        as (evs & Hf & Hv).
      exists evs. split; [exact Hf|]. intros Hc. rewrite Hv. simpl fst.
      now rewrite Hc. }
    exists ((evs1 ++ evs2 ++ evs3 ++ evs4) ++
            [EvTestReport
               [if empty data then Failed else Passed;
                if Nat.eqb (isnull_count data) 0 then Passed else Failed;
                if Nat.ltb 0 (List.length (labels (preprocess_data data)))
                then Passed else Failed;
                match charts s (ScatterBokeh data flow_velocity heat_transfer)
                with Ok _ => Passed | Raise _ => Failed end]]).
    split; [|apply last_event_last].
    erewrite bind_ok.
    2:{ erewrite bind_ok by exact H1.
        erewrite bind_ok by exact H2.
        erewrite bind_ok by exact H3.
        erewrite bind_ok by exact H4.
        reflexivity. }
    unfold log. simpl. unfold extend. simpl. now rewrite <- !app_assoc.
  - exists ([EvReadCsv fixture_path; EvRaise e;
             EvReadCsv fixture_path; EvRaise e;
             EvReadCsv fixture_path; EvRaise e;
             EvReadCsv fixture_path; EvRaise e] ++
            [EvTestReport [Errored; Errored; Errored; Errored]]).
    split; [|apply last_event_last].
    erewrite bind_ok.
    2:{ erewrite bind_ok by (apply run_test_step_unreadable; exact E).
        erewrite bind_ok by (apply run_test_step_unreadable; exact E).
        erewrite bind_ok by (apply run_test_step_unreadable; exact E).
        erewrite bind_ok by (apply run_test_step_unreadable; exact E).
        reflexivity. }
    unfold log. simpl. unfold extend. simpl. now rewrite <- !app_assoc.
Qed.

End Task02_tests.

(* ===================================================================== *)
(** * The further theorems on the sample data                             *)
(* ===================================================================== *)

Lemma best_fit_no_training_curve_sample :
  Task01.get_best_fit_functions
    {| Task01.self := {| Task01.ideal_df := [("x", [1; 2; 3]%Q)];
                         Task01.train_df := [("x", [1; 2; 3]%Q)] |};
       Task01.files := Sample.disk; Task01.trace := [] |}
  = ({| Task01.self := {| Task01.ideal_df := [("x", [1; 2; 3]%Q)];
                          Task01.train_df := [("x", [1; 2; 3]%Q)] |};
        Task01.files := Sample.disk;
        Task01.trace := [Task01.EvPrint (Task01.PrintBestFit [])] |}, Ok []).
Proof.
  apply (best_fit_no_training_curve
           {| Task01.self := {| Task01.ideal_df := [("x", [1; 2; 3]%Q)];
                                Task01.train_df := [("x", [1; 2; 3]%Q)] |};
              Task01.files := Sample.disk; Task01.trace := [] |}).
  reflexivity.
Defined.

Lemma best_fit_no_candidate_sample :
  Task01.get_best_fit_functions
    {| Task01.self := {| Task01.ideal_df := [("x", [1; 2; 3]%Q)];
                         Task01.train_df := Sample.train |};
       Task01.files := Sample.disk; Task01.trace := [] |}
  = ({| Task01.self := {| Task01.ideal_df := [("x", [1; 2; 3]%Q)];
                          Task01.train_df := Sample.train |};
        Task01.files := Sample.disk;
        Task01.trace :=
          [Task01.EvRaise (ValueError "min() arg is an empty sequence")] |},
     Raise (ValueError "min() arg is an empty sequence")).
Proof.
  apply (best_fit_no_candidate
           {| Task01.self := {| Task01.ideal_df := [("x", [1; 2; 3]%Q)];
                                Task01.train_df := Sample.train |};
              Task01.files := Sample.disk; Task01.trace := [] |});
    [discriminate | reflexivity].
Defined.

Lemma best_fit_then_validate_sample :
  exists s1 best_fit s2 results,
    Task01.get_best_fit_functions Sample.state = (s1, Ok best_fit) /\
    Task01.validate_test_data "test.csv" best_fit s1 = (s2, Ok results) /\
    forall x y ideal_col deviation,
      In (x, y, ideal_col, deviation) results ->
      In ideal_col (map snd best_fit).
Proof.
  apply (best_fit_then_validate Sample.state "test.csv" Sample.test);
    try reflexivity; try discriminate; simpl; auto.
Defined.

Lemma validate_no_matching_row_sample :
  Task01.validate_test_data "off_grid.csv" [("nowhere", "nothing")]
    SampleExtra.state
  = (fst (Task01.print (Task01.PrintValidated [])
            (fst (Task01.log (Task01.EvReadCsv "off_grid.csv")
                    SampleExtra.state))), Ok []).
Proof.
  apply (validate_no_matching_row SampleExtra.state "off_grid.csv"
           [("nowhere", "nothing")] SampleExtra.off_grid [1; 2; 3]%Q).
  - reflexivity.
  - reflexivity.
  - simpl. auto.
  - simpl. auto.
  - reflexivity.
  - intros [|[|r]] x; simpl; intros H; try (injection H as <-; reflexivity).
    destruct r; discriminate.
Defined.

Lemma validate_missing_training_column_sample :
  Task01.validate_test_data "test.csv" [("nowhere", "y1")] Sample.state
  = ({| Task01.self := Sample.handler; Task01.files := Sample.disk;
        Task01.trace := [Task01.EvReadCsv "test.csv";
                         Task01.EvRaise (KeyError "nowhere")] |},
     Raise (KeyError "nowhere")).
Proof.
  apply (validate_missing_training_column Sample.state "test.csv"
           "nowhere" "y1" [] Sample.test [1; 2; 3]%Q 0 1%Q);
    try reflexivity; simpl; auto.
Defined.

Lemma validate_result_length_sample :
  exists test_df,
    Task01.files Sample.state "test.csv" = Ok test_df /\
    3 <= nrows test_df * 4.
Proof.
  apply (validate_result_length "test.csv" Sample.best_fit Sample.state
           (fst (Task01.validate_test_data "test.csv" Sample.best_fit
                   Sample.state))
           [(1, 1, "y2", 1); (1, 1, "y1", 0); (1, 1, "y1", 0)]%Q).
  vm_compute. reflexivity.
Defined.


Lemma validate_empty_training_sample :
  exists s',
    Task01.validate_test_data "test.csv" Sample.best_fit
      {| Task01.self := {| Task01.ideal_df := Sample.ideal;
                           Task01.train_df := SampleExtra.no_rows |};
         Task01.files := Sample.disk; Task01.trace := [] |}
    = (s', Ok []).
Proof.
  apply (validate_empty_training
           {| Task01.self := {| Task01.ideal_df := Sample.ideal;
                                Task01.train_df := SampleExtra.no_rows |};
              Task01.files := Sample.disk; Task01.trace := [] |}
           "test.csv" Sample.best_fit Sample.test);
    try reflexivity; try (simpl; auto; fail).
  intros item H. simpl in H.
  repeat (destruct H as [<-|H]; [simpl; auto 10|]). contradiction.
Defined.

Lemma plot_data_first_four_sample :
  Task01Plots.plot_data SampleExtra.wide "Ideal Functions"
    "ideal_functions.html" []
  = ([Task01Plots.EvOutputFile "ideal_functions.html";
      Task01Plots.EvShow
        {| Task01Plots.title := "Ideal Functions";
           Task01Plots.renderers :=
             [Task01Plots.Line [1; 2] [1; 1] "y1";
              Task01Plots.Line [1; 2] [2; 2] "y2";
              Task01Plots.Line [1; 2] [3; 3] "y3";
              Task01Plots.Line [1; 2] [4; 4] "y4"]%Q |}], Ok tt) /\
  4 = Nat.min 4 (7 - 1).
Proof.
  apply (plot_data_first_four SampleExtra.wide "Ideal Functions"
           "ideal_functions.html" [1; 2]%Q []); reflexivity.
Defined.

Lemma plot_data_without_x_sample :
  Task01Plots.plot_data [("a", [1]%Q); ("b", [2]%Q)] "Training Data"
    "training_data.html" []
  = ([Task01Plots.EvOutputFile "training_data.html";
      Task01Plots.EvRaise (KeyError "x")], Raise (KeyError "x")).
Proof.
  apply (plot_data_without_x [("a", [1]%Q); ("b", [2]%Q)] "Training Data"
           "training_data.html" []); [reflexivity | discriminate].
Defined.

Lemma plot_data_single_column_sample :
  Task01Plots.plot_data [("a", [1]%Q)] "Training Data"
    "training_data.html" []
  = ([Task01Plots.EvOutputFile "training_data.html";
      Task01Plots.EvShow {| Task01Plots.title := "Training Data";
                            Task01Plots.renderers := [] |}], Ok tt).
Proof.
  apply (plot_data_single_column [("a", [1]%Q)] "Training Data"
           "training_data.html" []). reflexivity.
Defined.

Lemma best_fit_then_plot_sample :
  exists s1 best_fit gss,
    Task01.get_best_fit_functions Sample.state = (s1, Ok best_fit) /\
    Task01Plots.plot_best_fit best_fit Sample.train Sample.ideal []
    = ([Task01Plots.EvOutputFile "best_fit.html";
        Task01Plots.EvShow
          {| Task01Plots.title := "Best Fit Functions";
             Task01Plots.renderers := List.concat gss |}], Ok tt) /\
    Forall2 (fun item gs =>
               exists ty iy,
                 lookup Sample.train (fst item) = Some ty /\
                 lookup Sample.ideal (snd item) = Some iy /\
                 gs = Task01Plots.pair_glyphs [1; 2; 3]%Q [1; 2; 3]%Q
                        item ty iy)
            best_fit gss /\
    List.length (List.concat gss) = 2 * List.length best_fit.
Proof.
  apply (best_fit_then_plot Sample.state [1; 2; 3]%Q [1; 2; 3]%Q []);
    try reflexivity; discriminate.
Defined.

Lemma main_missing_dataset_sample :
  Task02.main "data.csv" SampleExtra.world_no_file
  = (Task02.extend SampleExtra.world_no_file
       [Task02.EvReadCsv "data.csv"; Task02.EvRaise (OSError "data.csv")],
     Raise (OSError "data.csv")).
Proof.
  apply (main_missing_dataset "data.csv" SampleExtra.world_no_file
           (OSError "data.csv")). reflexivity.
Defined.

Lemma main_stops_at_histogram_sample :
  exists evs,
    Task02.main "data.csv" SampleExtra.world_no_thermal
    = (Task02.extend SampleExtra.world_no_thermal evs,
       Raise (KeyError Task02.thermal_conductivity)) /\
    Task02.shown evs
    = [Task02.Heatmap (Task02.preprocess_data SampleExtra.no_thermal);
       Task02.ScatterBokeh SampleExtra.no_thermal Task02.flow_velocity
         Task02.heat_transfer].
Proof.
  apply (main_stops_at_histogram "data.csv" SampleExtra.world_no_thermal
           SampleExtra.no_thermal); reflexivity.
Defined.

(* ===================================================================== *)
(** * The least-squares choice in the arithmetic of the columns           *)
(* ===================================================================== *)

Section Dtyped_best_fit.
Import Dtyped.

Lemma d_wf_frame_labels {V} (df : list (string * list V)) :
  wf_frame df = true -> NoDup (columns df).
Proof.
  unfold wf_frame. rewrite andb_true_iff. intros [H _].
  now apply unique_labels_NoDup.
Qed.


(** The scan of [min] keeps the first item of least value, for a comparison
    that orders the values met. *)
Lemma d_min_from_split {A} (ok : num A -> Prop) (Hord : ordered A ok)
    (rest pre mid : dict (num A)) (best : string * num A) :
  (forall kv, In kv pre -> ok (snd kv)) ->
  ok (snd best) ->
  (forall kv, In kv mid -> ok (snd kv)) ->
  (forall kv, In kv rest -> ok (snd kv)) ->
  (forall kv, In kv pre -> vltb A (snd best) (snd kv) = true) ->
  (forall kv, In kv mid -> vltb A (snd kv) (snd best) = false) ->
  exists pre' v post,
    pre ++ best :: mid ++ rest = pre' ++ (min_from best rest, v) :: post /\
    (forall kv, In kv pre' -> vltb A v (snd kv) = true) /\
    (forall kv, In kv post -> vltb A (snd kv) v = false).
Proof.
  destruct Hord as [Hasym Hbelow].
  revert pre mid best.
  induction rest as [|kv r IH];
    intros pre mid best Hokp Hokb Hokm Hokr Hpre Hmid; simpl.
  - exists pre, (snd best), mid. rewrite app_nil_r.
    destruct best as [k v]. simpl in *. auto.
  - assert (Hokkv : ok (snd kv)) by (apply Hokr; now left).
    assert (Hokr' : forall x, In x r -> ok (snd x))
      by (intros x Hx; apply Hokr; now right).
    destruct (vltb A (snd kv) (snd best)) eqn:E.
    + destruct (IH (pre ++ best :: mid) [] kv)
        as (pre' & v & post & Heq & H1 & H2).
      * intros x Hx. apply in_app_or in Hx.
        destruct Hx as [Hx|[Hx|Hx]]; [auto | now subst x | auto].
      * exact Hokkv.
      * intros x [].
      * exact Hokr'.
      * intros x Hx. apply in_app_or in Hx. destruct Hx as [Hx|[Hx|Hx]].
        -- apply (Hbelow _ (snd best)); auto.
        -- subst x. exact E.
        -- apply (Hbelow _ (snd best)); auto.
      * intros x [].
      * exists pre', v, post. split; [|auto].
        rewrite <- Heq. simpl. rewrite <- app_assoc. reflexivity.
    + destruct (IH pre (mid ++ [kv]) best)
        as (pre' & v & post & Heq & H1 & H2).
      * exact Hokp.
      * exact Hokb.
      * intros x Hx. apply in_app_or in Hx.
        destruct Hx as [Hx|[Hx|[]]]; [auto | now subst x].
      * exact Hokr'.
      * exact Hpre.
      * intros x Hx. apply in_app_or in Hx.
        destruct Hx as [Hx|[Hx|[]]]; [auto | now subst x].
      * exists pre', v, post. split; [|auto].
        rewrite <- Heq. rewrite <- app_assoc. reflexivity.
Qed.

Lemma d_min_by_value_split {A} (ok : num A -> Prop) (Hord : ordered A ok)
    (d : dict (num A)) :
  (forall kv, In kv d -> ok (snd kv)) ->
  d <> [] ->
  exists k pre v post,
    min_by_value d = Ok k /\
    d = pre ++ (k, v) :: post /\
    (forall kv, In kv pre -> vltb A v (snd kv) = true) /\
    (forall kv, In kv post -> vltb A (snd kv) v = false).
Proof.
  destruct d as [|best rest]; [congruence|]. intros Hok _.
  destruct (d_min_from_split ok Hord rest [] [] best)
    as (pre & v & post & Heq & H1 & H2).
  - intros ? [].
  - apply Hok. now left.
  - intros ? [].
  - intros x Hx. apply Hok. now right.
  - intros ? [].
  - intros ? [].
  - exists (min_from best rest), pre, v, post. simpl in *. auto.
Qed.

Lemma d_min_by_value_total {A} (d : dict (num A)) :
  d <> [] -> exists k, min_by_value d = Ok k.
Proof. destruct d as [|best rest]; [congruence|]. intros _. simpl. eauto. Qed.

Lemma d_self_getitem_ok {A} (field : DataHandler A -> Frame A) key v
    (s : State A) :
  lookup (field (self s)) key = Some v ->
  self_getitem field key s = (s, Ok v).
Proof.
  intros H. unfold self_getitem, attr, bind, lib, getitem. cbn beta iota.
  unfold Series in *. now rewrite H.
Qed.

Lemma d_deviations_loop {A} (h : DataHandler A) col tv :
  lookup (train_df h) col = Some tv ->
  NoDup (columns (ideal_df h)) ->
  forall (cands : list (string * Series A)) (acc : dict (num A))
         (s : State A),
    self s = h ->
    (forall c, In c cands -> In c (ideal_df h)) ->
    NoDup (map fst acc ++ map fst cands) ->
    for_each (map fst cands) acc (fun deviations ideal_col =>
      t <- self_getitem train_df col ;;
      i <- self_getitem ideal_df ideal_col ;;
      ret (dict_set deviations ideal_col (sum_sq_diff t i))) s
    = (s, Ok (acc ++ map (fun c => (fst c, sum_sq_diff tv (snd c))) cands)).
Proof.
  intros Ht Hnd. induction cands as [|[k v] cands IH]; intros acc s Hs Hin Hfresh.
  - simpl. unfold ret. now rewrite app_nil_r.
  - simpl map. cbn [for_each].
    assert (Hk : lookup (ideal_df h) k = Some v).
    { apply lookup_unique; [exact Hnd | apply Hin; now left]. }
    assert (Hfr : ~ In k (map fst acc)).
    { apply NoDup_remove_2 in Hfresh. intros Hc. apply Hfresh.
      apply in_or_app. now left. }
    rewrite (bind_ok _ _ s s (dict_set acc k (sum_sq_diff tv v))).
    + rewrite IH.
      * rewrite dict_set_fresh by exact Hfr. now rewrite <- app_assoc.
      * assumption.
      * intros c Hc. apply Hin. now right.
      * rewrite dict_set_fresh by exact Hfr.
        rewrite map_app. simpl. rewrite <- app_assoc. exact Hfresh.
    + rewrite (bind_ok _ _ s s tv)
        by (apply d_self_getitem_ok; now rewrite Hs).
      rewrite (bind_ok _ _ s s v)
        by (apply d_self_getitem_ok; now rewrite Hs).
      reflexivity.
Qed.

Lemma d_deviations_for_run {A} (s : State A) col tv :
  lookup (train_df (self s)) col = Some tv ->
  NoDup (columns (ideal_df (self s))) ->
  deviations_for col s = (s, Ok (deviations_value (self s) tv)).
Proof.
  intros Ht Hnd. unfold deviations_for, deviations_value, candidates.
  unfold bind at 1. unfold attr. unfold columns_from_1, columns.
  rewrite <- map_tl.
  apply (d_deviations_loop (self s) col tv Ht Hnd (tl (ideal_df (self s))) [] s).
  - reflexivity.
  - intros c Hc. now apply In_tl.
  - simpl. rewrite map_tl. now apply NoDup_tl.
Qed.

Lemma d_best_fit_loop {A} (h : DataHandler A) :
  NoDup (columns (train_df h)) ->
  NoDup (columns (ideal_df h)) ->
  candidates (ideal_df h) <> [] ->
  forall (tcands : list (string * Series A)) (acc : dict string)
         (s : State A),
    self s = h ->
    (forall c, In c tcands -> In c (train_df h)) ->
    NoDup (map fst acc ++ map fst tcands) ->
    exists bf,
      for_each (map fst tcands) acc (fun best_fit col =>
        deviations <- deviations_for col ;;
        best <- lib (min_by_value deviations) ;;
        ret (dict_set best_fit col best)) s
      = (s, Ok (acc ++ bf)) /\
      Forall2 (fun c kv => fst kv = fst c /\ chosen_by h c (snd kv))
              tcands bf.
Proof.
  intros Hndt Hndi Hne.
  induction tcands as [|[k v] tcands IH]; intros acc s Hs Hin Hfresh.
  - exists []. simpl. unfold ret. rewrite app_nil_r. split; constructor.
  - simpl map. cbn [for_each].
    assert (Hk : lookup (train_df (self s)) k = Some v).
    { rewrite Hs. apply lookup_unique; [exact Hndt | apply Hin; now left]. }
    assert (Hd : deviations_value h v <> []).
    { unfold deviations_value. destruct (candidates (ideal_df h));
        [congruence | discriminate]. }
    destruct (d_min_by_value_total _ Hd) as (best & Hbest).
    assert (Hfr : ~ In k (map fst acc)).
    { apply NoDup_remove_2 in Hfresh. intros Hc. apply Hfresh.
      apply in_or_app. now left. }
    destruct (IH (acc ++ [(k, best)]) s Hs) as (bf & Hrun & Hall).
    + intros c Hc. apply Hin. now right.
    + rewrite map_app. simpl. rewrite <- app_assoc. exact Hfresh.
    + exists ((k, best) :: bf). split.
      * rewrite (bind_ok _ _ s s (dict_set acc k best)).
        -- rewrite dict_set_fresh by exact Hfr.
           etransitivity; [exact Hrun|]. now rewrite <- app_assoc.
        -- rewrite (bind_ok _ _ s s (deviations_value h v)).
           ++ rewrite Hbest. reflexivity.
           ++ rewrite <- Hs. apply d_deviations_for_run; [exact Hk|].
              now rewrite Hs.
      * constructor; [|exact Hall]. simpl. auto.
Qed.

(** [get_best_fit_functions], run on well-formed tables with a candidate. *)
Lemma d_get_best_fit_functions_run {A} (s : State A) :
  wf_frame (train_df (self s)) = true ->
  wf_frame (ideal_df (self s)) = true ->
  candidates (ideal_df (self s)) <> [] ->
  exists bf,
    get_best_fit_functions s
    = (fst (print (PrintBestFit bf) s), Ok bf) /\
    Forall2 (fun c kv => fst kv = fst c /\ chosen_by (self s) c (snd kv))
            (candidates (train_df (self s))) bf.
Proof.
  intros Hwt Hwi Hne.
  apply d_wf_frame_labels in Hwt. apply d_wf_frame_labels in Hwi.
  destruct (d_best_fit_loop (self s) Hwt Hwi Hne
              (candidates (train_df (self s))) [] s) as (bf & Hrun & Hall).
  - reflexivity.
  - intros c Hc. now apply In_tl.
  - simpl. unfold candidates. rewrite map_tl. now apply NoDup_tl.
  - exists bf. split; [|exact Hall].
    unfold get_best_fit_functions. unfold bind at 1. unfold attr.
    unfold columns_from_1, columns. rewrite <- map_tl.
    unfold candidates in Hrun. simpl app in Hrun.
    erewrite bind_ok by exact Hrun. reflexivity.
Qed.

(** Where the chosen label stands among the candidates. *)
Lemma d_chosen_position {A} (ok : num A -> Prop) (Hord : ordered A ok)
    (h : DataHandler A) (tv : Series A) (k : string) :
  (forall c, In c (candidates (ideal_df h)) -> ok (sum_sq_diff tv (snd c))) ->
  min_by_value (deviations_value h tv) = Ok k ->
  exists iv pre post,
    candidates (ideal_df h) = pre ++ (k, iv) :: post /\
    (forall c, In c pre ->
       vltb A (sum_sq_diff tv iv) (sum_sq_diff tv (snd c)) = true) /\
    (forall c, In c post ->
       vltb A (sum_sq_diff tv (snd c)) (sum_sq_diff tv iv) = false).
Proof.
  intros Hok Hmin.
  assert (Hne : deviations_value h tv <> []).
  { intros E. rewrite E in Hmin. discriminate. }
  destruct (d_min_by_value_split ok Hord (deviations_value h tv))
    as (k' & pre & v & post & Hk & Hd & H1 & H2).
  { intros kv Hkv. unfold deviations_value in Hkv.
    apply in_map_iff in Hkv. destruct Hkv as (c & <- & Hc). simpl.
    now apply Hok. }
  { exact Hne. }
  rewrite Hk in Hmin. injection Hmin as ->.
  unfold deviations_value in Hd.
  apply map_eq_app in Hd. destruct Hd as (cpre & crest & Hc & Hpre & Hrest).
  apply map_eq_cons in Hrest. destruct Hrest as (c & cpost & -> & Hcv & Hpost).
  destruct c as [ck iv]. simpl in Hcv. injection Hcv as -> <-.
  exists iv, cpre, cpost. split; [exact Hc|]. split.
  - intros c Hin. apply (H1 (fst c, sum_sq_diff tv (snd c))).
    rewrite <- Hpre.
    apply (in_map (fun c => (fst c, sum_sq_diff tv (snd c)))) in Hin. exact Hin.
  - intros c Hin. apply (H2 (fst c, sum_sq_diff tv (snd c))).
    rewrite <- Hpost.
    apply (in_map (fun c => (fst c, sum_sq_diff tv (snd c)))) in Hin. exact Hin.
Qed.


End Dtyped_best_fit.

(* ===================================================================== *)
(** * The validation of test points in the arithmetic of the columns      *)
(* ===================================================================== *)

Section Dtyped_validation.
Import Dtyped.
















End Dtyped_validation.

(* ===================================================================== *)
(** * The claims on the least-squares choice, in the arithmetic of the
      columns                                                             *)
(* ===================================================================== *)

Section Dtyped_claims.
Import Dtyped.

(** [<] on [int64] is the order of the integers. *)
Lemma Int64_ordered : ordered Int64 (fun _ => True).
Proof.
  split; simpl.
  - intros a b _ _ H. apply Z.ltb_lt in H. apply Z.ltb_ge. lia.
  - intros a b c _ _ _ H1 H2. apply Z.ltb_lt in H1. apply Z.ltb_ge in H2.
    apply Z.ltb_lt. lia.
Qed.





Lemma d_candidates_labels {V} (df : list (string * list V)) :
  wf_frame df = true -> NoDup (map fst (candidates df)).
Proof.
  intros H. unfold candidates. rewrite map_tl. apply NoDup_tl.
  now apply d_wf_frame_labels.
Qed.



End Dtyped_claims.

(* ===================================================================== *)
(** * The least-squares choice on [int64] columns that do not overflow    *)
(* ===================================================================== *)

Section Int64_exact.
Import Dtyped.

Lemma wrap64_small (z : Z) :
  (- 9223372036854775808 <= z < 9223372036854775808)%Z -> wrap64 z = z.
Proof.
  intros H. unfold wrap64. rewrite Z.mod_small; lia.
Qed.

Lemma Zsquare_bounds (d : Z) : (0 <= d * d /\ - (d * d) <= d <= d * d)%Z.
Proof.
  destruct (Z.lt_trichotomy d 0) as [H|[H|H]]; [nia | subst d; lia | nia].
Qed.

Lemma exact_sum_from_nonneg (l : list (Z * Z)) :
  (0 <= fold_right Z.add 0
          (map (fun p => (fst p - snd p) * (fst p - snd p)) l))%Z.
Proof.
  induction l as [|p l IH]; simpl; [lia|].
  pose proof (Zsquare_bounds (fst p - snd p)). lia.
Qed.

Lemma exact_sum_sq_diff_nonneg (a b : list Z) :
  (0 <= exact_sum_sq_diff a b)%Z.
Proof. apply exact_sum_from_nonneg. Qed.

Lemma Int64_sum_from (l : list (Z * Z)) (acc : Z) :
  (0 <= acc)%Z ->
  (acc + fold_right Z.add 0
           (map (fun p => (fst p - snd p) * (fst p - snd p)) l)
   < 9223372036854775808)%Z ->
  fold_left (fun acc v => wrap64 (acc + v))
    (map (fun v => wrap64 (v * v))
       (map (fun p => wrap64 (fst p - snd p)) l)) acc
  = (acc + fold_right Z.add 0
             (map (fun p => (fst p - snd p) * (fst p - snd p)) l))%Z.
Proof.
  revert acc. induction l as [|[x y] l IH]; intros acc Hacc Hlt; simpl.
  - lia.
  - simpl in Hlt.
    set (rest := fold_right Z.add 0%Z
                   (map (fun p => ((fst p - snd p) * (fst p - snd p))%Z) l))
      in *.
    assert (Hrest : (0 <= rest)%Z) by (apply exact_sum_from_nonneg).
    pose proof (Zsquare_bounds (x - y)) as Hb.
    assert (Hd : wrap64 (x - y) = (x - y)%Z) by (apply wrap64_small; lia).
    rewrite Hd.
    assert (Hsq : wrap64 ((x - y) * (x - y)) = ((x - y) * (x - y))%Z)
      by (apply wrap64_small; lia).
    rewrite Hsq.
    assert (Hs : wrap64 (acc + (x - y) * (x - y))
                 = (acc + (x - y) * (x - y))%Z)
      by (apply wrap64_small; lia).
    rewrite Hs. rewrite IH; [lia | lia | lia].
Qed.

(** A sum of squared differences that fits [int64] is computed exactly. *)
Lemma Int64_sum_sq_diff_exact (a b : Series Int64) :
  (exact_sum_sq_diff a b < 9223372036854775808)%Z ->
  @sum_sq_diff Int64 a b = exact_sum_sq_diff a b.
Proof.
  intros H. unfold sum_sq_diff, series_sq, series_sub, exact_sum_sq_diff in *.
  simpl. rewrite Int64_sum_from; [reflexivity | lia | exact H].
Qed.

Lemma exact_sum_sq_diff_zero (a b : list Z) :
  exact_sum_sq_diff a b = 0%Z <->
  forall k x y, nth_error a k = Some x -> nth_error b k = Some y -> x = y.
Proof.
  revert b. induction a as [|x0 a IH]; intros [|y0 b].
  - split; [intros _ [|k] x y H; discriminate | reflexivity].
  - split; [intros _ [|k] x y H; discriminate | reflexivity].
  - split; [intros _ [|k] x y _ H; discriminate | reflexivity].
  - pose proof (exact_sum_sq_diff_nonneg a b) as Hnn.
    specialize (IH b). unfold exact_sum_sq_diff in *. simpl. split.
    + intros H. pose proof (Zsquare_bounds (x0 - y0)) as Hb.
      intros [|k] x y Hx Hy; simpl in Hx, Hy.
      * injection Hx as <-. injection Hy as <-. lia.
      * apply (proj1 IH) with (k := k); [lia | assumption | assumption].
    + intros H.
      assert (Hxy : x0 = y0) by (apply (H 0); reflexivity).
      assert (Hrest : fold_right Z.add 0%Z
                (map (fun p => ((fst p - snd p) * (fst p - snd p))%Z)
                   (combine a b)) = 0%Z).
      { apply IH. intros k x y Hx Hy. apply (H (S k)); assumption. }
      rewrite Hrest, Hxy. lia.
Qed.

(** X19.  On [int64] tables of one number of rows, when the sums of squared differences of a
    training column with every candidate fit [int64], the column chosen for
    it has the least sum of squared differences over the integers. *)
Theorem best_fit_int64_least_exact_sum (s : State Int64) (col : string)
    (tv : Series Int64) :
  wf_frame (train_df (self s)) = true ->
  wf_frame (ideal_df (self s)) = true ->
  nrows (train_df (self s)) = nrows (ideal_df (self s)) ->
  candidates (ideal_df (self s)) <> [] ->
  In (col, tv) (candidates (train_df (self s))) ->
  (forall c' v', In (c', v') (candidates (ideal_df (self s))) ->
     (exact_sum_sq_diff tv v' < 9223372036854775808)%Z) ->
  exists s' best_fit ideal_col iv,
    get_best_fit_functions s = (s', Ok best_fit) /\
    lookup best_fit col = Some ideal_col /\
    In (ideal_col, iv) (candidates (ideal_df (self s))) /\
    forall c' v', In (c', v') (candidates (ideal_df (self s))) ->
      (exact_sum_sq_diff tv iv <= exact_sum_sq_diff tv v')%Z.
Proof.
  intros Hwt Hwi _ Hne Hin Hfit.
  destruct (d_get_best_fit_functions_run s Hwt Hwi Hne) as (bf & Hrun & Hall).
  destruct (Forall2_In_l _ _ _ _ Hall Hin) as ([k ic] & Hkv & Hk & Hmin).
  simpl in Hk, Hmin. subst k.
  destruct (d_chosen_position (fun _ => True) Int64_ordered _ _ _
              (fun _ _ => I) Hmin)
    as (iv & pre & post & Hc & Hpre & Hpost).
  assert (Hiv : In (ic, iv) (candidates (ideal_df (self s)))).
  { rewrite Hc. apply in_or_app. right. now left. }
  exists (fst (print (PrintBestFit bf) s)), bf, ic, iv.
  split; [exact Hrun|]. split; [|split].
  - apply lookup_unique; [|exact Hkv].
    rewrite (Forall2_keys (chosen_by (self s)) _ _ Hall).
    now apply d_candidates_labels.
  - exact Hiv.
  - intros c' v' Hin'.
    rewrite <- (Int64_sum_sq_diff_exact tv iv (Hfit _ _ Hiv)).
    rewrite <- (Int64_sum_sq_diff_exact tv v' (Hfit _ _ Hin')).
    rewrite Hc in Hin'. apply in_app_or in Hin'.
    destruct Hin' as [H|[H|H]].
    + pose proof (Hpre _ H) as Hlt. cbn [vltb Int64 snd] in Hlt.
      apply Z.ltb_lt in Hlt. lia.
    + injection H as _ <-. lia.
    + pose proof (Hpost _ H) as Hge. cbn [vltb Int64 snd] in Hge.
      apply Z.ltb_ge in Hge. exact Hge.
Qed.

(** X3.  On [int64] tables of one number of rows, when the sums of squared differences of a
    training column with every candidate fit [int64], a training curve that
    coincides, row by row, with one of the candidates is mapped to a
    candidate that coincides with it on every common row. *)
Theorem best_fit_int64_exact_match (s : State Int64) (col c0 : string)
    (tv tv0 : Series Int64) :
  wf_frame (train_df (self s)) = true ->
  wf_frame (ideal_df (self s)) = true ->
  nrows (train_df (self s)) = nrows (ideal_df (self s)) ->
  In (col, tv) (candidates (train_df (self s))) ->
  In (c0, tv0) (candidates (ideal_df (self s))) ->
  (forall c' v', In (c', v') (candidates (ideal_df (self s))) ->
     (exact_sum_sq_diff tv v' < 9223372036854775808)%Z) ->
  (forall k x y, nth_error tv k = Some x -> nth_error tv0 k = Some y ->
                 x = y) ->
  exists s' best_fit ideal_col iv,
    get_best_fit_functions s = (s', Ok best_fit) /\
    lookup best_fit col = Some ideal_col /\
    In (ideal_col, iv) (candidates (ideal_df (self s))) /\
    forall k x y, nth_error tv k = Some x -> nth_error iv k = Some y ->
                  x = y.
Proof.
  intros Hwt Hwi _ Hin Hin0 Hfit Hsame.
  assert (Hne : candidates (ideal_df (self s)) <> []).
  { intros E. rewrite E in Hin0. exact Hin0. }
  destruct (d_get_best_fit_functions_run s Hwt Hwi Hne) as (bf & Hrun & Hall).
  destruct (Forall2_In_l _ _ _ _ Hall Hin) as ([k ic] & Hkv & Hk & Hmin).
  simpl in Hk, Hmin. subst k.
  destruct (d_chosen_position (fun _ => True) Int64_ordered _ _ _
              (fun _ _ => I) Hmin)
    as (iv & pre & post & Hc & Hpre & Hpost).
  assert (Hiv : In (ic, iv) (candidates (ideal_df (self s)))).
  { rewrite Hc. apply in_or_app. right. now left. }
  exists (fst (print (PrintBestFit bf) s)), bf, ic, iv.
  split; [exact Hrun|]. split; [|split].
  - apply lookup_unique; [|exact Hkv].
    rewrite (Forall2_keys (chosen_by (self s)) _ _ Hall).
    now apply d_candidates_labels.
  - exact Hiv.
  - apply exact_sum_sq_diff_zero.
    apply exact_sum_sq_diff_zero in Hsame.
    pose proof (exact_sum_sq_diff_nonneg tv iv) as Hnn.
    assert (Hle : (exact_sum_sq_diff tv iv <= exact_sum_sq_diff tv tv0)%Z).
    { rewrite <- (Int64_sum_sq_diff_exact tv iv (Hfit _ _ Hiv)).
      rewrite <- (Int64_sum_sq_diff_exact tv tv0 (Hfit _ _ Hin0)).
      rewrite Hc in Hin0. apply in_app_or in Hin0.
      destruct Hin0 as [H|[H|H]].
      - pose proof (Hpre _ H) as Hlt. cbn [vltb Int64 snd] in Hlt.
        apply Z.ltb_lt in Hlt. lia.
      - injection H as _ <-. lia.
      - pose proof (Hpost _ H) as Hge. cbn [vltb Int64 snd] in Hge.
        apply Z.ltb_ge in Hge. exact Hge. }
    lia.
Qed.

End Int64_exact.

(* ===================================================================== *)
(** * The theorems on [int64] and [float64] sample data                   *)
(* ===================================================================== *)









Lemma best_fit_int64_least_exact_sum_sample :
  exists s' best_fit ideal_col iv,
    Dtyped.get_best_fit_functions SampleDtyped.state = (s', Ok best_fit) /\
    lookup best_fit "t1" = Some ideal_col /\
    In (ideal_col, iv) (Dtyped.candidates SampleDtyped.ideal) /\
    forall c' v', In (c', v') (Dtyped.candidates SampleDtyped.ideal) ->
      (Dtyped.exact_sum_sq_diff [2; 4; 7]%Z iv
       <= Dtyped.exact_sum_sq_diff [2; 4; 7]%Z v')%Z.
Proof.
  apply (best_fit_int64_least_exact_sum SampleDtyped.state "t1" [2; 4; 7]%Z).
  - reflexivity.
  - reflexivity.
  - reflexivity.
  - discriminate.
  - simpl. auto.
  - intros c' v' H. simpl in H.
    repeat (destruct H as [H|H]; [injection H as <- <-; reflexivity|]).
    contradiction.
Defined.

Lemma best_fit_int64_exact_match_sample :
  exists s' best_fit ideal_col iv,
    Dtyped.get_best_fit_functions SampleDtyped.state = (s', Ok best_fit) /\
    lookup best_fit "t3" = Some ideal_col /\
    In (ideal_col, iv) (Dtyped.candidates SampleDtyped.ideal) /\
    forall k x y, nth_error [1; 2; 3]%Z k = Some x ->
                  nth_error iv k = Some y -> x = y.
Proof.
  apply (best_fit_int64_exact_match SampleDtyped.state "t3" "y1"
           [1; 2; 3]%Z [1; 2; 3]%Z).
  - reflexivity.
  - reflexivity.
  - reflexivity.
  - simpl. auto.
  - simpl. auto.
  - intros c' v' H. simpl in H.
    repeat (destruct H as [H|H]; [injection H as <- <-; reflexivity|]).
    contradiction.
  - intros k x y Hx Hy. congruence.
Defined.

(** The runs on the [int64] sample. *)
Example dtyped_sample_best_fit :
  snd (Dtyped.get_best_fit_functions SampleDtyped.state)
  = Ok SampleDtyped.best_fit.
Proof. reflexivity. Qed.

Example dtyped_sample_validate :
  snd (Dtyped.validate_test_data "test.csv" SampleDtyped.best_fit
         SampleDtyped.state)
  = Ok [(1, 1, "y2", 1); (1, 1, "y3", 0); (1, 1, "y1", 0);
        (3, 5, "y2", 1)]%Z.
Proof. reflexivity. Qed.

(** On [float64] columns the sum for [y1], 10^16 + 1, is rounded to the sum
    for [y2], 10^16: the code sees a tie and keeps [y1]. *)
Example best_fit_float64_rounds_to_tie :
  snd (Dtyped.get_best_fit_functions SampleDtyped.rounding_state)
    = Ok [("t1", "y1")] /\
  @Dtyped.sum_sq_diff (Dtyped.Binary64 Dtyped.fsum_left)
     [0; 0]%float [100000000; 1]%float = 10000000000000000%float /\
  @Dtyped.sum_sq_diff (Dtyped.Binary64 Dtyped.fsum_left)
     [0; 0]%float [100000000; 0]%float = 10000000000000000%float.
Proof. repeat split; reflexivity. Qed.

(** With one cell left empty [test_missing_values] fails, the other tests
    pass. *)
Example unittest_main_with_gap :
  Task02Kinds.last_event
    (Task02.trace (fst (Task02.unittest_main SampleExtra.world_with_gap)))
  = Some (Task02.EvTestReport
            [Task02.Passed; Task02.Failed; Task02.Passed; Task02.Passed]) /\
  snd (Task02.test_missing_values
         (SampleExtra.with_gap, Task02.preprocess_data SampleExtra.with_gap)
         SampleExtra.world_with_gap)
  = Raise (AssertionError "Dataset contains 1 missing values!").
Proof. split; reflexivity. Qed.
